(** * Model-serving dispatcher (mlrun/serving/v2_serving.py)

    A shallow embedding of [V2ModelServer], [_ModelLogPusher] and
    [_init_endpoint_record], and the properties of the dispatcher that the
    specification states about them.

    Python objects are modelled by value: a dict is an association list in
    insertion order, an exception is its class (with the classes it derives
    from) and its message, a method that mutates [self] takes the old record
    and returns the new one.  Two objects are shared, and the embedding
    follows what is written to them from elsewhere: the metrics dict of the
    server, to which the rows of a telemetry batch refer and which is read
    when the batch is pushed; and the server itself, whose [ready] and
    [error] attributes are written by the loading thread.  Calls that leave
    the process (the output stream, the run database, the clock,
    [time.sleep], the logger) are either recorded in a trace or answered by
    an oracle that is part of the input. *)

From Stdlib Require Import ZArith List String Ascii Bool Lia.
Import ListNotations.

Open Scope string_scope.
Open Scope Z_scope.

(* ================================================================== *)
(** ** Python values *)

Module Py.

Set Warnings "-register-all".

(** JSON-like payloads, plus the [context.Response] object that the
    health-check writes into the event body. *)
Inductive value : Type :=
| VNone
| VBool (b : bool)
| VInt (n : Z)
| VStr (s : string)
| VBytes (s : string)
| VList (l : list value)
| VDict (d : list (string * value))
| VResponse (status_code : Z) (body : string).

(** Exception classes the module raises or catches, any other class by its
    name, and [Derived base cls]: a class named [cls] that derives from
    [base].  Every class is an [Exception]. *)
Inductive exn_class : Type :=
| RuntimeError
| ValueError
| TypeError
| AttributeError
| KeyError
| ZeroDivisionError
| NotImplementedError
| PlainException
| MLRunInvalidArgumentError
| MLRunNotFoundError
| MLRunBadRequestError
| OtherError (cls : string)
| Derived (base : exn_class) (cls : string).

Record exn : Type := mk_exn { exn_cls : exn_class; exn_msg : string }.

(** [isinstance(e, MLRunNotFoundError)] and [isinstance(e,
    MLRunBadRequestError)] on the class of [e]: what the clauses
    [except mlrun.errors.MLRunNotFoundError] and
    [except mlrun.errors.MLRunBadRequestError] catch, the class itself and
    every class derived from it. *)
Fixpoint is_not_found (c : exn_class) : bool :=
  match c with
  | MLRunNotFoundError => true
  | Derived base _ => is_not_found base
  | _ => false
  end.

Fixpoint is_bad_request (c : exn_class) : bool :=
  match c with
  | MLRunBadRequestError => true
  | Derived base _ => is_bad_request base
  | _ => false
  end.

Inductive outcome (A : Type) : Type :=
| Return (a : A)
| Raise (e : exn).
Arguments Return {A} a.
Arguments Raise {A} e.

(** [bool(v)] *)
Definition truthy (v : value) : bool :=
  match v with
  | VNone => false
  | VBool b => b
  | VInt n => negb (n =? 0)
  | VStr s => negb (String.eqb s "")
  | VBytes s => negb (String.eqb s "")
  | VList l => match l with [] => false | _ => true end
  | VDict d => match d with [] => false | _ => true end
  | VResponse _ _ => true
  end.

Definition is_dict (v : value) : bool :=
  match v with VDict _ => true | _ => false end.

(** [v == s] for a string literal [s]: only a [str] equals a [str]. *)
Definition eq_str (v : value) (s : string) : bool :=
  match v with VStr t => String.eqb t s | _ => false end.

(** [a or b] *)
Definition py_or (a b : value) : value := if truthy a then a else b.

Definition opt_str (o : option string) : value :=
  match o with Some s => VStr s | None => VNone end.

(** How an optional string prints inside an f-string. *)
Definition fmt_opt (o : option string) : string :=
  match o with Some s => s | None => "None" end.

(** *** dict operations on association lists *)

Fixpoint dict_get {A : Type} (k : string) (d : list (string * A)) : option A :=
  match d with
  | [] => None
  | (k', v) :: r => if String.eqb k' k then Some v else dict_get k r
  end.

(** [d[k] = v]: an existing key keeps its position, a new key goes last. *)
Fixpoint dict_set {A : Type} (k : string) (v : A) (d : list (string * A))
  : list (string * A) :=
  match d with
  | [] => [(k, v)]
  | (k', v') :: r =>
      if String.eqb k' k then (k, v) :: r else (k', v') :: dict_set k v r
  end.

(** [d.get(k, default)] *)
Definition dict_get_default (k : string) (default : value)
  (d : list (string * value)) : value :=
  match dict_get k d with Some v => v | None => default end.

(** *** str operations *)

(** [s.lstrip(c)], [s.rstrip(c)], [s.strip(c)] for a one-character [c]. *)
Fixpoint lstrip (c : ascii) (s : string) : string :=
  match s with
  | EmptyString => EmptyString
  | String a r => if Ascii.eqb a c then lstrip c r else s
  end.

Fixpoint rstrip (c : ascii) (s : string) : string :=
  match s with
  | EmptyString => EmptyString
  | String a r =>
      let r' := rstrip c r in
      if Ascii.eqb a c && String.eqb r' "" then EmptyString else String a r'
  end.

Definition strip (c : ascii) (s : string) : string := rstrip c (lstrip c s).

(** [sub in s] *)
Fixpoint contains (sub s : string) : bool :=
  String.prefix sub s ||
  match s with
  | EmptyString => false
  | String _ r => contains sub r
  end.

(** [s.split(c, 1)] when [c] occurs in [s]. *)
Fixpoint split_once (c : ascii) (s : string) : string * string :=
  match s with
  | EmptyString => (EmptyString, EmptyString)
  | String a r =>
      if Ascii.eqb a c then (EmptyString, r)
      else let (x, y) := split_once c r in (String a x, y)
  end.

Fixpoint join (sep : string) (l : list string) : string :=
  match l with
  | [] => ""
  | [x] => x
  | x :: r => x ++ sep ++ join sep r
  end.

(** [repr] of a list of plain feature names (no quote, backslash or
    control character in a name): ['a', 'b']. *)
Definition repr_str (s : string) : string := "'" ++ s ++ "'".
Definition repr_str_list (l : list string) : string :=
  "[" ++ join ", " (map repr_str l) ++ "]".

(** *** decimal formatting *)

Definition digit (n : Z) : ascii := ascii_of_nat (48 + Z.to_nat (n mod 10)).

(** [%0wd] for [0 <= n < 10^w] *)
Fixpoint zpad (w : nat) (n : Z) : string :=
  match w with
  | O => ""
  | S w' => zpad w' (n / 10) ++ String (digit n) ""
  end.

End Py.
Import Py.

(* ================================================================== *)
(** ** datetime and timedelta (the part of Python's [datetime] used here) *)

Module DateTime.

Record datetime : Type := mk_datetime {
  year : Z; month : Z; day : Z;
  hour : Z; minute : Z; second : Z; microsecond : Z;
  utc : bool  (* tzinfo is timezone.utc (what [now_date()] returns), else naive *)
}.

(** A timedelta is kept normalised, as Python keeps it:
    [0 <= seconds < 86400] and [0 <= microseconds < 1000000]. *)
Record timedelta : Type := mk_timedelta {
  days : Z; seconds : Z; microseconds : Z
}.

Definition timedelta_of (d s us : Z) : timedelta :=
  let total := (d * 86400 + s) * 1000000 + us in
  let secs := total / 1000000 in
  {| days := secs / 86400;
     seconds := secs mod 86400;
     microseconds := total mod 1000000 |}.

(** [timedelta / timedelta(microseconds=1)]: the whole duration in
    microseconds. *)
Definition total_microseconds (t : timedelta) : Z :=
  (days t * 86400 + seconds t) * 1000000 + microseconds t.

Definition is_leap (y : Z) : bool :=
  (y mod 4 =? 0) && (negb (y mod 100 =? 0) || (y mod 400 =? 0)).

Definition days_before_year (y : Z) : Z :=
  let y1 := y - 1 in y1 * 365 + y1 / 4 - y1 / 100 + y1 / 400.

Definition days_before_month (y m : Z) : Z :=
  nth (Z.to_nat m) [0; 0; 31; 59; 90; 120; 151; 181; 212; 243; 273; 304; 334] 0
  + (if (2 <? m) && is_leap y then 1 else 0).

Definition toordinal (t : datetime) : Z :=
  days_before_year (year t) + days_before_month (year t) (month t) + day t.

(** [a - b] for two datetimes of the same awareness. *)
Definition sub (a b : datetime) : timedelta :=
  let secs1 := second a + minute a * 60 + hour a * 3600 in
  let secs2 := second b + minute b * 60 + hour b * 3600 in
  timedelta_of (toordinal a - toordinal b) (secs1 - secs2)
               (microsecond a - microsecond b).

Definition date_part (t : datetime) : string :=
  zpad 4 (year t) ++ "-" ++ zpad 2 (month t) ++ "-" ++ zpad 2 (day t).

Definition time_part (t : datetime) : string :=
  zpad 2 (hour t) ++ ":" ++ zpad 2 (minute t) ++ ":" ++ zpad 2 (second t).

Definition tz_part (t : datetime) : string :=
  if utc t then "+00:00" else "".

(** [t.isoformat(sep=" ", timespec="microseconds")] *)
Definition isoformat_us (t : datetime) : string :=
  date_part t ++ " " ++ time_part t ++ "." ++ zpad 6 (microsecond t)
  ++ tz_part t.

(** [str(t)], that is [t.isoformat(sep=" ")]: the fraction is printed only
    when it is not zero. *)
Definition to_str (t : datetime) : string :=
  date_part t ++ " " ++ time_part t
  ++ (if microsecond t =? 0 then "" else "." ++ zpad 6 (microsecond t))
  ++ tz_part t.

End DateTime.
Import DateTime.

(* ================================================================== *)
(** ** Objects of the serving module *)

(** The output stream ([context.stream.output_stream]).  [received] lists
    every call of its [push(records, partition_key=...)], oldest first;
    [raises_on history call] is the exception the stream raises on [call]
    after [history], if it raises. *)
Definition sink_call : Type := (list value * option string)%type.

Record OutputStream : Type := mk_stream {
  received : list sink_call;
  raises_on : list sink_call -> sink_call -> option exn
}.

(** [_ModelLogPusher].  Its back reference [self.model] is not a field: the
    functions below take the server they read it from. *)
Record ModelLogPusher : Type := mk_pusher {
  verbose : bool;
  hostname : string;
  function_uri : string;
  stream_path : string;
  stream_batch : Z;
  stream_sample : Z;
  output_stream : option OutputStream;
  _worker : value;
  _sample_iter : Z;
  _batch_iter : Z;
  _batch : list value
}.

(** [mlrun.artifacts.ModelArtifact], the fields read here. *)
Record ModelArtifact : Type := mk_artifact {
  art_inputs : list string;      (* feature.name for feature in inputs *)
  art_inputs_dict : value;       (* inputs.to_dict() *)
  art_outputs_dict : value;      (* outputs.to_dict() *)
  art_tag : option string;
  art_labels : list (string * string);
  art_key : option string;       (* metadata.key *)
  art_uid : option string;       (* metadata.uid *)
  art_db_key : option string;    (* spec.db_key *)
  art_parameters : list (string * value)
}.

Record GraphServer : Type := mk_graph_server {
  project : string;
  function_name : string;
  function_tag : string;
  track_models : bool
}.

Record StreamContext : Type := mk_stream_context {
  enabled : bool;
  ctx_hostname : string;
  ctx_function_uri : string;
  stream_uri : string;
  ctx_output_stream : option OutputStream
}.

(** The graph context handed to the server.  [log_stream_batch] and
    [log_stream_sample] are [int(context.get_param(..., 1))]. *)
Record Context : Type := mk_context {
  ctx_verbose : bool;
  _server : option GraphServer;
  server : option GraphServer;
  is_mock : bool;
  monitoring_mock : bool;
  stream : StreamContext;
  worker_id : value;
  log_stream_batch : Z;
  log_stream_sample : Z
}.

(** [V2ModelServer].  [class_name] is [self.__class__.__name__]; [error] is
    [None] for the initial empty string and the load exception otherwise.
    The serving graph always supplies a context. *)
Record V2ModelServer : Type := mk_server {
  class_name : string;
  name : option string;
  version : string;
  context : Context;
  ready : bool;
  error : option exn;
  protocol : string;
  model_path : option string;
  model_spec : option ModelArtifact;
  _input_path : option string;
  _result_path : option string;
  _params : list (string * value);
  metrics : list (string * value);
  labels : list (string * string);
  model : value;
  _versioned_model_name : option string;
  model_endpoint_uid : option string;
  shard_by_endpoint : option bool;
  _model_logger : option ModelLogPusher
}.

Definition labels_value (l : list (string * string)) : value :=
  VDict (map (fun kv => (fst kv, VStr (snd kv))) l).

(* ================================================================== *)
(** ** _ModelLogPusher *)

(** One call of [push].  [now] is what [now_date()] answers if this call
    reaches the emission. *)
Record PushCall : Type := mk_call {
  start : datetime;
  request : value;
  resp : value;
  op : value;
  push_error : option exn;
  partition_key : option string;
  now : datetime
}.

Definition with_sample_iter (p : ModelLogPusher) (i : Z) : ModelLogPusher :=
  {| verbose := verbose p; hostname := hostname p;
     function_uri := function_uri p; stream_path := stream_path p;
     stream_batch := stream_batch p; stream_sample := stream_sample p;
     output_stream := output_stream p; _worker := _worker p;
     _sample_iter := i; _batch_iter := _batch_iter p; _batch := _batch p |}.

Definition with_batch (p : ModelLogPusher) (i : Z) (b : list value)
  : ModelLogPusher :=
  {| verbose := verbose p; hostname := hostname p;
     function_uri := function_uri p; stream_path := stream_path p;
     stream_batch := stream_batch p; stream_sample := stream_sample p;
     output_stream := output_stream p; _worker := _worker p;
     _sample_iter := _sample_iter p; _batch_iter := i; _batch := b |}.

Definition with_output_stream (p : ModelLogPusher) (os : option OutputStream)
  : ModelLogPusher :=
  {| verbose := verbose p; hostname := hostname p;
     function_uri := function_uri p; stream_path := stream_path p;
     stream_batch := stream_batch p; stream_sample := stream_sample p;
     output_stream := os; _worker := _worker p;
     _sample_iter := _sample_iter p; _batch_iter := _batch_iter p;
     _batch := _batch p |}.

(** [_ModelLogPusher.__init__(model, context)] *)
Definition new_pusher (ctx : Context) : ModelLogPusher :=
  {| verbose := ctx_verbose ctx;
     hostname := ctx_hostname (stream ctx);
     function_uri := ctx_function_uri (stream ctx);
     stream_path := stream_uri (stream ctx);
     stream_batch := log_stream_batch ctx;
     stream_sample := log_stream_sample ctx;
     output_stream := ctx_output_stream (stream ctx);
     _worker := worker_id ctx;
     _sample_iter := 0; _batch_iter := 0; _batch := [] |}.

(** [output_stream.push(records, partition_key=pk)] *)
Definition stream_push (os : OutputStream) (records : list value)
  (pk : option string) : outcome unit * OutputStream :=
  let call := (records, pk) in
  let os' := {| received := (received os ++ [call])%list;
                raises_on := raises_on os |} in
  match raises_on os (received os) call with
  | Some e => (Raise e, os')
  | None => (Return tt, os')
  end.

(** [self.output_stream.push(...)] on the pusher; a missing stream has no
    [push] attribute. *)
Definition pusher_stream_push (p : ModelLogPusher) (records : list value)
  (pk : option string) : outcome unit * ModelLogPusher :=
  match output_stream p with
  | None =>
      (Raise (mk_exn AttributeError
                "'NoneType' object has no attribute 'push'"), p)
  | Some os =>
      let (r, os') := stream_push os records pk in
      (r, with_output_stream p (Some os'))
  end.

Section Pusher.

(** [traceback.format_exc()] while the error is being handled. *)
Variable format_exc : exn -> string.

Definition base_data (m : V2ModelServer) (p : ModelLogPusher)
  : list (string * value) :=
  let base :=
    [ ("class", VStr (class_name m));
      ("worker", _worker p);
      ("model", opt_str (name m));
      ("version", VStr (version m));
      ("host", VStr (hostname p));
      ("function_uri", VStr (function_uri p));
      ("endpoint_id", opt_str (model_endpoint_uid m)) ] in
  if truthy (labels_value (labels m))
  then dict_set "labels" (labels_value (labels m)) base
  else base.

(** The record of the error branch (lines 509-516). *)
Definition error_data (m : V2ModelServer) (p : ModelLogPusher) (c : PushCall)
  (err : exn) : value :=
  let data := base_data m p in
  let data := dict_set "request" (request c) data in
  let data := dict_set "op" (op c) data in
  let data := dict_set "when" (VStr (isoformat_us (start c))) data in
  let message := exn_msg err in
  let message :=
    if verbose p then message ++ String (ascii_of_nat 10) (format_exc err)
    else message in
  VDict (dict_set "error" (VStr message) data).

(** [microsec = (now_date() - start).microseconds] *)
Definition microsec_of (c : PushCall) : Z :=
  microseconds (DateTime.sub (now c) (start c)).

(** The row appended to the batch (line 528).  Its last entry is the dict
    [self.model.metrics] itself, not a copy of it: the dict is created once,
    by [__init__], and [set_metric] writes into it, so what the row shows
    under [metrics] is the content of the dict at the time the row is read.
    The buffer therefore holds the five entries computed when the row is
    appended, [buffered_row]; [read_row m] is the row as it reads while the
    server is [m], and [batch_row m c] the row of the call [c] read then. *)
Definition buffered_row (c : PushCall) : value :=
  VList [request c; op c; resp c; VStr (to_str (start c));
         VInt (microsec_of c)].

Definition read_row (m : V2ModelServer) (row : value) : value :=
  match row with
  | VList cols => VList (cols ++ [VDict (metrics m)])%list
  | _ => row
  end.

Definition batch_row (m : V2ModelServer) (c : PushCall) : value :=
  read_row m (buffered_row c).

Definition batch_headers : value :=
  VList [VStr "request"; VStr "op"; VStr "resp"; VStr "when";
         VStr "microsec"; VStr "metrics"].

(** The record of a batch flush (lines 533-542). *)
Definition batch_data (m : V2ModelServer) (p : ModelLogPusher)
  (rows : list value) : value :=
  let data := base_data m p in
  let data := dict_set "headers" batch_headers data in
  VDict (dict_set "values" (VList rows) data).

(** The flat record of an unbatched emission (lines 545-552). *)
Definition flat_data (m : V2ModelServer) (p : ModelLogPusher) (c : PushCall)
  : value :=
  let data := base_data m p in
  let data := dict_set "request" (request c) data in
  let data := dict_set "op" (op c) data in
  let data := dict_set "resp" (resp c) data in
  let data := dict_set "when" (VStr (isoformat_us (start c))) data in
  let data := dict_set "microsec" (VInt (microsec_of c)) data in
  VDict (if truthy (VDict (metrics m))
         then dict_set "metrics" (VDict (metrics m)) data
         else data).

(** The emission, once the sampling gate has let the call through
    (lines 522-553).  The buffer is emptied when the first row of a batch
    arrives (line 525), not when a batch is pushed; the rows of a batch are
    read, with the metrics of the server as they are then, when the batch is
    handed to the stream. *)
Definition emit (m : V2ModelServer) (c : PushCall) (p : ModelLogPusher)
  : outcome unit * ModelLogPusher :=
  if 1 <? stream_batch p then
    let b := if _batch_iter p =? 0 then [] else _batch p in
    let b := (b ++ [buffered_row c])%list in
    let p1 := with_batch p ((_batch_iter p + 1) mod stream_batch p) b in
    if _batch_iter p1 =? 0 then
      pusher_stream_push p1 [batch_data m p1 (map (read_row m) (_batch p1))]
        (partition_key c)
    else (Return tt, p1)
  else
    pusher_stream_push p [flat_data m p c] (partition_key c).

(** [_ModelLogPusher.push] *)
Definition push (m : V2ModelServer) (c : PushCall) (p : ModelLogPusher)
  : outcome unit * ModelLogPusher :=
  match push_error c with
  | Some err =>
      pusher_stream_push p [error_data m p c err] (partition_key c)
  | None =>
      if stream_sample p =? 0 then
        (Raise (mk_exn ZeroDivisionError
                  "integer division or modulo by zero"), p)
      else
        let p1 := with_sample_iter p ((_sample_iter p + 1) mod stream_sample p) in
        match output_stream p1 with
        | Some _ => if _sample_iter p1 =? 0 then emit m c p1 else (Return tt, p1)
        | None => (Return tt, p1)
        end
  end.

(** Successive calls of [push] on one pusher; each call is made whatever
    the previous one returned or raised. *)
Fixpoint push_all (m : V2ModelServer) (cs : list PushCall) (p : ModelLogPusher)
  : ModelLogPusher :=
  match cs with
  | [] => p
  | c :: r => push_all m r (snd (push m c p))
  end.

Definition sink_calls (p : ModelLogPusher) : list sink_call :=
  match output_stream p with Some os => received os | None => [] end.

End Pusher.

(* ================================================================== *)
(** ** V2ModelServer *)

Record Trigger : Type := mk_trigger { kind : string }.

Record Event : Type := mk_event {
  id : value;
  path : string;
  method : string;
  body : value;
  trigger : option Trigger;
  terminated : bool
}.

Inductive monitoring_mode : Type := mode_enabled | mode_disabled.

(** [mlrun.common.schemas.ModelEndpoint], flattened: metadata, spec and
    status fields. *)
Record ModelEndpoint : Type := mk_endpoint {
  ep_project : string;
  ep_labels : list (string * string);
  ep_name : option string;
  ep_uid : option string;
  ep_function_name : string;
  ep_function_uid : option string;
  ep_function_tag : string;
  ep_model_name : option string;
  ep_model_db_key : option string;
  ep_model_uid : option string;
  ep_model_class : string;
  ep_model_tag : option string;
  ep_monitoring_mode : monitoring_mode
}.

(** Keys of a patch ([ModelEndpointSchema]). *)
Inductive ModelEndpointSchema : Type :=
| FUNCTION_UID | MODEL_NAME | MODEL_UID | MODEL_TAG | MODEL_DB_KEY
| LABELS | MODEL_CLASS | MONITORING_MODE.

Inductive db_call : Type :=
| GetModelEndpoint (project : string) (name : option string)
    (function_name function_tag : string)
| GetFunction (name project tag : string)
| CreateModelEndpoint (model_endpoint : ModelEndpoint)
| PatchModelEndpoint (project : string) (name endpoint_id : option string)
    (attributes : list (ModelEndpointSchema * value)).

(** What a call leaves outside the server object, in order. *)
Inductive effect : Type :=
| ESleep (secs : Z)
| ELog (level msg : string)
| ELoad
| EThreadStart
| EDb (c : db_call).

(** What lies outside the module.  The run database behind
    [mlrun.get_run_db()] and the model store behind
    [mlrun.artifacts.get_model]: each answers a call with a result or an
    exception; [get_function] answers with the [metadata.uid] of the
    function record it returns.  The schema classes of
    [mlrun.common.schemas], which validate a record when it is constructed:
    [endpoint_schema_error] is the error they raise for a record that has a
    name, if any.  The thread scheduler: [loader_progress] is what the
    loading thread, which works on the server object itself, has written to
    it by the time [post_init] goes on after starting the thread (the
    identity when the thread has not run yet). *)
Record External : Type := mk_external {
  get_model_endpoint :
    string -> option string -> string -> string -> outcome ModelEndpoint;
  get_function : string -> string -> string -> outcome (option string);
  create_model_endpoint : ModelEndpoint -> outcome ModelEndpoint;
  patch_model_endpoint :
    string -> option string -> option string ->
    list (ModelEndpointSchema * value) -> outcome ModelEndpoint;
  artifacts_get_model :
    string -> string -> outcome (value * option ModelArtifact * value);
  endpoint_schema_error : ModelEndpoint -> option exn;
  loader_progress : V2ModelServer -> V2ModelServer
}.

(** The methods a model class overrides, and its [op_<name>] methods, each
    taken as a function of its arguments.  Only [load] is given the server
    and returns it: what the other methods do to the server object (a
    [predict] that calls [set_metric], say) is not followed, so the server
    that [do_event] returns is the server as the dispatcher itself leaves
    it. *)
Record Hooks : Type := mk_hooks {
  load : V2ModelServer -> outcome unit * V2ModelServer;
  preprocess : value -> value -> outcome value;
  validate : V2ModelServer -> value -> value -> outcome value;
  predict : value -> outcome value;
  explain : value -> outcome value;
  postprocess : value -> outcome value;
  logged_results : value -> value -> value -> value * value;
  custom_op : string -> option (Event -> outcome value)
}.

(** What the dispatcher reads from outside while it handles one event: the
    clock at entry, the clock at the telemetry emission, and the [ready] and
    [error] attributes as the loading thread has left them when the [k]-th
    sleep of a readiness wait ends. *)
Record Env : Type := mk_env {
  now_start : datetime;
  now_emit : datetime;
  poll : nat -> bool * option exn
}.

Definition with_model_spec (m : V2ModelServer) (s : option ModelArtifact)
  (ps : list (string * value)) : V2ModelServer :=
  {| class_name := class_name m; name := name m; version := version m;
     context := context m; ready := ready m; error := error m;
     protocol := protocol m; model_path := model_path m; model_spec := s;
     _input_path := _input_path m; _result_path := _result_path m;
     _params := ps; metrics := metrics m; labels := labels m;
     model := model m; _versioned_model_name := _versioned_model_name m;
     model_endpoint_uid := model_endpoint_uid m;
     shard_by_endpoint := shard_by_endpoint m;
     _model_logger := _model_logger m |}.

Definition with_ready (m : V2ModelServer) (r : bool) : V2ModelServer :=
  {| class_name := class_name m; name := name m; version := version m;
     context := context m; ready := r; error := error m;
     protocol := protocol m; model_path := model_path m;
     model_spec := model_spec m;
     _input_path := _input_path m; _result_path := _result_path m;
     _params := _params m; metrics := metrics m; labels := labels m;
     model := model m; _versioned_model_name := _versioned_model_name m;
     model_endpoint_uid := model_endpoint_uid m;
     shard_by_endpoint := shard_by_endpoint m;
     _model_logger := _model_logger m |}.

Definition with_error (m : V2ModelServer) (e : option exn) : V2ModelServer :=
  {| class_name := class_name m; name := name m; version := version m;
     context := context m; ready := ready m; error := e;
     protocol := protocol m; model_path := model_path m;
     model_spec := model_spec m;
     _input_path := _input_path m; _result_path := _result_path m;
     _params := _params m; metrics := metrics m; labels := labels m;
     model := model m; _versioned_model_name := _versioned_model_name m;
     model_endpoint_uid := model_endpoint_uid m;
     shard_by_endpoint := shard_by_endpoint m;
     _model_logger := _model_logger m |}.

Definition with_endpoint_uid (m : V2ModelServer) (u : option string)
  : V2ModelServer :=
  {| class_name := class_name m; name := name m; version := version m;
     context := context m; ready := ready m; error := error m;
     protocol := protocol m; model_path := model_path m;
     model_spec := model_spec m;
     _input_path := _input_path m; _result_path := _result_path m;
     _params := _params m; metrics := metrics m; labels := labels m;
     model := model m; _versioned_model_name := _versioned_model_name m;
     model_endpoint_uid := u;
     shard_by_endpoint := shard_by_endpoint m;
     _model_logger := _model_logger m |}.

Definition with_model_logger (m : V2ModelServer) (p : option ModelLogPusher)
  : V2ModelServer :=
  {| class_name := class_name m; name := name m; version := version m;
     context := context m; ready := ready m; error := error m;
     protocol := protocol m; model_path := model_path m;
     model_spec := model_spec m;
     _input_path := _input_path m; _result_path := _result_path m;
     _params := _params m; metrics := metrics m; labels := labels m;
     model := model m; _versioned_model_name := _versioned_model_name m;
     model_endpoint_uid := model_endpoint_uid m;
     shard_by_endpoint := shard_by_endpoint m;
     _model_logger := p |}.

Definition with_body (e : Event) (b : value) (t : bool) : Event :=
  {| id := id e; path := path e; method := method e; body := b;
     trigger := trigger e; terminated := t |}.

Definition opt_truthy (o : option string) : bool :=
  match o with Some s => negb (String.eqb s "") | None => false end.

(** [V2ModelServer.__init__]; [cls] is the class being instantiated. *)
Definition init (cls : string) (ctx : Context) (nm : option string)
  (mpath : option string) (mdl : value) (proto : option string)
  (input_path result_path : option string) (shard : option bool)
  (kwargs : list (string * value)) : V2ModelServer :=
  let split :=
    match nm with
    | Some s => if negb (String.eqb s "") && contains ":" s
                then let (a, b) := split_once ":" s in (Some a, b)
                else (nm, "")
    | None => (nm, "")
    end in
  {| class_name := cls;
     name := fst split;
     version := snd split;
     context := ctx;
     ready := truthy mdl;
     error := None;
     protocol := match proto with
                 | Some s => if String.eqb s "" then "v2" else s
                 | None => "v2"
                 end;
     model_path := mpath;
     model_spec := None;
     _input_path := input_path;
     _result_path := result_path;
     _params := kwargs;
     metrics := [];
     labels := [];
     model := if truthy mdl then mdl else VNone;
     _versioned_model_name := None;
     model_endpoint_uid := None;
     shard_by_endpoint := shard;
     _model_logger := None |}.

(** [V2ModelServer.load], the method of the base class. *)
Definition base_load (m : V2ModelServer) : outcome unit * V2ModelServer :=
  if negb (ready m) && negb (truthy (model m))
  then (Raise (mk_exn ValueError
                 "please specify a load method or a model object"), m)
  else (Return tt, m).

Definition or_latest (tag : string) : string :=
  if String.eqb tag "" then "latest" else tag.

Definition mode_of (b : bool) : monitoring_mode :=
  if b then mode_enabled else mode_disabled.

Definition mode_value (b : bool) : value :=
  VStr (if b then "enabled" else "disabled").

(** [a == b] on optional strings and on label dicts (a dict comparison does
    not look at the order of the keys). *)
Definition opt_eqb (a b : option string) : bool :=
  match a, b with
  | Some x, Some y => String.eqb x y
  | None, None => true
  | _, _ => false
  end.

Definition labels_eqb (a b : list (string * string)) : bool :=
  (List.length a =? List.length b)%nat &&
  forallb (fun kv => opt_eqb (dict_get (fst kv) b) (Some (snd kv))) a.

(** [if changed: attributes[k] = v], the keys being distinct. *)
Definition set_if (changed : bool) (k : ModelEndpointSchema) (v : value)
  (acc : list (ModelEndpointSchema * value))
  : list (ModelEndpointSchema * value) :=
  if changed then (acc ++ [(k, v)])%list else acc.

Section Serving.

(** [mlrun.serving.utils._extract_input_data] and [_update_result_body]
    (not part of this module), as the value each returns;
    [traceback.format_exc] and [str(...)] of a value. *)
Variable _extract_input_data : option string -> value -> value.
Variable _update_result_body : option string -> value -> value -> value.
Variable format_exc : exn -> string.
Variable py_str : value -> string.

Variable ext : External.

(** [V2ModelServer.get_model(suffix)] *)
Definition get_model (m : V2ModelServer) (suffix : string)
  : outcome (value * value) * V2ModelServer :=
  if opt_truthy (model_path m) then
    match artifacts_get_model ext (fmt_opt (model_path m)) suffix with
    | Raise e => (Raise e, m)
    | Return (model_file, spec, extra_dataitems) =>
        let ps :=
          match spec with
          | Some a =>
              fold_left (fun acc kv => dict_set (fst kv) (snd kv) acc)
                        (art_parameters a) (_params m)
          | None => _params m
          end in
        (Return (model_file, extra_dataitems), with_model_spec m spec ps)
    end
  else (Return (VNone, VNone), m).

(** [V2ModelServer._load_and_update_state] *)
Definition _load_and_update_state (h : Hooks) (m : V2ModelServer)
  : outcome unit * V2ModelServer * list effect :=
  match load h m with
  | (Raise exc, m1) =>
      (Raise (mk_exn RuntimeError ("failed to load model " ++ fmt_opt (name m1))),
       with_error m1 (Some exc),
       [ELoad; ELog "error" (format_exc exc)])
  | (Return _, m1) =>
      (Return tt, with_ready m1 true,
       [ELoad; ELog "info" ("model " ++ fmt_opt (name m1) ++ " was loaded")])
  end.

(** Lines 572-573: [if not model.model_spec: model.get_model()] *)
Definition ensure_model_spec (m : V2ModelServer)
  : outcome (value * value) * V2ModelServer :=
  match model_spec m with
  | None => get_model m ""
  | Some _ => (Return (VNone, VNone), m)
  end.

(** The record built for a model that has none yet (lines 621-643); it
    is built only when models are tracked, hence in the enabled mode.  The
    schema classes validate it while it is built: see [schema_error]. *)
Definition new_endpoint (graph_server : GraphServer) (m : V2ModelServer)
  (function_uid : option string) : ModelEndpoint :=
  {| ep_project := project graph_server;
     ep_labels := match model_spec m with Some a => art_labels a | None => [] end;
     ep_name := name m;
     ep_uid := None;
     ep_function_name := function_name graph_server;
     ep_function_uid := function_uid;
     ep_function_tag := or_latest (function_tag graph_server);
     ep_model_name := match model_spec m with Some a => art_key a | None => None end;
     ep_model_db_key := match model_spec m with Some a => art_db_key a | None => None end;
     ep_model_uid := match model_spec m with Some a => art_uid a | None => None end;
     ep_model_class := class_name m;
     ep_model_tag := match model_spec m with Some a => art_tag a | None => None end;
     ep_monitoring_mode := mode_of true |}.

(** The error that the construction of the record raises, if any:
    [ModelEndpointMetadata] requires a name, so a record for a server whose
    name is [None] is refused with the schema's [ValidationError] (its
    text, which names the field and the constraint, is abridged here); any
    other constraint of the schema is answered by [endpoint_schema_error]. *)
Definition schema_error (ep : ModelEndpoint) : option exn :=
  match ep_name ep with
  | None =>
      Some (mk_exn (OtherError "ValidationError")
              "1 validation error for ModelEndpointMetadata: name")
  | Some _ => endpoint_schema_error ext ep
  end.

(** [_init_endpoint_record(graph_server, model)] *)
Definition _init_endpoint_record (graph_server : GraphServer)
  (m : V2ModelServer) : outcome (option string) * V2ModelServer * list effect :=
  let t0 := [ELog "info" "Initializing endpoint records"] in
  let (r0, m) := ensure_model_spec m in
  match r0 with
  | Raise e => (Raise e, m, t0)
  | Return _ =>
  let model_name := match model_spec m with Some a => art_key a | None => None end in
  let model_db_key := match model_spec m with Some a => art_db_key a | None => None end in
  let model_uid := match model_spec m with Some a => art_uid a | None => None end in
  let model_tag := match model_spec m with Some a => art_tag a | None => None end in
  let model_labels := match model_spec m with Some a => art_labels a | None => [] end in
  let tag := or_latest (function_tag graph_server) in
  let t1 := (t0 ++ [EDb (GetModelEndpoint (project graph_server) (name m)
                           (function_name graph_server) tag)])%list in
  let lookup :=
    match get_model_endpoint ext (project graph_server) (name m)
            (function_name graph_server) tag with
    | Return ep => inl (Some ep)
    | Raise err =>
        if is_not_found (exn_cls err) then inl None else inr err
    end in
  match lookup with
  | inr err =>
      if is_bad_request (exn_cls err) then
        (Return None, m,
         (t1 ++ [ELog "info" ("Cannot get the model endpoints store"
                              ++ exn_msg err)])%list)
      else (Raise err, m, t1)
  | inl model_ep =>
  let t2 := (t1 ++ [EDb (GetFunction (function_name graph_server)
                           (project graph_server) tag)])%list in
  match get_function ext (function_name graph_server) (project graph_server) tag with
  | Raise e => (Raise e, m, t2)
  | Return function_uid =>
  let track :=
    match server (context m) with
    | Some s => Return (track_models s)
    | None => Raise (mk_exn AttributeError
                       "'NoneType' object has no attribute 'track_models'")
    end in
  match model_ep with
  | None =>
      match track with
      | Raise e => (Raise e, m, t2)
      | Return false => (Return None, m, t2)
      | Return true =>
          let t3 := (t2 ++ [ELog "info" "Creating a new model endpoint record"])%list in
          let new_ep := new_endpoint graph_server m function_uid in
          match schema_error new_ep with
          | Some e => (Raise e, m, t3)
          | None =>
              let t4 := (t3 ++ [EDb (CreateModelEndpoint new_ep)])%list in
              match create_model_endpoint ext new_ep with
              | Raise e => (Raise e, m, t4)
              | Return ep => (Return (ep_uid ep), m, t4)
              end
          end
      end
  | Some ep =>
      let attributes := [] in
      let attributes :=
        set_if (negb (opt_eqb function_uid (ep_function_uid ep)))
            FUNCTION_UID (opt_str function_uid) attributes in
      let attributes :=
        set_if (negb (opt_eqb model_name (ep_model_name ep)))
            MODEL_NAME (opt_str model_name) attributes in
      let attributes :=
        set_if (negb (opt_eqb model_uid (ep_model_uid ep)))
            MODEL_UID (opt_str model_uid) attributes in
      let attributes :=
        set_if (negb (opt_eqb model_tag (ep_model_tag ep)))
            MODEL_TAG (opt_str model_tag) attributes in
      let attributes :=
        set_if (negb (opt_eqb model_db_key (ep_model_db_key ep)))
            MODEL_DB_KEY (opt_str model_db_key) attributes in
      let attributes :=
        set_if (negb (labels_eqb model_labels (ep_labels ep)))
            LABELS (labels_value model_labels) attributes in
      let attributes :=
        set_if (negb (String.eqb (class_name m) (ep_model_class ep)))
            MODEL_CLASS (VStr (class_name m)) attributes in
      match track with
      | Raise e => (Raise e, m, t2)
      | Return tm =>
          let enabled_now :=
            match ep_monitoring_mode ep with
            | mode_enabled => true
            | mode_disabled => false
            end in
          let attributes :=
            set_if (negb (Bool.eqb enabled_now tm))
                MONITORING_MODE (mode_value tm) attributes in
          match attributes with
          | [] => (Return (ep_uid ep), m, t2)
          | _ =>
              let t3 := (t2 ++ [ELog "info" "Updating model endpoint attributes";
                                EDb (PatchModelEndpoint (ep_project ep) (ep_name ep)
                                       (ep_uid ep) attributes)])%list in
              match patch_model_endpoint ext (ep_project ep) (ep_name ep)
                      (ep_uid ep) attributes with
              | Raise e => (Raise e, m, t3)
              | Return ep' => (Return (ep_uid ep'), m, t3)
              end
          end
      end
  end
  end
  end
  end.

(** [V2ModelServer.post_init(mode)].  In the mode async the loading thread
    runs [_load_and_update_state] on the same object while [post_init] goes
    on: what [post_init] reads after [t.start()] is the server as the thread
    has left it by then, [loader_progress ext m]. *)
Definition post_init (h : Hooks) (mode : string) (m : V2ModelServer)
  : outcome unit * V2ModelServer * list effect :=
  let '(r, m1, t1) :=
    if negb (ready m) then
      if String.eqb mode "async" then
        let m1 := loader_progress ext m in
        (Return tt, m1,
         [EThreadStart;
          ELog "info" ("started async model loading for " ++ fmt_opt (name m1))])
      else _load_and_update_state h m
    else (Return tt, m, []) in
  match r with
  | Raise e => (Raise e, m1, t1)
  | Return _ =>
      let srv := match _server (context m1) with
                 | Some s => Some s
                 | None => server (context m1)
                 end in
      match srv with
      | None =>
          (Return tt, m1,
           (t1 ++ [ELog "warn"
                     "GraphServer not initialized for VotingEnsemble instance"])%list)
      | Some gs =>
          let '(r2, m2, t2) :=
            if negb (is_mock (context m1)) || monitoring_mock (context m1) then
              let '(ru, m', t') := _init_endpoint_record gs m1 in
              match ru with
              | Raise e => (Raise e, m', t')
              | Return uid => (Return tt, with_endpoint_uid m' uid, t')
              end
            else (Return tt, m1, []) in
          match r2 with
          | Raise e => (Raise e, m2, (t1 ++ t2)%list)
          | Return _ =>
              (Return tt,
               with_model_logger m2
                 (if enabled (stream (context m2))
                  then Some (new_pusher (context m2)) else None),
               (t1 ++ t2)%list)
          end
      end
  end.

(** The loop of [_check_readiness]: [n] rounds left, [k] sleeps done. *)
Fixpoint wait_ready (n k : nat) (pl : nat -> bool * option exn)
  : bool * list effect :=
  match n with
  | O => (false, [])
  | S n' =>
      if fst (pl (S k)) then (true, [ESleep 5])
      else let (ok, t) := wait_ready n' (S k) pl in (ok, ESleep 5 :: t)
  end.

Definition fmt_error (e : option exn) : string :=
  match e with Some x => exn_msg x | None => "" end.

Definition interactive (event : Event) : bool :=
  match trigger event with
  | None => true
  | Some t => String.eqb (kind t) "http" || String.eqb (kind t) ""
  end.

(** [V2ModelServer._check_readiness(event)]: how the call ends and what
    it does meanwhile.  The method assigns nothing; what the loading thread
    has assigned by the end of a wait is put on the server by [after_wait]
    below. *)
Definition _check_readiness (m : V2ModelServer) (pl : nat -> bool * option exn)
  (event : Event) : outcome unit * list effect :=
  if ready m then (Return tt, [])
  else if interactive event then
    (Raise (mk_exn RuntimeError
              ("model " ++ fmt_opt (name m) ++ " is not ready yet")), [])
  else
    let (ok, slept) := wait_ready 50 0 pl in
    let t := ELog "info" ("waiting for model " ++ fmt_opt (name m) ++ " to load")
             :: slept in
    if ok then (Return tt, t)
    else (Raise (mk_exn RuntimeError
                   ("model " ++ fmt_opt (name m) ++ " is not ready "
                    ++ fmt_error (snd (pl 50%nat)))), t).

(** [[d[key] for key in order]]; [None] stands for the [KeyError]. *)
Fixpoint pick (order : list string) (d : list (string * value))
  : option (list value) :=
  match order with
  | [] => Some []
  | k :: r =>
      match dict_get k d with
      | None => None
      | Some v =>
          match pick r d with
          | None => None
          | Some vs => Some (v :: vs)
          end
      end
  end.

(** [[[d[key] for key in order] for d in inputs]] on a list of dicts. *)
Fixpoint pick_all (order : list string) (inputs : list value)
  : option (list value) :=
  match inputs with
  | [] => Some []
  | VDict d :: r =>
      match pick order d with
      | None => None
      | Some row =>
          match pick_all order r with
          | None => None
          | Some rows => Some (VList row :: rows)
          end
      end
  | _ :: _ => None
  end.

Definition missing_keys_error (input_order : list string) : exn :=
  mk_exn MLRunInvalidArgumentError
    ("Input dictionary don't contain all the necessary input keys : "
     ++ repr_str_list input_order).

(** [V2ModelServer._inputs_to_list(request)] *)
Definition _inputs_to_list (m : V2ModelServer) (request : value)
  : outcome value :=
  match model_spec m with
  | Some a =>
      match art_inputs a with
      | [] =>
          Raise (mk_exn MLRunInvalidArgumentError
            ("In order to use predict_dict or infer_dict operation you have to provide `model_path` "
             ++ "to the model server and to load it by `load()` function"))
      | input_order =>
          match request with
          | VDict req =>
              let inputs := dict_get_default "inputs" VNone req in
              let new_inputs :=
                match inputs with
                | VList items =>
                    if forallb is_dict items then
                      match pick_all input_order items with
                      | Some rows => Return (VList rows)
                      | None => Raise (missing_keys_error input_order)
                      end
                    else
                      Raise (mk_exn MLRunInvalidArgumentError
                        ("When using predict_dict or infer_dict operation the inputs must be "
                         ++ "of type `list[dict]` or `dict`"))
                | VDict d =>
                    match pick input_order d with
                    | Some row => Return (VList row)
                    | None => Raise (missing_keys_error input_order)
                    end
                | _ =>
                    Raise (mk_exn MLRunInvalidArgumentError
                      ("When using predict_dict or infer_dict operation the inputs must be "
                       ++ "of type `list[dict]` or `dict`"))
                end in
              match new_inputs with
              | Raise e => Raise e
              | Return v => Return (VDict (dict_set "inputs" v req))
              end
          | _ =>
              Raise (mk_exn AttributeError "object has no attribute 'get'")
          end
      end
  | None =>
      Raise (mk_exn MLRunInvalidArgumentError
        ("In order to use predict_dict or infer_dict operation you have to provide `model_path` "
         ++ "to the model server and to load it by `load()` function"))
  end.

Definition dquote : string := String (ascii_of_nat 34) "".

Definition missing_inputs_msg : string :=
  "Expected key " ++ dquote ++ "inputs" ++ dquote ++ " in request body".

Definition inputs_not_list_msg : string :=
  "Expected " ++ dquote ++ "inputs" ++ dquote ++ " to be a list".

(** [V2ModelServer.validate], the method of the base class. *)
Definition base_validate (m : V2ModelServer) (request operation : value)
  : outcome value :=
  if String.eqb (protocol m) "v2" then
    match request with
    | VDict d =>
        match dict_get "inputs" d with
        | None => Raise (mk_exn PlainException
                           missing_inputs_msg)
        | Some (VList _) => Return request
        | Some _ => Raise (mk_exn PlainException
                             inputs_not_list_msg)
        end
    | VList l =>
        if existsb (fun v => eq_str v "inputs") l
        then Raise (mk_exn TypeError "list indices must be integers or slices, not str")
        else Raise (mk_exn PlainException
                      missing_inputs_msg)
    | VStr t =>
        if contains "inputs" t
        then Raise (mk_exn TypeError "string indices must be integers")
        else Raise (mk_exn PlainException
                      missing_inputs_msg)
    | _ => Raise (mk_exn TypeError "argument is not iterable")
    end
  else Return request.

(** The methods of the base class; [predict] and [explain] are abstract. *)
Definition base_hooks : Hooks :=
  {| load := base_load;
     preprocess := fun request _ => Return request;
     validate := base_validate;
     predict := fun _ => Raise (mk_exn NotImplementedError "");
     explain := fun _ => Raise (mk_exn NotImplementedError "");
     postprocess := fun request => Return request;
     logged_results := fun _ _ _ => (VNone, VNone);
     custom_op := fun _ => None |}.

Definition op_str (o : value) : string :=
  match o with VStr t => t | _ => "" end.

(** [V2ModelServer._pre_event_processing_actions(event, event_body, op)];
    [op] is one of the five operation names here. *)
Definition _pre_event_processing_actions (h : Hooks) (env : Env)
  (m : V2ModelServer) (event : Event) (event_body o : value)
  : outcome value * list effect :=
  match _check_readiness m (poll env) event with
  | (Raise e, t) => (Raise e, t)
  | (Return _, t) =>
      let converted :=
        if contains "_dict" (op_str o) then _inputs_to_list m event_body
        else Return event_body in
      match converted with
      | Raise e => (Raise e, t)
      | Return event_body =>
          match preprocess h event_body o with
          | Raise e => (Raise e, t)
          | Return req => (validate h m req o, t)
          end
      end
  end.

(** Lines 257-267 of [do_event]: the operation and the request id. *)
Definition operation_of (event : Event) (event_body : value) : value * value :=
  let o := VStr (strip "/" (path event)) in
  let event_id := id event in
  let (o, event_id) :=
    match event_body with
    | VDict d =>
        if truthy event_body
        then (py_or o (dict_get_default "operation" VNone d),
              dict_get_default "id" event_id d)
        else (o, event_id)
    | _ => (o, event_id)
    end in
  let o := if negb (truthy o) && negb (String.eqb (method event) "GET")
           then VStr "infer" else o in
  (o, event_id).

(** [request["id"] = event_id] *)
Definition set_id (req event_id : value) : outcome value :=
  match req with
  | VDict d => Return (VDict (dict_set "id" event_id d))
  | _ => Raise (mk_exn TypeError "object does not support item assignment")
  end.

(** The response of the predict family (lines 291-298). *)
Definition predict_response (m : V2ModelServer) (event_id outputs : value)
  (start_ : datetime) : list (string * value) :=
  let response :=
    [ ("id", event_id);
      ("model_name", opt_str (name m));
      ("outputs", outputs);
      ("timestamp", VStr (isoformat_us start_)) ] in
  if negb (String.eqb (version m) "")
  then dict_set "model_version" (VStr (version m)) response
  else response.

(** The response of [explain] (lines 354-360). *)
Definition explain_response (m : V2ModelServer) (event_id outputs : value)
  : list (string * value) :=
  let response :=
    [ ("id", event_id);
      ("model_name", opt_str (name m));
      ("outputs", outputs) ] in
  if negb (String.eqb (version m) "")
  then dict_set "model_version" (VStr (version m)) response
  else response.

Definition partition_key_of (m : V2ModelServer) : option string :=
  match shard_by_endpoint m with
  | Some false => None
  | _ => model_endpoint_uid m
  end.

(** The arguments of the [push] of an inference error (lines 282-288). *)
Definition error_call (env : Env) (m : V2ModelServer) (req o : value)
  (exc : exn) : PushCall :=
  {| start := now_start env; request := req; resp := VNone;
     op := o; push_error := Some exc;
     partition_key := partition_key_of m;
     now := now_emit env |}.

(** The arguments of the [push] of a served request (lines 373-388): the
    request and the response themselves, unless [logged_results] chooses
    what is tracked. *)
Definition tracked_call (h : Hooks) (env : Env) (m : V2ModelServer)
  (req response o event_id : value) : PushCall :=
  let (inputs, outputs) := logged_results h req response o in
  match inputs, outputs with
  | VNone, VNone =>
      {| start := now_start env; request := req; resp := response;
         op := o; push_error := None;
         partition_key := partition_key_of m;
         now := now_emit env |}
  | _, _ =>
      {| start := now_start env;
         request := VDict [("id", event_id);
                           ("inputs", py_or inputs (VList []))];
         resp := VDict [("outputs", py_or outputs (VList []))];
         op := o; push_error := None;
         partition_key := partition_key_of m;
         now := now_emit env |}
  end.

(** The [except] clause around [predict] and [explain] (lines 279-289). *)
Definition on_inference_error (env : Env) (m : V2ModelServer)
  (req o event_id : value) (exc : exn) (t : list effect)
  : outcome Event * V2ModelServer * list effect :=
  match set_id req event_id with
  | Raise e => (Raise e, m, t)
  | Return req =>
      match _model_logger m with
      | Some p =>
          let (r, p') := push format_exc m (error_call env m req o exc) p in
          match r with
          | Raise e => (Raise e, with_model_logger m (Some p'), t)
          | Return _ => (Raise exc, with_model_logger m (Some p'), t)
          end
      | None => (Raise exc, m, t)
      end
  end.

(** The tail of [do_event] shared by the predict family and [explain]
    (lines 371-390). *)
Definition finish_event (h : Hooks) (env : Env) (m : V2ModelServer)
  (event : Event) (original_body req o event_id : value)
  (response : value) (t : list effect)
  : outcome Event * V2ModelServer * list effect :=
  match postprocess h response with
  | Raise e => (Raise e, m, t)
  | Return response =>
      let pushed :=
        match _model_logger m with
        | Some p =>
            let c := tracked_call h env m req response o event_id in
            let (r, p') := push format_exc m c p in
            (r, with_model_logger m (Some p'))
        | None => (Return tt, m)
        end in
      match pushed with
      | (Raise e, m') => (Raise e, m', t)
      | (Return _, m') =>
          (Return (with_body event
                     (_update_result_body (_result_path m) original_body response)
                     (terminated event)),
           m', t)
      end
  end.

(** The [ready] and [error] attributes are written by the loading thread,
    not by the dispatcher.  A readiness check that has waited has read them
    as the thread has left them: after its last poll, the [k]-th, the server
    object holds what that poll found.  [after_wait env m event m'] is [m']
    with these two attributes as a check of [event] on [m] leaves them. *)
Definition after_wait (env : Env) (m : V2ModelServer) (event : Event)
  (m' : V2ModelServer) : V2ModelServer :=
  if ready m || interactive event then m'
  else
    let k := List.length (snd (wait_ready 50 0 (poll env))) in
    with_error (with_ready m' (fst (poll env k))) (snd (poll env k)).

Definition settled (env : Env) (m : V2ModelServer) (event : Event)
  (r : outcome Event * V2ModelServer * list effect)
  : outcome Event * V2ModelServer * list effect :=
  let '(res, m', t) := r in (res, after_wait env m event m', t).

(** [V2ModelServer.do_event(event)].  [_extract_input_data] and
    [_update_result_body] stand for the value these helpers return: with an
    input path or a result path and a body that is not dict-like they raise
    [TypeError] instead, which is not followed here. *)
Definition do_event (h : Hooks) (env : Env) (m : V2ModelServer) (event : Event)
  : outcome Event * V2ModelServer * list effect :=
  let original_body := body event in
  let event_body := _extract_input_data (_input_path m) (body event) in
  let (o, event_id) := operation_of event event_body in
  if eq_str o "predict" || eq_str o "infer" || eq_str o "infer_dict"
     || eq_str o "predict_dict" then
    settled env m event
      match _pre_event_processing_actions h env m event event_body o with
      | (Raise e, t) => (Raise e, m, t)
      | (Return req, t) =>
          match predict h req with
          | Raise exc => on_inference_error env m req o event_id exc t
          | Return outputs =>
              finish_event h env m event original_body req o event_id
                (VDict (predict_response m event_id outputs (now_start env))) t
          end
      end
  else if eq_str o "ready" && String.eqb (method event) "GET" then
    if ready m then
      (Return (with_body event
                 (VResponse 200
                    ("Model " ++ fmt_opt (name m) ++ " is ready (event_id = "
                     ++ py_str event_id ++ ")"))
                 true), m, [])
    else
      (Return (with_body event (VResponse 408 "model not ready") true), m, [])
  else if eq_str o "" && String.eqb (method event) "GET" then
    let meta :=
      [ ("name", opt_str (name m));
        ("version", VStr (version m));
        ("inputs", match model_spec m with
                   | Some a => art_inputs_dict a | None => VList [] end);
        ("outputs", match model_spec m with
                    | Some a => art_outputs_dict a | None => VList [] end) ] in
    (Return (with_body event
               (_update_result_body (_result_path m) original_body (VDict meta))
               true), m, [])
  else if eq_str o "explain" then
    settled env m event
      match _pre_event_processing_actions h env m event event_body o with
      | (Raise e, t) => (Raise e, m, t)
      | (Return req, t) =>
          match explain h req with
          | Raise exc => on_inference_error env m req o event_id exc t
          | Return outputs =>
              finish_event h env m event original_body req o event_id
                (VDict (explain_response m event_id outputs)) t
          end
      end
  else
    match o with
    | VStr nm =>
        match custom_op h nm with
        | Some f =>
            match f event with
            | Raise e => (Raise e, m, [])
            | Return response =>
                (Return (with_body event
                           (_update_result_body (_result_path m) original_body
                              response)
                           (terminated event)), m, [])
            end
        | None =>
            (Raise (mk_exn ValueError
                      ("illegal model operation " ++ py_str o ++ ", method="
                       ++ method event)), m, [])
        end
    | _ => (Raise (mk_exn TypeError "can only concatenate str to str"), m, [])
    end.

End Serving.

(* ================================================================== *)
(** ** V2ModelServer: parameters, metrics and the versioned name *)

Definition with_metrics (m : V2ModelServer) (ms : list (string * value))
  : V2ModelServer :=
  {| class_name := class_name m; name := name m; version := version m;
     context := context m; ready := ready m; error := error m;
     protocol := protocol m; model_path := model_path m;
     model_spec := model_spec m;
     _input_path := _input_path m; _result_path := _result_path m;
     _params := _params m; metrics := ms; labels := labels m;
     model := model m; _versioned_model_name := _versioned_model_name m;
     model_endpoint_uid := model_endpoint_uid m;
     shard_by_endpoint := shard_by_endpoint m;
     _model_logger := _model_logger m |}.

Definition with_version (m : V2ModelServer) (v : string)
  (ls : list (string * string)) (vn : option string) : V2ModelServer :=
  {| class_name := class_name m; name := name m; version := v;
     context := context m; ready := ready m; error := error m;
     protocol := protocol m; model_path := model_path m;
     model_spec := model_spec m;
     _input_path := _input_path m; _result_path := _result_path m;
     _params := _params m; metrics := metrics m; labels := ls;
     model := model m; _versioned_model_name := vn;
     model_endpoint_uid := model_endpoint_uid m;
     shard_by_endpoint := shard_by_endpoint m;
     _model_logger := _model_logger m |}.

(** [V2ModelServer.set_metric(name, value)] *)
Definition set_metric (m : V2ModelServer) (nm : string) (v : value)
  : V2ModelServer :=
  with_metrics m (dict_set nm v (metrics m)).

Section Parameters.

Variable ext : External.

(** [context.get_param(key, default=default)] of the graph context. *)
Variable context_get_param : string -> value -> value.

(** [V2ModelServer.get_param(key, default)] *)
Definition get_param (m : V2ModelServer) (key : string) (default : value)
  : value :=
  match dict_get key (_params m) with
  | Some v => v
  | None => context_get_param key default
  end.

(** The property [V2ModelServer.versioned_model_name].  An artifact without
    a tag leaves the version falsy; it is kept as the empty string. *)
Definition versioned_model_name (m : V2ModelServer)
  : outcome string * V2ModelServer :=
  if opt_truthy (_versioned_model_name m) then
    (Return (fmt_opt (_versioned_model_name m)), m)
  else
    let enriched :=
      if opt_truthy (model_path m)
         && String.prefix "store://" (fmt_opt (model_path m)) then
        match get_model ext m "" with
        | (Raise e, m1) => (Raise e, m1)
        | (Return _, m1) =>
            match model_spec m1 with
            | None =>
                (Raise (mk_exn AttributeError
                          (if String.eqb (version m1) ""
                           then "'NoneType' object has no attribute 'tag'"
                           else "'NoneType' object has no attribute 'labels'")),
                 m1)
            | Some a =>
                let v := if String.eqb (version m1) ""
                         then match art_tag a with Some t => t | None => "" end
                         else version m1 in
                (Return tt,
                 with_version m1 v (art_labels a) (_versioned_model_name m1))
            end
        end
      else (Return tt, m) in
    match enriched with
    | (Raise e, m1) => (Raise e, m1)
    | (Return _, m1) =>
        let v := if String.eqb (version m1) "" then "latest" else version m1 in
        let full := fmt_opt (name m1) ++ ":" ++ v in
        (Return full, with_version m1 (version m1) (labels m1) (Some full))
    end.

End Parameters.

(* ================================================================== *)
(** ** Specification-level notions used to state the properties *)

(** The calls of [cs] that the sampling gate of [push] lets through, for a
    sample rate [N] and a counter that stands at [c] before the first. *)
Fixpoint sampled (N c : Z) (cs : list PushCall) : list PushCall :=
  match cs with
  | [] => []
  | x :: r =>
      let c' := (c + 1) mod N in
      if c' =? 0 then x :: sampled N c' r else sampled N c' r
  end.

(** The batch a pusher is filling: the buffer is emptied when the first row
    of the next batch arrives, so at a batch boundary its content is stale. *)
Definition cur_batch (p : ModelLogPusher) : list value :=
  if _batch_iter p =? 0 then [] else _batch p.

(** Two pusher states of one pusher: the configuration read at construction
    is the same. *)
Definition same_config (p q : ModelLogPusher) : Prop :=
  verbose q = verbose p /\ hostname q = hostname p /\
  function_uri q = function_uri p /\ stream_path q = stream_path p /\
  stream_batch q = stream_batch p /\ stream_sample q = stream_sample p /\
  _worker q = _worker p.

(** Successive emissions, each past the sampling gate. *)
Fixpoint emit_all (m : V2ModelServer) (cs : list PushCall) (p : ModelLogPusher)
  : ModelLogPusher :=
  match cs with
  | [] => p
  | c :: r => emit_all m r (snd (emit m c p))
  end.

(** The sink call of a batch flush and of an unbatched emission. *)
Definition flush_call (m : V2ModelServer) (p : ModelLogPusher)
  (block : list PushCall) (pk : option string) : sink_call :=
  ([batch_data m p (map (batch_row m) block)], pk).

Definition flat_call (m : V2ModelServer) (p : ModelLogPusher) (c : PushCall)
  : sink_call :=
  ([flat_data m p c], partition_key c).

Definition last_key (block : list PushCall) : option string :=
  match rev block with
  | c :: _ => partition_key c
  | [] => None
  end.

Definition non_error (c : PushCall) : Prop := push_error c = None.

Definition zlen {A : Type} (l : list A) : Z := Z.of_nat (List.length l).

(** The operation field of a body that is a non-empty dict, [None] for any
    other body. *)
Definition body_operation (event_body : value) : value :=
  match event_body with
  | VDict (kv :: d) => dict_get_default "operation" VNone (kv :: d)
  | _ => VNone
  end.

(** The classification in the order the specification words it: the
    [operation] field of the body first, else the path, else [infer] for a
    method other than GET. *)
Definition claimed_operation (event : Event) (event_body : value) : value :=
  if truthy (body_operation event_body) then body_operation event_body
  else if negb (String.eqb (strip "/" (path event)) "")
  then VStr (strip "/" (path event))
  else if negb (String.eqb (method event) "GET") then VStr "infer"
  else VStr "".

(** The operations served by [predict], and the inference operations. *)
Definition predict_family (o : value) : Prop :=
  o = VStr "predict" \/ o = VStr "infer" \/ o = VStr "infer_dict"
  \/ o = VStr "predict_dict".

Definition inference_op (o : value) : Prop :=
  predict_family o \/ o = VStr "explain".

(** The model capability behind an inference operation, and the envelope
    the dispatcher builds around its outputs. *)
Definition served (h : Hooks) (o req : value) : outcome value :=
  if eq_str o "explain" then explain h req else predict h req.

Definition envelope_of (m : V2ModelServer) (o event_id outputs : value)
  (start_ : datetime) : list (string * value) :=
  if eq_str o "explain" then explain_response m event_id outputs
  else predict_response m event_id outputs start_.

(** Seconds spent in [time.sleep] along a trace, and the number of sleeps. *)
Fixpoint slept (t : list effect) : Z :=
  match t with
  | [] => 0
  | ESleep s :: r => s + slept r
  | _ :: r => slept r
  end.

Fixpoint sleeps (t : list effect) : nat :=
  match t with
  | [] => O
  | ESleep _ :: r => S (sleeps r)
  | _ :: r => sleeps r
  end.

(** The values of [d] under the keys of [order], in that order. *)
Definition in_order (order : list string) (d : list (string * value))
  : list value :=
  map (fun k => dict_get_default k VNone d) order.

(** A name that [repr] prints as it is between single quotes: printable
    ASCII characters other than the single quote and the backslash. *)
Definition plain_char (a : ascii) : bool :=
  let n := nat_of_ascii a in
  (32 <=? n)%nat && (n <=? 126)%nat && negb (n =? 39)%nat && negb (n =? 92)%nat.

Fixpoint plain_name (s : string) : bool :=
  match s with
  | EmptyString => true
  | String a r => plain_char a && plain_name r
  end.

(** [c] is the class [base] or derives from it, directly or not: the
    classes an [except base] clause catches. *)
Inductive is_a (base : exn_class) : exn_class -> Prop :=
| is_a_self : is_a base base
| is_a_derived (c : exn_class) (cls : string) :
    is_a base c -> is_a base (Derived c cls).

(** Calls of the run database along a trace. *)
Fixpoint db_calls (t : list effect) : list db_call :=
  match t with
  | [] => []
  | EDb c :: r => c :: db_calls r
  | _ :: r => db_calls r
  end.

Definition is_load_effect (e : effect) : bool :=
  match e with ELoad | EThreadStart => true | _ => false end.

(** Neither [load()] nor a loading thread appears in the trace. *)
Definition no_load (t : list effect) : Prop :=
  forallb (fun e => negb (is_load_effect e)) t = true.

(** The state a pusher keeps between calls is well formed: the sampling
    counter is below the sample rate, and with batching on the batch counter
    is below the batch size and counts the rows of the batch being filled. *)
Definition pusher_inv (p : ModelLogPusher) : Prop :=
  0 <= _sample_iter p < stream_sample p
  /\ (1 < stream_batch p ->
      0 <= _batch_iter p < stream_batch p
      /\ zlen (cur_batch p) = _batch_iter p).

(** The fields of an endpoint record that a reconciliation compares, in the
    order it compares them. *)
Definition schema_fields : list ModelEndpointSchema :=
  [FUNCTION_UID; MODEL_NAME; MODEL_UID; MODEL_TAG; MODEL_DB_KEY; LABELS;
   MODEL_CLASS; MONITORING_MODE].

Definition spec_of (m : V2ModelServer) {A : Type}
  (f : ModelArtifact -> A) (default : A) : A :=
  match model_spec m with Some a => f a | None => default end.

(** The local value of a field, and whether the registry's copy differs. *)
Definition local_value (m : V2ModelServer) (function_uid : option string)
  (track : bool) (k : ModelEndpointSchema) : value :=
  match k with
  | FUNCTION_UID => opt_str function_uid
  | MODEL_NAME => opt_str (spec_of m art_key None)
  | MODEL_UID => opt_str (spec_of m art_uid None)
  | MODEL_TAG => opt_str (spec_of m art_tag None)
  | MODEL_DB_KEY => opt_str (spec_of m art_db_key None)
  | LABELS => labels_value (spec_of m art_labels [])
  | MODEL_CLASS => VStr (class_name m)
  | MONITORING_MODE => mode_value track
  end.

Definition drifted (m : V2ModelServer) (function_uid : option string)
  (track : bool) (ep : ModelEndpoint) (k : ModelEndpointSchema) : bool :=
  match k with
  | FUNCTION_UID => negb (opt_eqb function_uid (ep_function_uid ep))
  | MODEL_NAME => negb (opt_eqb (spec_of m art_key None) (ep_model_name ep))
  | MODEL_UID => negb (opt_eqb (spec_of m art_uid None) (ep_model_uid ep))
  | MODEL_TAG => negb (opt_eqb (spec_of m art_tag None) (ep_model_tag ep))
  | MODEL_DB_KEY =>
      negb (opt_eqb (spec_of m art_db_key None) (ep_model_db_key ep))
  | LABELS => negb (labels_eqb (spec_of m art_labels []) (ep_labels ep))
  | MODEL_CLASS => negb (String.eqb (class_name m) (ep_model_class ep))
  | MONITORING_MODE =>
      negb (Bool.eqb (match ep_monitoring_mode ep with
                      | mode_enabled => true
                      | mode_disabled => false
                      end) track)
  end.

(** The patch a reconciliation owes: the drifted fields with their local
    values. *)
Definition drift (m : V2ModelServer) (function_uid : option string)
  (track : bool) (ep : ModelEndpoint) : list (ModelEndpointSchema * value) :=
  map (fun k => (k, local_value m function_uid track k))
      (filter (drifted m function_uid track ep) schema_fields).

Definition is_non_error (c : PushCall) : bool :=
  match push_error c with Some _ => false | None => true end.

(** The counters and the buffer of a pusher. *)
Definition counters (p : ModelLogPusher) : Z * Z * list value :=
  (_sample_iter p, _batch_iter p, _batch p).

(** The entries of a dict value, the items of a list value. *)
Definition dict_of (v : value) : list (string * value) :=
  match v with VDict d => d | _ => [] end.

Definition items_of (v : value) : list value :=
  match v with VList l => l | _ => [] end.

(** Microseconds from the start of day 0 of the proleptic calendar. *)
Definition epoch_us (t : datetime) : Z :=
  (toordinal t * 86400 + (second t + minute t * 60 + hour t * 3600)) * 1000000
  + microsecond t.

(** The graph server [post_init] finds in the context:
    [context._server or context.server]. *)
Definition graph_server_of (ctx : Context) : option GraphServer :=
  match _server ctx with Some s => Some s | None => server ctx end.

(** An endpoint record as the registry returns it once it has given it
    a uid. *)
Definition with_ep_uid (ep : ModelEndpoint) (u : option string)
  : ModelEndpoint :=
  {| ep_project := ep_project ep; ep_labels := ep_labels ep;
     ep_name := ep_name ep; ep_uid := u;
     ep_function_name := ep_function_name ep;
     ep_function_uid := ep_function_uid ep;
     ep_function_tag := ep_function_tag ep;
     ep_model_name := ep_model_name ep;
     ep_model_db_key := ep_model_db_key ep;
     ep_model_uid := ep_model_uid ep;
     ep_model_class := ep_model_class ep;
     ep_model_tag := ep_model_tag ep;
     ep_monitoring_mode := ep_monitoring_mode ep |}.

(** Two pusher states that have come equally far: same configuration,
    same counters and buffer, a stream attached to both or to neither. *)
Definition same_progress (p q : ModelLogPusher) : Prop :=
  same_config p q /\ counters q = counters p
  /\ (output_stream q = None <-> output_stream p = None).

(* ================================================================== *)
(** ** Concrete servers, streams and calls *)

Module Demo.

Definition fe : exn -> string := fun _ => "Traceback (most recent call last)".

Definition show (v : value) : string :=
  match v with VStr t => t | VNone => "None" | _ => "<value>" end.

(** Modelled from the spec: [_extract_input_data] and [_update_result_body]
    of [mlrun.serving.utils], for a server with no input path and no result
    path: the effective request is the whole body, and the response replaces
    the whole body. *)
Definition extract (_ : option string) (b : value) : value := b.
Definition update (_ : option string) (_ response : value) : value := response.

(** A stream that takes every record, and one that is down. *)
Definition quiet_stream : OutputStream :=
  {| received := []; raises_on := fun _ _ => None |}.

Definition stream_down : exn :=
  mk_exn (OtherError "ConnectionError") "stream is down".

Definition broken_stream : OutputStream :=
  {| received := []; raises_on := fun _ _ => Some stream_down |}.

Definition gs : GraphServer :=
  {| project := "proj"; function_name := "serve"; function_tag := "";
     track_models := true |}.

Definition ctx (os : OutputStream) (batch sample : Z) : Context :=
  {| ctx_verbose := false; _server := None; server := Some gs;
     is_mock := false; monitoring_mock := false;
     stream := {| enabled := true; ctx_hostname := "host-0";
                  ctx_function_uri := "proj/serve";
                  stream_uri := "v3io:///stream";
                  ctx_output_stream := Some os |};
     worker_id := VInt 0;
     log_stream_batch := batch; log_stream_sample := sample |}.

Definition pusher (os : OutputStream) (batch sample : Z) : ModelLogPusher :=
  new_pusher (ctx os batch sample).

(** A server built around a model object, named "my", and one that has to
    load its model. *)
Definition srv (os : OutputStream) (batch sample : Z) : V2ModelServer :=
  with_model_logger
    (init "MyModel" (ctx os batch sample) (Some "my") None (VStr "clf")
       None None None None [])
    (Some (pusher os batch sample)).

Definition features : ModelArtifact :=
  {| art_inputs := ["a"; "b"]; art_inputs_dict := VList [];
     art_outputs_dict := VList []; art_tag := Some "v1"; art_labels := [];
     art_key := Some "clf"; art_uid := Some "uid-1"; art_db_key := Some "clf";
     art_parameters := [] |}.

(** The same server once its model artifact, with input features "a" and
    "b", is known. *)
Definition srv_features (os : OutputStream) : V2ModelServer :=
  with_model_spec (srv os 1 1) (Some features) [].

Definition cold (os : OutputStream) : V2ModelServer :=
  init "MyModel" (ctx os 1 1) (Some "my") None VNone None None None None [].

(** An endpoint record as the registry holds it for [srv]. *)
Definition endpoint : ModelEndpoint :=
  {| ep_project := "proj"; ep_labels := []; ep_name := Some "my";
     ep_uid := Some "ep-1"; ep_function_name := "serve";
     ep_function_uid := Some "fn-1"; ep_function_tag := "latest";
     ep_model_name := None; ep_model_db_key := None; ep_model_uid := None;
     ep_model_class := "MyModel"; ep_model_tag := None;
     ep_monitoring_mode := mode_enabled |}.

(** A registry that holds no endpoint yet and creates what it is asked to;
    and registries whose lookup, or whose function store, fails. *)
Definition registry : External :=
  {| get_model_endpoint := fun _ _ _ _ =>
       Raise (mk_exn MLRunNotFoundError "model endpoint not found");
     get_function := fun _ _ _ => Return (Some "fn-1");
     create_model_endpoint := fun ep => Return endpoint;
     patch_model_endpoint := fun _ _ _ _ => Return endpoint;
     artifacts_get_model := fun _ _ => Return (VNone, None, VNone);
     endpoint_schema_error := fun _ => None;
     loader_progress := fun m => m |}.

Definition registry_lookup_fails (e : exn) : External :=
  {| get_model_endpoint := fun _ _ _ _ => Raise e;
     get_function := get_function registry;
     create_model_endpoint := create_model_endpoint registry;
     patch_model_endpoint := patch_model_endpoint registry;
     artifacts_get_model := artifacts_get_model registry;
     endpoint_schema_error := endpoint_schema_error registry;
     loader_progress := loader_progress registry |}.

Definition registry_functions_fail (e : exn) : External :=
  {| get_model_endpoint := get_model_endpoint registry;
     get_function := fun _ _ _ => Raise e;
     create_model_endpoint := create_model_endpoint registry;
     patch_model_endpoint := patch_model_endpoint registry;
     artifacts_get_model := artifacts_get_model registry;
     endpoint_schema_error := endpoint_schema_error registry;
     loader_progress := loader_progress registry |}.

(** A model whose [predict] and [explain] answer {"outputs": [7]}, and
    one whose [predict] fails. *)
Definition hooks : Hooks :=
  {| load := base_load;
     preprocess := preprocess base_hooks;
     validate := base_validate;
     predict := fun _ => Return (VDict [("outputs", VList [VInt 7])]);
     explain := fun _ => Return (VDict [("outputs", VList [VInt 7])]);
     postprocess := postprocess base_hooks;
     logged_results := logged_results base_hooks;
     custom_op := custom_op base_hooks |}.

Definition bad_input : exn := mk_exn ValueError "bad input".

Definition failing_hooks : Hooks :=
  {| load := base_load;
     preprocess := preprocess base_hooks;
     validate := base_validate;
     predict := fun _ => Raise bad_input;
     explain := fun _ => Raise bad_input;
     postprocess := postprocess base_hooks;
     logged_results := logged_results base_hooks;
     custom_op := custom_op base_hooks |}.

Definition inputs_123 : value :=
  VDict [("inputs", VList [VList [VInt 1; VInt 2; VInt 3]])].

Definition t0 : datetime := mk_datetime 2024 1 1 0 0 0 0 true.
Definition t1 : datetime := mk_datetime 2024 1 1 0 0 1 500000 true.

Definition call (n : Z) : PushCall :=
  {| start := t0;
     request := VDict [("inputs", VList [VInt n])];
     resp := VDict [("outputs", VList [VInt n])];
     op := VStr "infer"; push_error := None; partition_key := None;
     now := t1 |}.

Definition env : Env :=
  {| now_start := t0; now_emit := t1; poll := fun _ => (false, None) |}.

Definition ev (p meth : string) (b : value) (trig : option Trigger) : Event :=
  {| id := VStr "e-1"; path := p; method := meth; body := b;
     trigger := trig; terminated := false |}.

(** A body that asks for [explain] on the path of [infer]. *)
Definition ev_conflict : Event :=
  ev "/infer" "POST" (VDict [("operation", VStr "explain")]) None.


End Demo.

(** Further concrete contexts, registries and model classes. *)
Module Cases.

(** A context without a graph server. *)
Definition ctx_no_server : Context :=
  {| ctx_verbose := false; _server := None; server := None;
     is_mock := false; monitoring_mock := false;
     stream := stream (Demo.ctx Demo.quiet_stream 1 1);
     worker_id := VInt 0; log_stream_batch := 1; log_stream_sample := 1 |}.

Definition srv_in (ctx : Context) : V2ModelServer :=
  init "MyModel" ctx (Some "my") None (VStr "clf") None None None None [].

(** A model class with an [op_stats] method. *)
Definition hooks_custom : Hooks :=
  {| load := base_load;
     preprocess := preprocess base_hooks;
     validate := base_validate;
     predict := predict Demo.hooks;
     explain := explain Demo.hooks;
     postprocess := postprocess base_hooks;
     logged_results := logged_results base_hooks;
     custom_op := fun nm =>
       if String.eqb nm "stats"
       then Some (fun _ => Return (VDict [("count", VInt 3)]))
       else None |}.

(** A model class whose [load()] fails. *)
Definition no_file : exn := mk_exn (OtherError "FileNotFoundError") "model.pkl".

Definition hooks_load_fails : Hooks :=
  {| load := fun m => (Raise no_file, m);
     preprocess := preprocess base_hooks;
     validate := base_validate;
     predict := predict Demo.hooks;
     explain := explain Demo.hooks;
     postprocess := postprocess base_hooks;
     logged_results := logged_results base_hooks;
     custom_op := custom_op base_hooks |}.

(** A registry that already holds a given record for the server. *)
Definition registry_holding (ep : ModelEndpoint) : External :=
  {| get_model_endpoint := fun _ _ _ _ => Return ep;
     get_function := get_function Demo.registry;
     create_model_endpoint := create_model_endpoint Demo.registry;
     patch_model_endpoint := fun _ _ _ _ => Return ep;
     artifacts_get_model := artifacts_get_model Demo.registry;
     endpoint_schema_error := endpoint_schema_error Demo.registry;
     loader_progress := loader_progress Demo.registry |}.

(** The record of [Demo.endpoint] as an older model class left it. *)
Definition stale_endpoint : ModelEndpoint :=
  {| ep_project := "proj"; ep_labels := []; ep_name := Some "my";
     ep_uid := Some "ep-1"; ep_function_name := "serve";
     ep_function_uid := Some "fn-1"; ep_function_tag := "latest";
     ep_model_name := None; ep_model_db_key := None; ep_model_uid := None;
     ep_model_class := "OldModel"; ep_model_tag := None;
     ep_monitoring_mode := mode_enabled |}.

(** A model store that knows one artifact, with a parameter. *)
Definition artifact : ModelArtifact :=
  {| art_inputs := ["a"; "b"]; art_inputs_dict := VList [];
     art_outputs_dict := VList []; art_tag := Some "v1"; art_labels := [];
     art_key := Some "clf"; art_uid := Some "uid-1"; art_db_key := Some "clf";
     art_parameters := [("threshold", VInt 5)] |}.

Definition store : External :=
  {| get_model_endpoint := get_model_endpoint Demo.registry;
     get_function := get_function Demo.registry;
     create_model_endpoint := create_model_endpoint Demo.registry;
     patch_model_endpoint := patch_model_endpoint Demo.registry;
     artifacts_get_model := fun _ _ =>
       Return (VStr "/tmp/model.pkl", Some artifact, VDict []);
     endpoint_schema_error := endpoint_schema_error Demo.registry;
     loader_progress := loader_progress Demo.registry |}.

Definition srv_with_path : V2ModelServer :=
  init "MyModel" (Demo.ctx Demo.quiet_stream 1 1) (Some "my")
    (Some "/models/clf") VNone None None None None
    [("threshold", VInt 1); ("k", VInt 2)].

Definition no_context_param (_ : string) (default : value) : value := default.

Definition kafka : option Trigger := Some (mk_trigger "kafka").

End Cases.

(* ================================================================== *)
(** * Properties *)

(** ** The telemetry pusher *)

Section PusherFacts.
Variable format_exc : exn -> string.
Variable m : V2ModelServer.

Lemma same_config_refl p : same_config p p.
Proof. repeat split. Qed.

Lemma same_config_trans p q r :
  same_config p q -> same_config q r -> same_config p r.
Proof.
  unfold same_config; intros H1 H2.
  destruct H1 as (?&?&?&?&?&?&?), H2 as (?&?&?&?&?&?&?).
  repeat split; congruence.
Qed.

Lemma base_data_config p q : same_config p q -> base_data m q = base_data m p.
Proof.
  intros (Hv&Hh&Hf&Hs&Hb&Hn&Hw). unfold base_data.
  rewrite Hh, Hf, Hw. reflexivity.
Qed.

Lemma flat_data_config p q c :
  same_config p q -> flat_data m q c = flat_data m p c.
Proof. intros H. unfold flat_data. rewrite (base_data_config _ _ H). reflexivity. Qed.

Lemma batch_data_config p q rows :
  same_config p q -> batch_data m q rows = batch_data m p rows.
Proof. intros H. unfold batch_data. rewrite (base_data_config _ _ H). reflexivity. Qed.

Lemma with_sample_iter_id p : with_sample_iter p (_sample_iter p) = p.
Proof. destruct p; reflexivity. Qed.

(** The emission does not read the sampling counter. *)
Lemma emit_with_sample_iter c p i :
  snd (emit m c (with_sample_iter p i))
  = with_sample_iter (snd (emit m c p)) i.
Proof.
  unfold emit, pusher_stream_push, stream_push; cbn.
  destruct (1 <? stream_batch p); cbn.
  - destruct ((_batch_iter p + 1) mod stream_batch p =? 0); cbn; [|reflexivity].
    destruct (output_stream p) as [os|]; cbn; [|reflexivity].
    destruct (raises_on os _ _); reflexivity.
  - destruct (output_stream p) as [os|]; cbn; [|reflexivity].
    destruct (raises_on os _ _); reflexivity.
Qed.

Lemma emit_all_with_sample_iter cs : forall p i,
  emit_all m cs (with_sample_iter p i) = with_sample_iter (emit_all m cs p) i.
Proof.
  induction cs as [|c r IH]; intros p i; cbn; [reflexivity|].
  rewrite emit_with_sample_iter. apply IH.
Qed.

Lemma emit_all_app l1 : forall l2 p,
  emit_all m (l1 ++ l2)%list p = emit_all m l2 (emit_all m l1 p).
Proof. induction l1 as [|c r IH]; intros; cbn; [reflexivity|apply IH]. Qed.

(** What one emission keeps. *)
Lemma emit_keeps c p :
  same_config p (snd (emit m c p))
  /\ _sample_iter (snd (emit m c p)) = _sample_iter p
  /\ (output_stream p <> None -> output_stream (snd (emit m c p)) <> None).
Proof.
  unfold emit, pusher_stream_push, stream_push.
  destruct (1 <? stream_batch p); cbn.
  - destruct ((_batch_iter p + 1) mod stream_batch p =? 0); cbn.
    + destruct (output_stream p) as [os|]; cbn.
      * destruct (raises_on os _ _); cbn; repeat split; congruence.
      * repeat split; congruence.
    + repeat split; congruence.
  - destruct (output_stream p) as [os|]; cbn.
    + destruct (raises_on os _ _); cbn; repeat split; congruence.
    + repeat split; congruence.
Qed.

Lemma emit_all_keeps cs : forall p,
  same_config p (emit_all m cs p)
  /\ _sample_iter (emit_all m cs p) = _sample_iter p
  /\ (output_stream p <> None -> output_stream (emit_all m cs p) <> None).
Proof.
  induction cs as [|c r IH]; intros p; cbn.
  - repeat split; auto.
  - destruct (emit_keeps c p) as (Hc & Hs & Ho).
    destruct (IH (snd (emit m c p))) as (Hc' & Hs' & Ho').
    split; [eapply same_config_trans; eauto|].
    split; [congruence|auto].
Qed.

(** One non-error call of [push]: the counter advances modulo the sample
    rate and the call is emitted exactly when the counter comes back to 0. *)
Lemma push_non_error c p :
  non_error c -> stream_sample p <> 0 -> output_stream p <> None ->
  snd (push format_exc m c p)
  = let i := (_sample_iter p + 1) mod stream_sample p in
    if i =? 0 then with_sample_iter (snd (emit m c p)) i
    else with_sample_iter p i.
Proof.
  intros Hc HN Ho. unfold push. rewrite Hc.
  destruct (stream_sample p =? 0) eqn:E; [apply Z.eqb_eq in E; contradiction|].
  cbn. destruct (output_stream p) as [os|] eqn:Eo; [|contradiction].
  destruct ((_sample_iter p + 1) mod stream_sample p =? 0) eqn:E0; cbn.
  - apply emit_with_sample_iter.
  - reflexivity.
Qed.

Lemma push_all_sampled cs : forall p,
  Forall non_error cs ->
  1 <= stream_sample p -> output_stream p <> None ->
  push_all format_exc m cs p
  = with_sample_iter
      (emit_all m (sampled (stream_sample p) (_sample_iter p) cs) p)
      (_sample_iter (push_all format_exc m cs p)).
Proof.
  induction cs as [|c r IH]; intros p Hne HN Ho.
  - cbn. symmetry. apply with_sample_iter_id.
  - inversion Hne as [|? ? Hc Hr]; subst. cbn [push_all sampled].
    assert (Hp := push_non_error c p Hc ltac:(lia) Ho). cbv zeta in Hp.
    set (i := (_sample_iter p + 1) mod stream_sample p) in *.
    destruct (emit_keeps c p) as ((_&_&_&_&_&Hcs&_) & Hs & Hos).
    rewrite Hp. clear Hp.
    destruct (i =? 0) eqn:E.
    + set (q := with_sample_iter (snd (emit m c p)) i).
      assert (HNq : 1 <= stream_sample q) by (subst q; cbn; lia).
      assert (Hoq : output_stream q <> None) by (subst q; cbn; auto).
      etransitivity; [exact (IH q Hr HNq Hoq)|].
      subst q. cbn [stream_sample _sample_iter with_sample_iter emit_all].
      rewrite Hcs, emit_all_with_sample_iter. reflexivity.
    + set (q := with_sample_iter p i).
      assert (HNq : 1 <= stream_sample q) by (subst q; cbn; lia).
      assert (Hoq : output_stream q <> None) by (subst q; cbn; auto).
      etransitivity; [exact (IH q Hr HNq Hoq)|].
      subst q. cbn [stream_sample _sample_iter with_sample_iter].
      rewrite emit_all_with_sample_iter. reflexivity.
Qed.

Lemma push_all_counter cs : forall p,
  Forall non_error cs ->
  1 <= stream_sample p -> output_stream p <> None ->
  0 <= _sample_iter p < stream_sample p ->
  _sample_iter (push_all format_exc m cs p)
  = (_sample_iter p + zlen cs) mod stream_sample p.
Proof.
  unfold zlen.
  induction cs as [|c r IH]; intros p Hne HN Ho Hi.
  - cbn. rewrite Z.add_0_r, Z.mod_small; lia.
  - inversion Hne as [|? ? Hc Hr]; subst. cbn [push_all].
    assert (Hp := push_non_error c p Hc ltac:(lia) Ho). cbv zeta in Hp.
    assert (Hm : 0 <= (_sample_iter p + 1) mod stream_sample p < stream_sample p)
      by (apply Z.mod_pos_bound; lia).
    set (q := snd (push format_exc m c p)) in *.
    assert (Hq : stream_sample q = stream_sample p
                 /\ _sample_iter q = (_sample_iter p + 1) mod stream_sample p
                 /\ output_stream q <> None).
    { rewrite Hp. destruct (emit_keeps c p) as ((_&_&_&_&_&Hcs&_) & Hs & Hos).
      destruct (_ =? 0); cbn; auto. }
    destruct Hq as (HqN & Hqi & Hqo).
    rewrite IH; auto; try lia.
    rewrite HqN, Hqi.
    replace (Z.of_nat (List.length (c :: r))) with (1 + Z.of_nat (List.length r))
      by (cbn [List.length]; lia).
    rewrite Z.add_mod_idemp_l by lia. f_equal. lia.
Qed.

Lemma sampled_app N l1 : forall c l2,
  1 <= N -> 0 <= c < N ->
  sampled N c (l1 ++ l2)%list
  = (sampled N c l1 ++ sampled N ((c + zlen l1) mod N) l2)%list.
Proof.
  unfold zlen.
  induction l1 as [|x r IH]; intros c l2 HN Hc.
  - cbn. rewrite Z.add_0_r, Z.mod_small by lia. reflexivity.
  - cbn [sampled app].
    assert (Hm : 0 <= (c + 1) mod N < N) by (apply Z.mod_pos_bound; lia).
    replace ((c + Z.of_nat (List.length (x :: r))) mod N)
      with (((c + 1) mod N + Z.of_nat (List.length r)) mod N).
    + destruct ((c + 1) mod N =? 0); rewrite IH by lia; reflexivity.
    + rewrite Z.add_mod_idemp_l by lia. f_equal. cbn [List.length]. lia.
Qed.

(** Calls that arrive while the counter stays below the rate are dropped. *)
Lemma sampled_below N l : forall c,
  0 <= c -> c + zlen l < N -> sampled N c l = [].
Proof.
  unfold zlen.
  induction l as [|x r IH]; intros c Hc Hl; [reflexivity|].
  cbn [sampled]. cbn [List.length] in Hl.
  rewrite (Z.mod_small (c + 1) N) by lia.
  destruct (c + 1 =? 0) eqn:E; [apply Z.eqb_eq in E; lia|].
  apply IH; lia.
Qed.

(** Of [N] calls in a row exactly one is let through. *)
Lemma sampled_window N c cs :
  1 <= N -> 0 <= c < N -> zlen cs = N ->
  exists pre x post,
    cs = (pre ++ x :: post)%list /\ zlen pre = N - 1 - c
    /\ sampled N c cs = [x].
Proof.
  unfold zlen. intros HN Hc Hl.
  set (k := Z.to_nat (N - 1 - c)).
  assert (Hk : (k < List.length cs)%nat) by lia.
  destruct (nth_split cs (mk_call (mk_datetime 0 0 0 0 0 0 0 false)
                            VNone VNone VNone None None
                            (mk_datetime 0 0 0 0 0 0 0 false)) Hk)
    as (pre & post & Hcs & Hpre).
  exists pre, (nth k cs (mk_call (mk_datetime 0 0 0 0 0 0 0 false)
                            VNone VNone VNone None None
                            (mk_datetime 0 0 0 0 0 0 0 false))), post.
  split; [exact Hcs|]. split; [lia|].
  rewrite Hcs at 1.
  rewrite sampled_app by lia. unfold zlen.
  rewrite (sampled_below N pre c) by (unfold zlen; lia).
  cbn [app sampled].
  replace ((c + Z.of_nat (List.length pre)) mod N) with (N - 1)
    by (rewrite Z.mod_small; lia).
  replace ((N - 1 + 1) mod N) with 0
    by (replace (N - 1 + 1) with N by lia; rewrite Z.mod_same; lia).
  cbn. f_equal. apply sampled_below; [lia|].
  assert (List.length cs = (List.length pre + S (List.length post))%nat).
  { rewrite Hcs at 1. rewrite length_app. reflexivity. }
  unfold zlen. lia.
Qed.

(** *** Batching *)

Lemma map_read_buffered (m0 : V2ModelServer) (l : list PushCall) :
  map (read_row m0) (map buffered_row l) = map (batch_row m0) l.
Proof. rewrite map_map. reflexivity. Qed.

(** The header of a record reads the configuration of the pusher only. *)
Lemma base_data_of_config (m0 : V2ModelServer) p q :
  same_config p q -> base_data m0 q = base_data m0 p.
Proof.
  intros (Hv&Hh&Hf&Hs&Hb&Hn&Hw). unfold base_data.
  rewrite Hh, Hf, Hw. reflexivity.
Qed.

(** The header has none of the payload keys, so each payload entry is
    appended to it, in the order the code assigns them. *)
Lemma batch_data_shape (m0 : V2ModelServer) p rows :
  batch_data m0 p rows
  = VDict (base_data m0 p
           ++ [("headers", VList [VStr "request"; VStr "op"; VStr "resp";
                                  VStr "when"; VStr "microsec"; VStr "metrics"]);
               ("values", VList rows)])%list.
Proof.
  unfold batch_data, base_data.
  destruct (truthy (labels_value (labels m0))); reflexivity.
Qed.

Lemma flat_data_shape (m0 : V2ModelServer) p c :
  flat_data m0 p c
  = VDict (base_data m0 p
           ++ [("request", request c); ("op", op c); ("resp", resp c);
               ("when", VStr (isoformat_us (start c)));
               ("microsec",
                VInt (microseconds (DateTime.sub (now c) (start c))))]
           ++ match metrics m0 with
              | [] => []
              | _ => [("metrics", VDict (metrics m0))]
              end)%list.
Proof.
  unfold flat_data, base_data, microsec_of.
  destruct (truthy (labels_value (labels m0))); destruct (metrics m0);
    reflexivity.
Qed.

(** Rows gathered while the batch stays short of its size: nothing is
    pushed, the rows are appended in order. *)
Lemma emit_all_partial l : forall p,
  1 < stream_batch p -> 0 <= _batch_iter p ->
  _batch_iter p + zlen l < stream_batch p ->
  output_stream (emit_all m l p) = output_stream p
  /\ _batch_iter (emit_all m l p) = _batch_iter p + zlen l
  /\ cur_batch (emit_all m l p) = (cur_batch p ++ map buffered_row l)%list.
Proof.
  unfold zlen.
  induction l as [|c r IH]; intros p HB Hi Hl.
  - cbn. rewrite Z.add_0_r, app_nil_r. auto.
  - cbn [emit_all List.length map] in *.
    assert (He : snd (emit m c p)
                 = with_batch p (_batch_iter p + 1)
                     (cur_batch p ++ [buffered_row c])%list).
    { unfold emit, cur_batch.
      destruct (1 <? stream_batch p) eqn:E1; [|apply Z.ltb_ge in E1; lia].
      cbn. rewrite (Z.mod_small (_batch_iter p + 1)) by lia.
      destruct (_batch_iter p + 1 =? 0) eqn:E0; [apply Z.eqb_eq in E0; lia|].
      reflexivity. }
    rewrite He.
    destruct (IH (with_batch p (_batch_iter p + 1)
                    (cur_batch p ++ [buffered_row c])%list))
      as (H1 & H2 & H3); cbn; try lia.
    rewrite H1, H2, H3. cbn.
    split; [reflexivity|]. split; [lia|].
    unfold cur_batch at 1. cbn.
    destruct (_batch_iter p + 1 =? 0) eqn:E0; [apply Z.eqb_eq in E0; lia|].
    rewrite <- app_assoc. reflexivity.
Qed.

(** The row that completes a batch flushes it: the rows are read, and the
    header is built, with the server as it is at that call, whatever it was
    when the earlier rows were appended.  The buffer keeps the rows. *)
Lemma emit_flush (m0 : V2ModelServer) x q os :
  1 < stream_batch q -> _batch_iter q + 1 = stream_batch q ->
  output_stream q = Some os ->
  _batch_iter (snd (emit m0 x q)) = 0
  /\ _batch (snd (emit m0 x q)) = (cur_batch q ++ [buffered_row x])%list
  /\ exists os', output_stream (snd (emit m0 x q)) = Some os'
       /\ received os'
          = (received os
             ++ [([batch_data m0 q
                     (map (read_row m0) (cur_batch q ++ [buffered_row x]))%list],
                  partition_key x)])%list.
Proof.
  intros HB Hi Ho. unfold emit.
  destruct (1 <? stream_batch q) eqn:E1; [|apply Z.ltb_ge in E1; lia].
  cbn [with_batch _batch_iter _batch]. fold (cur_batch q).
  rewrite Hi, Z.mod_same by lia. cbn [Z.eqb].
  unfold pusher_stream_push. cbn [output_stream with_batch]. rewrite Ho.
  unfold stream_push.
  assert (Hd : forall rows,
             batch_data m0 (with_batch q 0 (cur_batch q ++ [buffered_row x])%list)
               rows = batch_data m0 q rows) by reflexivity.
  rewrite Hd.
  destruct (raises_on os _ _); cbn; (split; [reflexivity|]);
    (split; [reflexivity|]); eexists; split; reflexivity.
Qed.

(** The first row after a batch boundary starts the buffer afresh. *)
Lemma emit_restarts (m0 : V2ModelServer) x q :
  1 < stream_batch q -> _batch_iter q = 0 ->
  _batch (snd (emit m0 x q)) = [buffered_row x]
  /\ _batch_iter (snd (emit m0 x q)) = 1
  /\ output_stream (snd (emit m0 x q)) = output_stream q.
Proof.
  intros HB Hi. unfold emit.
  destruct (1 <? stream_batch q) eqn:E1; [|apply Z.ltb_ge in E1; lia].
  cbn [with_batch _batch_iter _batch]. rewrite Hi.
  rewrite (Z.mod_small (0 + 1)) by lia. cbn. auto.
Qed.

(** A full batch, started at a batch boundary: one record goes to the
    sink, with the rows of the batch in order, under the partition key of
    the call that completes it. *)
Lemma emit_all_block b p os :
  1 < stream_batch p -> _batch_iter p = 0 ->
  output_stream p = Some os -> zlen b = stream_batch p ->
  let q := emit_all m b p in
  same_config p q /\ _batch_iter q = 0 /\ _sample_iter q = _sample_iter p
  /\ _batch q = map buffered_row b
  /\ exists os', output_stream q = Some os'
       /\ received os' = (received os ++ [flush_call m p b (last_key b)])%list.
Proof.
  intros HB Hi Ho Hl q. subst q. unfold zlen in Hl.
  destruct (emit_all_keeps b p) as (Hcfg & Hsi & _).
  split; [exact Hcfg|].
  destruct (exists_last (l := b)) as (b' & x & Hb).
  { intros ->. cbn in Hl. lia. }
  subst b. rewrite emit_all_app in *. cbn [emit_all] in *.
  rewrite length_app in Hl. cbn [List.length] in Hl.
  destruct (emit_all_partial b' p HB ltac:(lia) ltac:(unfold zlen; lia))
    as (H1 & H2 & H3).
  destruct (emit_all_keeps b' p) as (Hcfg' & _ & _).
  set (q := emit_all m b' p) in *.
  unfold zlen in H2.
  assert (HBq : stream_batch q = stream_batch p) by (apply Hcfg').
  destruct (emit_flush m x q os) as (Hz & Hbuf & os' & Ho' & Hr');
    try lia; try congruence.
  assert (Hcur : cur_batch q = map buffered_row b').
  { rewrite H3. unfold cur_batch. rewrite Hi. reflexivity. }
  split; [exact Hz|]. split; [exact Hsi|].
  split; [rewrite Hbuf, Hcur, map_app; reflexivity|].
  exists os'. split; [exact Ho'|].
  rewrite Hr'. f_equal. f_equal.
  unfold flush_call, last_key. rewrite rev_app_distr. cbn [rev app].
  rewrite Hcur, <- map_read_buffered, !map_app. cbn [map].
  rewrite (batch_data_config p q) by exact Hcfg'. reflexivity.
Qed.

(** Full batches in a row, then a partial one.  The rows of the partial
    batch are in the buffer; when there is none, the buffer still holds the
    rows of the last full batch. *)
Lemma emit_all_blocks blocks : forall p os tail,
  1 < stream_batch p -> _batch_iter p = 0 ->
  output_stream p = Some os ->
  Forall (fun b => zlen b = stream_batch p) blocks ->
  zlen tail < stream_batch p ->
  let q := emit_all m (List.concat blocks ++ tail)%list p in
  same_config p q
  /\ _batch_iter q = zlen tail
  /\ cur_batch q = map buffered_row tail
  /\ (forall bs b, blocks = (bs ++ [b])%list -> tail = [] ->
        _batch q = map buffered_row b)
  /\ exists os', output_stream q = Some os'
       /\ received os'
          = (received os
             ++ map (fun b => flush_call m p b (last_key b)) blocks)%list.
Proof.
  induction blocks as [|b r IH]; intros p os tail HB Hi Ho Hbl Ht q; subst q.
  - cbn [List.concat app map].
    destruct (emit_all_partial tail p HB ltac:(lia) ltac:(lia)) as (H1 & H2 & H3).
    destruct (emit_all_keeps tail p) as (Hcfg & _ & _).
    rewrite H2, H3, H1, Hi. unfold cur_batch. rewrite Hi. cbn.
    split; [exact Hcfg|]. split; [reflexivity|]. split; [reflexivity|].
    split; [intros [|? ?] ? ?; discriminate|].
    exists os. rewrite app_nil_r. auto.
  - inversion Hbl as [|? ? Hb Hr]; subst.
    cbn [List.concat]. rewrite <- app_assoc, emit_all_app.
    destruct (emit_all_block b p os HB Hi Ho Hb)
      as (Hcfg & Hi' & _ & Hbuf & os' & Ho' & Hrec).
    set (q := emit_all m b p) in *.
    assert (HBq : stream_batch q = stream_batch p) by (apply Hcfg).
    destruct (IH q os' tail) as (Hc2 & H1 & H2 & H3 & os2 & Ho2 & Hrec2);
      try lia; auto.
    { rewrite HBq. exact Hr. }
    split; [eapply same_config_trans; eauto|].
    split; [exact H1|]. split; [exact H2|]. split.
    + intros bs b0 Hbs Htl. destruct bs as [|b1 bs'].
      * cbn in Hbs. inversion Hbs; subst. cbn [List.concat app emit_all].
        exact Hbuf.
      * cbn in Hbs. inversion Hbs; subst. apply (H3 bs' b0); reflexivity.
    + exists os2. split; [exact Ho2|].
      rewrite Hrec2, Hrec. cbn [map]. rewrite <- app_assoc. cbn [app].
      f_equal. f_equal.
      apply map_ext. intros b0. unfold flush_call.
      rewrite (batch_data_config p q); auto.
Qed.

(** Without batching every emission is a sink call of its own. *)
Lemma emit_all_flat cs : forall p os,
  stream_batch p <= 1 -> output_stream p = Some os ->
  exists os', output_stream (emit_all m cs p) = Some os'
    /\ received os' = (received os ++ map (flat_call m p) cs)%list.
Proof.
  induction cs as [|c r IH]; intros p os HB Ho.
  - cbn. exists os. rewrite app_nil_r. auto.
  - cbn [emit_all map].
    destruct (emit_keeps c p) as (Hcfg & _ & _).
    assert (He : exists os1, output_stream (snd (emit m c p)) = Some os1
                   /\ received os1 = (received os ++ [flat_call m p c])%list).
    { unfold emit.
      destruct (1 <? stream_batch p) eqn:E1; [apply Z.ltb_lt in E1; lia|].
      unfold pusher_stream_push, stream_push. rewrite Ho.
      destruct (raises_on os _ _); cbn; eexists; split; reflexivity. }
    destruct He as (os1 & Ho1 & Hr1).
    set (q := snd (emit m c p)) in *.
    destruct (IH q os1) as (os' & Ho' & Hr'); auto.
    { replace (stream_batch q) with (stream_batch p) by (symmetry; apply Hcfg).
      exact HB. }
    exists os'. split; [exact Ho'|].
    rewrite Hr', Hr1, <- app_assoc. cbn [app]. f_equal. f_equal.
    apply map_ext. intros c0. unfold flat_call.
    rewrite (flat_data_config p q); auto.
Qed.

(** C4. Sampling.  An error record goes to the sink whatever the sampling
    counter holds, and leaves the counter alone.  A non-error call advances
    the counter modulo the sample rate [N]; of [N] non-error calls in a row
    exactly one is emitted, the one on which the counter returns to 0:
    the [N] calls leave the pusher as that single emission does, and
    without batching the sink has received exactly one more record. *)
Theorem sampling_one_in_N (p : ModelLogPusher) (os : OutputStream) :
  output_stream p = Some os ->
  (forall c e, push_error c = Some e ->
     sink_calls (snd (push format_exc m c p))
     = (received os ++ [([error_data format_exc m p c e], partition_key c)])%list
     /\ _sample_iter (snd (push format_exc m c p)) = _sample_iter p)
  /\ (1 <= stream_sample p -> 0 <= _sample_iter p < stream_sample p ->
      (forall c, non_error c ->
         _sample_iter (snd (push format_exc m c p))
         = (_sample_iter p + 1) mod stream_sample p)
      /\ (forall cs, Forall non_error cs -> zlen cs = stream_sample p ->
            exists pre x post,
              cs = (pre ++ x :: post)%list
              /\ zlen pre = stream_sample p - 1 - _sample_iter p
              /\ push_all format_exc m cs p = snd (emit m x p)
              /\ (stream_batch p <= 1 ->
                  sink_calls (push_all format_exc m cs p)
                  = (received os ++ [flat_call m p x])%list))).
Proof.
  intros Ho. split.
  - intros c e He. unfold push, pusher_stream_push, stream_push, sink_calls.
    rewrite He, Ho. destruct (raises_on os _ _); cbn; auto.
  - intros HN Hi. split.
    + intros c Hc.
      rewrite (push_non_error c p Hc) by (try lia; congruence). cbv zeta.
      destruct (_ =? 0); reflexivity.
    + intros cs Hne Hl.
      destruct (sampled_window (stream_sample p) (_sample_iter p) cs HN Hi Hl)
        as (pre & x & post & Hcs & Hpre & Hs).
      exists pre, x, post. split; [exact Hcs|]. split; [exact Hpre|].
      assert (Ho' : output_stream p <> None) by congruence.
      assert (Hall : push_all format_exc m cs p = snd (emit m x p)).
      { rewrite (push_all_sampled cs p Hne HN Ho').
        rewrite (push_all_counter cs p Hne HN Ho' Hi), Hl, Hs. cbn [emit_all].
        replace ((_sample_iter p + stream_sample p) mod stream_sample p)
          with (_sample_iter (snd (emit m x p))).
        - apply with_sample_iter_id.
        - destruct (emit_keeps x p) as (_ & -> & _).
          rewrite <- (Z.mul_1_l (stream_sample p)) at 1.
          rewrite Z.mod_add, Z.mod_small; lia. }
      split; [exact Hall|].
      intros HB. rewrite Hall.
      destruct (emit_all_flat [x] p os HB Ho) as (os' & Ho1 & Hr1).
      cbn [emit_all map] in *. unfold sink_calls. rewrite Ho1. exact Hr1.
Qed.

(** C5, amended.  Let [em] be the calls of [cs] that pass the sampling
    gate.  With a batch size [B > 1] and a pusher at a batch boundary, cut
    [em] into full blocks of [B] calls and a rest of fewer than [B].  The
    sink receives exactly one record per block: the header, the six column
    names under [headers], and under [values] the [B] rows of the block in
    order of arrival, each row being [request, op, resp, when, microsec,
    metrics].  The rows of the rest are in the buffer and are not pushed.
    The buffer is not emptied by the flush: right after the flush of a block
    it still holds the rows of that block, and it is started afresh by the
    first row that arrives next.  The [metrics] column is the server's
    metrics dict itself: when the row that completes a batch arrives with the
    server being [m'], every row of the record reads the metrics of [m'].
    With [B <= 1] every call of [em] is pushed on its own, as a flat record:
    the header and the entries [request], [op], [resp], [when], [microsec],
    and [metrics] when the server has any. *)
Theorem batching_flushes_full_batches (p : ModelLogPusher) (os : OutputStream)
  (cs : list PushCall) :
  output_stream p = Some os ->
  1 <= stream_sample p -> 0 <= _sample_iter p < stream_sample p ->
  Forall non_error cs ->
  let em := sampled (stream_sample p) (_sample_iter p) cs in
  let q := push_all format_exc m cs p in
  let buffered := fun c : PushCall =>
    VList [request c; op c; resp c; VStr (to_str (start c));
           VInt (microseconds (DateTime.sub (now c) (start c)))] in
  let row := fun (m' : V2ModelServer) (c : PushCall) =>
    VList [request c; op c; resp c; VStr (to_str (start c));
           VInt (microseconds (DateTime.sub (now c) (start c)));
           VDict (metrics m')] in
  let tabular := fun (m' : V2ModelServer) (block : list PushCall) =>
    VDict (base_data m' p
           ++ [("headers", VList [VStr "request"; VStr "op"; VStr "resp";
                                  VStr "when"; VStr "microsec"; VStr "metrics"]);
               ("values", VList (map (row m') block))])%list in
  let flat := fun c : PushCall =>
    VDict (base_data m p
           ++ [("request", request c); ("op", op c); ("resp", resp c);
               ("when", VStr (isoformat_us (start c)));
               ("microsec",
                VInt (microseconds (DateTime.sub (now c) (start c))))]
           ++ match metrics m with
              | [] => []
              | _ => [("metrics", VDict (metrics m))]
              end)%list in
  (1 < stream_batch p -> _batch_iter p = 0 ->
   forall blocks tail,
     em = (List.concat blocks ++ tail)%list ->
     Forall (fun b => zlen b = stream_batch p) blocks ->
     zlen tail < stream_batch p ->
     sink_calls q
     = (received os ++ map (fun b => ([tabular m b], last_key b)) blocks)%list
     /\ _batch_iter q = zlen tail
     /\ (tail <> [] -> _batch q = map buffered tail)
     /\ (forall bs b, blocks = (bs ++ [b])%list -> tail = [] ->
           _batch q = map buffered b)
     /\ (forall m' c, tail = [] ->
           _batch (snd (emit m' c q)) = [buffered c]
           /\ sink_calls (snd (emit m' c q)) = sink_calls q)
     /\ (forall m' c, zlen tail + 1 = stream_batch p ->
           sink_calls (snd (emit m' c q))
           = (sink_calls q
              ++ [([tabular m' (tail ++ [c])%list], partition_key c)])%list))
  /\ (stream_batch p <= 1 ->
      sink_calls q
      = (received os ++ map (fun c => ([flat c], partition_key c)) em)%list).
Proof.
  intros Ho HN Hi Hne em q buffered row tabular flat.
  assert (Ho' : output_stream p <> None) by congruence.
  assert (Hq : q = with_sample_iter (emit_all m em p) (_sample_iter q))
    by (apply push_all_sampled; auto).
  assert (Hsink : sink_calls q = sink_calls (emit_all m em p))
    by (rewrite Hq; reflexivity).
  assert (Hbi : _batch_iter q = _batch_iter (emit_all m em p))
    by (rewrite Hq; reflexivity).
  assert (Hbu : _batch q = _batch (emit_all m em p))
    by (rewrite Hq; reflexivity).
  assert (Hos : output_stream q = output_stream (emit_all m em p))
    by (rewrite Hq; reflexivity).
  assert (Hsb : stream_batch q = stream_batch (emit_all m em p))
    by (rewrite Hq; reflexivity).
  assert (Hbuffered : forall l, map buffered l = map buffered_row l)
    by reflexivity.
  assert (Htab : forall m' p' block,
             same_config p p' ->
             batch_data m' p' (map (read_row m') (map buffered_row block))
             = tabular m' block).
  { intros m' p' block Hcfg. rewrite batch_data_shape, map_read_buffered.
    rewrite (base_data_of_config m' p p' Hcfg). reflexivity. }
  split.
  - intros HB Hb0 blocks tail Hem Hbl Ht.
    destruct (emit_all_blocks blocks p os tail HB Hb0 Ho Hbl Ht)
      as (Hcfg & H1 & H2 & H3 & os' & Ho2 & Hr2).
    rewrite <- Hem in *.
    set (q0 := emit_all m em p) in *.
    assert (HBq : stream_batch q = stream_batch p)
      by (rewrite Hsb; apply Hcfg).
    assert (Hcq : same_config p q).
    { rewrite Hq. destruct Hcfg as (?&?&?&?&?&?&?).
      unfold same_config; cbn; auto 10. }
    assert (Hcur : cur_batch q = map buffered_row tail).
    { unfold cur_batch. rewrite Hbi, Hbu. exact H2. }
    split.
    { rewrite Hsink. unfold sink_calls. rewrite Ho2, Hr2. f_equal.
      apply map_ext. intros b0. unfold flush_call. f_equal. f_equal.
      rewrite <- map_read_buffered. apply Htab, same_config_refl. }
    split; [congruence|].
    split.
    { intros Hne0. rewrite Hbuffered, <- H2, Hbu. unfold cur_batch.
      rewrite H1. destruct tail as [|c0 tl]; [congruence|].
      unfold zlen. cbn [List.length].
      destruct (Z.of_nat (S (List.length tl)) =? 0) eqn:E;
        [apply Z.eqb_eq in E; lia|reflexivity]. }
    split.
    { intros bs b0 Hbs Htl. rewrite Hbu, Hbuffered. apply (H3 bs b0 Hbs Htl). }
    split.
    { intros m' c Htl. subst tail.
      destruct (emit_restarts m' c q) as (Hb1 & _ & Hs1);
        [lia | rewrite Hbi, H1; reflexivity |].
      split; [exact Hb1|]. unfold sink_calls. rewrite Hs1. reflexivity. }
    intros m' c Hfull.
    assert (Hoq : output_stream q = Some os') by congruence.
    destruct (emit_flush m' c q os') as (_ & _ & os2 & Ho3 & Hr3);
      [lia | rewrite Hbi, H1, HBq; exact Hfull | exact Hoq |].
    unfold sink_calls. rewrite Ho3, Hr3, Hoq. f_equal. f_equal. f_equal.
    f_equal. rewrite Hcur.
    replace (map buffered_row tail ++ [buffered_row c])%list
      with (map buffered_row (tail ++ [c])%list)
      by (rewrite map_app; reflexivity).
    apply Htab, Hcq.
  - intros HB.
    destruct (emit_all_flat em p os HB Ho) as (os' & Ho2 & Hr2).
    rewrite Hsink. unfold sink_calls. rewrite Ho2, Hr2. f_equal.
    apply map_ext. intros c. unfold flat_call. rewrite flat_data_shape.
    reflexivity.
Qed.

(** The recorded [microsec] is the elapsed time modulo one second. *)
Lemma microsec_of_mod (c : PushCall) :
  microsec_of c
  = total_microseconds (DateTime.sub (now c) (start c)) mod 1000000.
Proof.
  unfold microsec_of, total_microseconds, DateTime.sub, timedelta_of.
  cbn [days seconds microseconds].
  set (T := ((toordinal (now c) - toordinal (start c)) * 86400 + _) * 1000000 + _).
  rewrite (Z.add_comm _ (T mod 1000000)), Z.mod_add by lia.
  rewrite Z.mod_mod by lia. reflexivity.
Qed.

End PusherFacts.

(** C4 at a sample rate of 2: two calls, one record. *)
Lemma sampling_one_in_N_witness :
  exists x,
    sink_calls (push_all Demo.fe (Demo.srv Demo.quiet_stream 1 2)
                  [Demo.call 1; Demo.call 2] (Demo.pusher Demo.quiet_stream 1 2))
    = [flat_call (Demo.srv Demo.quiet_stream 1 2)
         (Demo.pusher Demo.quiet_stream 1 2) x].
Proof.
  destruct (sampling_one_in_N Demo.fe (Demo.srv Demo.quiet_stream 1 2)
              (Demo.pusher Demo.quiet_stream 1 2) Demo.quiet_stream eq_refl)
    as [_ H].
  destruct H as [_ H]; [cbn; lia | cbn; lia |].
  destruct (H [Demo.call 1; Demo.call 2]) as (pre & x & post & _ & _ & _ & Hf).
  - repeat constructor.
  - reflexivity.
  - exists x. apply Hf. cbn. lia.
Defined.

(** C5, as stated, fails: the batch buffer is not reset by a flush.  With
    a batch size of 2, two calls make one record of two rows, and when the
    second call returns the buffer still holds both rows. *)
Lemma flush_leaves_the_rows_in_the_buffer :
  let q := push_all Demo.fe (Demo.srv Demo.quiet_stream 2 1)
             [Demo.call 1; Demo.call 2] (Demo.pusher Demo.quiet_stream 2 1) in
  List.length (sink_calls q) = 1%nat
  /\ _batch_iter q = 0
  /\ _batch q = [buffered_row (Demo.call 1); buffered_row (Demo.call 2)]
  /\ _batch q <> [].
Proof.
  cbv zeta. split; [reflexivity|]. split; [reflexivity|].
  split; [reflexivity|]. discriminate.
Qed.

(** C5 at a batch size of 2: three calls, one record, the third row waiting
    in the buffer; and at a batch size of 1: three calls, three records. *)
Lemma batching_flushes_full_batches_witness :
  List.length
    (sink_calls (push_all Demo.fe (Demo.srv Demo.quiet_stream 2 1)
                   [Demo.call 1; Demo.call 2; Demo.call 3]
                   (Demo.pusher Demo.quiet_stream 2 1))) = 1%nat
  /\ _batch (push_all Demo.fe (Demo.srv Demo.quiet_stream 2 1)
               [Demo.call 1; Demo.call 2; Demo.call 3]
               (Demo.pusher Demo.quiet_stream 2 1))
     = [buffered_row (Demo.call 3)]
  /\ List.length
       (sink_calls (push_all Demo.fe (Demo.srv Demo.quiet_stream 1 1)
                      [Demo.call 1; Demo.call 2; Demo.call 3]
                      (Demo.pusher Demo.quiet_stream 1 1))) = 3%nat.
Proof.
  assert (H2 := batching_flushes_full_batches Demo.fe
                  (Demo.srv Demo.quiet_stream 2 1)
                  (Demo.pusher Demo.quiet_stream 2 1) Demo.quiet_stream
                  [Demo.call 1; Demo.call 2; Demo.call 3]
                  eq_refl ltac:(cbn; lia) ltac:(cbn; lia)
                  ltac:(repeat constructor)).
  assert (H1 := batching_flushes_full_batches Demo.fe
                  (Demo.srv Demo.quiet_stream 1 1)
                  (Demo.pusher Demo.quiet_stream 1 1) Demo.quiet_stream
                  [Demo.call 1; Demo.call 2; Demo.call 3]
                  eq_refl ltac:(cbn; lia) ltac:(cbn; lia)
                  ltac:(repeat constructor)).
  cbv zeta in H1, H2. destruct H2 as [H2 _]. destruct H1 as [_ H1].
  destruct (H2 ltac:(cbn; lia) eq_refl
              [[Demo.call 1; Demo.call 2]] [Demo.call 3]
              eq_refl ltac:(repeat constructor) ltac:(cbn; lia))
    as (Hs & _ & Hb & _).
  split; [rewrite Hs; reflexivity|].
  split; [apply Hb; discriminate|].
  rewrite H1 by (cbn; lia). reflexivity.
Defined.

(** C9. A call that starts at 00:00:00.000000 and is emitted at
    00:00:01.500000 has run for 1500000 microseconds; the record that
    reaches the sink carries [microsec] 500000. *)
Theorem microsec_drops_whole_seconds :
  total_microseconds (DateTime.sub (now (Demo.call 1)) (start (Demo.call 1)))
  = 1500000
  /\ microsec_of (Demo.call 1) = 500000
  /\ exists data,
       sink_calls (snd (push Demo.fe (Demo.srv Demo.quiet_stream 1 1)
                          (Demo.call 1) (Demo.pusher Demo.quiet_stream 1 1)))
       = [([VDict data], None)]
       /\ dict_get "microsec" data = Some (VInt 500000).
Proof.
  split; [reflexivity|]. split; [reflexivity|].
  eexists. split; reflexivity.
Qed.

(* ================================================================== *)
(** ** Operation classification *)

Lemma string_eqb_false_iff (a b : string) : String.eqb a b = false <-> a <> b.
Proof.
  destruct (String.eqb_spec a b); split; intros; congruence.
Qed.

(** C2, as the specification words it, fails: with the path "/infer" and a
    body that names [explain], the dispatcher classifies the event as
    [infer], where the worded order gives [explain]. *)
Lemma body_operation_does_not_override_path :
  fst (operation_of Demo.ev_conflict (body Demo.ev_conflict)) = VStr "infer"
  /\ claimed_operation Demo.ev_conflict (body Demo.ev_conflict) = VStr "explain"
  /\ fst (operation_of Demo.ev_conflict (body Demo.ev_conflict))
     <> claimed_operation Demo.ev_conflict (body Demo.ev_conflict).
Proof. repeat split; try reflexivity. discriminate. Qed.

(** C2, amended.  The operation is the path stripped of its slashes when
    that is not empty; else the [operation] field of a body that is a
    non-empty dict, when the field is truthy; else [infer] when the method is
    not GET.  The three examples of the specification classify as it says. *)
Theorem operation_classification (event : Event) (event_body : value) :
  let o := fst (operation_of event event_body) in
  let p := strip "/" (path event) in
  (p <> "" -> o = VStr p)
  /\ (p = "" -> truthy (body_operation event_body) = true ->
      o = body_operation event_body)
  /\ (p = "" -> truthy (body_operation event_body) = false ->
      method event <> "GET" -> o = VStr "infer")
  /\ fst (operation_of (Demo.ev "/infer" "POST" (VDict []) None) (VDict []))
     = VStr "infer"
  /\ fst (operation_of
            (Demo.ev "" "POST" (VDict [("operation", VStr "explain")]) None)
            (VDict [("operation", VStr "explain")]))
     = VStr "explain"
  /\ fst (operation_of (Demo.ev "" "GET" (VDict []) None) (VDict []))
     = VStr "".
Proof.
  cbv zeta. unfold operation_of, body_operation, py_or.
  set (p := strip "/" (path event)).
  assert (Hp : truthy (VStr p) = negb (String.eqb p "")) by reflexivity.
  repeat split.
  - intros Hne. apply string_eqb_false_iff in Hne.
    destruct event_body as [| | | | | |[|kv d]|]; cbn [truthy fst];
      rewrite ?Hp, ?Hne; cbn; rewrite ?Hne; reflexivity.
  - intros He Ht. unfold p in *. 
    destruct event_body as [| | | | | |[|kv d]|]; cbn in Ht; try discriminate.
    cbn [truthy]. rewrite He. cbn [truthy String.eqb negb].
    set (v := dict_get_default "operation" VNone (kv :: d)) in *.
    cbn [fst]. rewrite Ht. reflexivity.
  - intros He Ht Hm. apply string_eqb_false_iff in Hm. unfold p in *.
    destruct event_body as [| | | | | |[|kv d]|]; cbn [truthy fst];
      rewrite ?He; cbn [truthy String.eqb negb andb fst]; rewrite ?Hm;
      try reflexivity.
    set (v := dict_get_default "operation" VNone (kv :: d)) in *.
    rewrite Ht. reflexivity.
Qed.

Lemma operation_classification_witness :
  fst (operation_of (Demo.ev "/explain/" "GET" VNone None) VNone)
  = VStr "explain"
  /\ fst (operation_of
            (Demo.ev "/" "POST" (VDict [("operation", VStr "ready")]) None)
            (VDict [("operation", VStr "ready")]))
     = VStr "ready"
  /\ fst (operation_of (Demo.ev "" "PUT" (VList []) None) (VList []))
     = VStr "infer".
Proof.
  split; [|split].
  - destruct (operation_classification
                (Demo.ev "/explain/" "GET" VNone None) VNone) as (H & _).
    apply H. discriminate.
  - destruct (operation_classification
                (Demo.ev "/" "POST" (VDict [("operation", VStr "ready")]) None)
                (VDict [("operation", VStr "ready")])) as (_ & H & _).
    apply H; reflexivity.
  - destruct (operation_classification
                (Demo.ev "" "PUT" (VList []) None) (VList [])) as (_ & _ & H & _).
    apply H; [reflexivity | reflexivity | discriminate].
Defined.


(* ================================================================== *)
(** ** The readiness gate *)

Lemma wait_ready_bound n : forall k pl,
  (sleeps (snd (wait_ready n k pl)) <= n)%nat
  /\ slept (snd (wait_ready n k pl))
     = 5 * Z.of_nat (sleeps (snd (wait_ready n k pl))).
Proof.
  induction n as [|n IH]; intros k pl; cbn [wait_ready].
  - cbn. split; lia.
  - destruct (fst (pl (S k))).
    + cbn. split; lia.
    + specialize (IH (S k) pl). destruct (wait_ready n (S k) pl) as [ok t].
      cbn [snd sleeps slept] in *. split; lia.
Qed.

Lemma wait_ready_never n : forall k pl,
  (forall j, (k < j <= k + n)%nat -> fst (pl j) = false) ->
  wait_ready n k pl = (false, repeat (ESleep 5) n).
Proof.
  induction n as [|n IH]; intros k pl H; cbn [wait_ready repeat].
  - reflexivity.
  - rewrite (H (S k)) by lia. rewrite IH; [reflexivity|].
    intros j Hj. apply H. lia.
Qed.

Lemma wait_ready_found n : forall k pl j,
  (k < j <= k + n)%nat -> fst (pl j) = true ->
  fst (wait_ready n k pl) = true.
Proof.
  induction n as [|n IH]; intros k pl j Hj Ht; [lia|].
  cbn [wait_ready]. destruct (fst (pl (S k))) eqn:E; [reflexivity|].
  assert (j <> S k) by (intros ->; congruence).
  specialize (IH (S k) pl j ltac:(lia) Ht).
  destruct (wait_ready n (S k) pl). exact IH.
Qed.

(** The wait returns at the first poll that finds the model ready, after
    as many sleeps as polls. *)
Lemma wait_ready_first n : forall k pl j,
  (k < j <= k + n)%nat ->
  (forall i, (k < i < j)%nat -> fst (pl i) = false) ->
  fst (pl j) = true ->
  wait_ready n k pl = (true, repeat (ESleep 5) (j - k)).
Proof.
  induction n as [|n IH]; intros k pl j Hj Hbefore Ht; [lia|].
  cbn [wait_ready]. destruct (fst (pl (S k))) eqn:E.
  - assert (j = S k).
    { destruct (Nat.eq_dec j (S k)) as [e|ne]; [exact e|].
      rewrite (Hbefore (S k)) in E by lia. discriminate. }
    subst j. replace (S k - k)%nat with 1%nat by lia. reflexivity.
  - assert (j <> S k) by (intros ->; congruence).
    rewrite (IH (S k) pl j) by (auto; try lia; intros i Hi; apply Hbefore; lia).
    replace (j - k)%nat with (S (j - S k)) by lia. reflexivity.
Qed.

(** C3. While the model is not ready, an event without a trigger, or with
    a trigger of kind "http" or "", is rejected at once: no sleep, no log.
    Any other event is made to wait: at most 50 sleeps of 5 seconds (250
    seconds).  The wait ends at the first poll that finds the model ready:
    if that is the [j]-th, the call returns after exactly [j] sleeps.  If
    none of the 50 polls finds it ready, the call fails after 50 sleeps with
    a [RuntimeError] whose message is "model <name> is not ready " followed
    by the text of the load error recorded by then (by nothing when no error
    has been recorded). *)
Theorem readiness_gate (m : V2ModelServer) (pl : nat -> bool * option exn)
  (event : Event) :
  ready m = false ->
  ((trigger event = None
    \/ exists t, trigger event = Some t /\ (kind t = "http" \/ kind t = "")) ->
   _check_readiness m pl event
   = (Raise (mk_exn RuntimeError
               ("model " ++ fmt_opt (name m) ++ " is not ready yet")), []))
  /\ ((exists t, trigger event = Some t /\ kind t <> "http" /\ kind t <> "") ->
      let r := _check_readiness m pl event in
      let waiting :=
        ELog "info" ("waiting for model " ++ fmt_opt (name m) ++ " to load") in
      (sleeps (snd r) <= 50)%nat
      /\ slept (snd r) = 5 * Z.of_nat (sleeps (snd r))
      /\ slept (snd r) <= 250
      /\ (forall j, (1 <= j <= 50)%nat -> fst (pl j) = true ->
          fst r = Return tt)
      /\ (forall j, (1 <= j <= 50)%nat ->
          (forall i, (1 <= i < j)%nat -> fst (pl i) = false) ->
          fst (pl j) = true ->
          r = (Return tt, waiting :: repeat (ESleep 5) j)
          /\ sleeps (snd r) = j /\ slept (snd r) = 5 * Z.of_nat j)
      /\ ((forall j, (1 <= j <= 50)%nat -> fst (pl j) = false) ->
          r = (Raise (mk_exn RuntimeError
                        ("model " ++ fmt_opt (name m) ++ " is not ready "
                         ++ match snd (pl 50%nat) with
                            | Some e => exn_msg e
                            | None => ""
                            end)),
               waiting :: repeat (ESleep 5) 50)
          /\ slept (snd r) = 250)).
Proof.
  intros Hr. unfold _check_readiness. rewrite Hr. split.
  - intros Hi.
    assert (Hint : interactive event = true).
    { unfold interactive. destruct Hi as [-> | (t & -> & [-> | ->])]; reflexivity. }
    rewrite Hint. reflexivity.
  - intros (t & Ht & Hh & He).
    assert (Hint : interactive event = false).
    { unfold interactive. rewrite Ht.
      apply string_eqb_false_iff in Hh, He. rewrite Hh, He. reflexivity. }
    rewrite Hint. cbv zeta.
    destruct (wait_ready_bound 50 0 pl) as (Hb1 & Hb2).
    assert (Hfound := wait_ready_found 50 0 pl).
    assert (Hnever := wait_ready_never 50 0 pl).
    assert (Hfirst := wait_ready_first 50 0 pl).
    destruct (wait_ready 50 0 pl) as [ok sl] eqn:Ew.
    cbn [snd fst] in *.
    assert (Hs : forall (b : bool) (x y : outcome unit) (tr : list effect),
               snd (if b then (x, tr) else (y, tr)) = tr)
      by (intros []; reflexivity).
    assert (Hrep : forall n, sleeps (repeat (ESleep 5) n) = n
                             /\ slept (repeat (ESleep 5) n) = 5 * Z.of_nat n).
    { induction n as [|n (IH1 & IH2)]; cbn [repeat sleeps slept];
        [split; reflexivity|]. rewrite IH1, IH2. split; lia. }
    rewrite Hs. cbn [sleeps slept].
    split; [exact Hb1|]. split; [exact Hb2|]. split; [lia|]. split; [|split].
    + intros j Hj Hp. rewrite (Hfound j) by (auto; lia). reflexivity.
    + intros j Hj Hbefore Hp.
      assert (E : (ok, sl) = (true, repeat (ESleep 5) (j - 0))).
      { apply Hfirst; [lia| |exact Hp]. intros i Hi. apply Hbefore. lia. }
      rewrite Nat.sub_0_r in E. inversion E; subst.
      destruct (Hrep j) as (H1 & H2). cbn [snd sleeps slept].
      split; [reflexivity|]. split; [exact H1 | exact H2].
    + intros Hall.
      assert (E : (ok, sl) = (false, repeat (ESleep 5) 50)).
      { apply Hnever. intros j Hj. apply Hall. lia. }
      inversion E; subst. unfold fmt_error. split; reflexivity.
Qed.

(** C3 on a model named "my": an http event is refused at once; a stream
    event whose load has failed with "no model file" waits 250 seconds and
    is refused with that reason; one whose model is ready at the third poll
    returns after three sleeps. *)
Lemma readiness_gate_witness :
  _check_readiness (Demo.cold Demo.quiet_stream) (fun _ => (false, None))
    (Demo.ev "/infer" "POST" VNone (Some (mk_trigger "http")))
  = (Raise (mk_exn RuntimeError "model my is not ready yet"), [])
  /\ _check_readiness (Demo.cold Demo.quiet_stream)
       (fun _ => (false, Some (mk_exn ValueError "no model file")))
       (Demo.ev "/infer" "POST" VNone (Some (mk_trigger "kafka")))
     = (Raise (mk_exn RuntimeError "model my is not ready no model file"),
        ELog "info" "waiting for model my to load" :: repeat (ESleep 5) 50)
  /\ _check_readiness (Demo.cold Demo.quiet_stream)
       (fun k => (Nat.leb 3 k, None))
       (Demo.ev "/infer" "POST" VNone (Some (mk_trigger "kafka")))
     = (Return tt,
        [ELog "info" "waiting for model my to load";
         ESleep 5; ESleep 5; ESleep 5]).
Proof.
  split; [|split].
  - apply (readiness_gate (Demo.cold Demo.quiet_stream) (fun _ => (false, None))
             (Demo.ev "/infer" "POST" VNone (Some (mk_trigger "http"))) eq_refl).
    right. exists (mk_trigger "http"). split; [reflexivity|]. left. reflexivity.
  - destruct (readiness_gate (Demo.cold Demo.quiet_stream)
                (fun _ => (false, Some (mk_exn ValueError "no model file")))
                (Demo.ev "/infer" "POST" VNone (Some (mk_trigger "kafka")))
                eq_refl) as [_ H].
    destruct H as (_ & _ & _ & _ & _ & H).
    + exists (mk_trigger "kafka"). repeat split; discriminate.
    + destruct H as [H _]; [intros; reflexivity | exact H].
  - destruct (readiness_gate (Demo.cold Demo.quiet_stream)
                (fun k => (Nat.leb 3 k, None))
                (Demo.ev "/infer" "POST" VNone (Some (mk_trigger "kafka")))
                eq_refl) as [_ H].
    destruct H as (_ & _ & _ & _ & H & _).
    + exists (mk_trigger "kafka"). repeat split; discriminate.
    + destruct (H 3%nat) as [H3 _].
      * lia.
      * intros i Hi. destruct i as [|[|[|i]]]; try reflexivity; lia.
      * reflexivity.
      * exact H3.
Defined.

(* ================================================================== *)
(** ** Dict-keyed inputs *)

Lemma pick_present order d :
  (forall k, In k order -> dict_get k d <> None) ->
  pick order d = Some (in_order order d).
Proof.
  induction order as [|k r IH]; intros H; cbn; [reflexivity|].
  unfold dict_get_default.
  destruct (dict_get k d) eqn:E; [|exfalso; apply (H k); [now left|exact E]].
  rewrite IH; [reflexivity|]. intros k' Hk'. apply H. now right.
Qed.

Lemma pick_missing order d k :
  In k order -> dict_get k d = None -> pick order d = None.
Proof.
  induction order as [|k' r IH]; intros Hin Hk; [contradiction|].
  cbn. destruct Hin as [-> | Hin].
  - rewrite Hk. reflexivity.
  - destruct (dict_get k' d); [|reflexivity]. rewrite IH; auto.
Qed.

Lemma forallb_is_dict ds : forallb is_dict (map VDict ds) = true.
Proof. induction ds; cbn; auto. Qed.

Lemma pick_all_present order ds :
  (forall d k, In d ds -> In k order -> dict_get k d <> None) ->
  pick_all order (map VDict ds)
  = Some (map (fun d => VList (in_order order d)) ds).
Proof.
  induction ds as [|d r IH]; intros H; cbn; [reflexivity|].
  rewrite pick_present by (intros k Hk; apply (H d k); [now left|exact Hk]).
  rewrite IH; [reflexivity|]. intros d' k Hd Hk. apply H; [now right|exact Hk].
Qed.

Lemma pick_all_missing order ds d k :
  In d ds -> In k order -> dict_get k d = None ->
  pick_all order (map VDict ds) = None.
Proof.
  induction ds as [|d' r IH]; intros Hd Hk Hn; [contradiction|].
  cbn. destruct Hd as [-> | Hd].
  - rewrite (pick_missing order d k Hk Hn). reflexivity.
  - destruct (pick order d'); [|reflexivity]. rewrite IH; auto.
Qed.

(** C7, as stated, fails: the error of a missing key does not name the
    missing keys.  For a model that declares the features [a] and [b], a
    request that lacks [b] and a request that lacks [a] fail with one and
    the same error, whose message lists the declared keys, the one that is
    present included. *)
Lemma missing_key_error_lists_every_declared_key :
  _inputs_to_list (Demo.srv_features Demo.quiet_stream)
    (VDict [("inputs", VDict [("a", VInt 1)])])
  = Raise (mk_exn MLRunInvalidArgumentError
             "Input dictionary don't contain all the necessary input keys : ['a', 'b']")
  /\ _inputs_to_list (Demo.srv_features Demo.quiet_stream)
       (VDict [("inputs", VDict [("b", VInt 2)])])
     = Raise (mk_exn MLRunInvalidArgumentError
                "Input dictionary don't contain all the necessary input keys : ['a', 'b']").
Proof. split; reflexivity. Qed.

(** C7, amended.  [_inputs_to_list] fails with [MLRunInvalidArgumentError]
    when the model declares no input features.  When it declares the
    features [order]: inputs given as a dict become the list of its values in
    the order of [order], inputs given as a list of dicts become the list of
    such lists, the rest of the request being kept; and as soon as one dict
    lacks a declared key the call fails with [MLRunInvalidArgumentError].
    The error is the same whichever key is missing: for plain feature names
    its message is "Input dictionary don't contain all the necessary input
    keys : " followed by the whole list [order] as Python prints it, each
    name between single quotes. *)
Theorem inputs_to_list_spec (m : V2ModelServer) (req : list (string * value)) :
  let listed := fun order : list string =>
    "Input dictionary don't contain all the necessary input keys : "
    ++ "[" ++ join ", " (map (fun k => "'" ++ k ++ "'") order) ++ "]" in
  ((model_spec m = None
    \/ exists a, model_spec m = Some a /\ art_inputs a = []) ->
   forall request, exists e,
     _inputs_to_list m request = Raise e
     /\ exn_cls e = MLRunInvalidArgumentError)
  /\ (forall a order,
        model_spec m = Some a -> art_inputs a = order -> order <> [] ->
        forallb plain_name order = true ->
        (forall d, dict_get "inputs" req = Some (VDict d) ->
           ((forall k, In k order -> dict_get k d <> None) ->
            _inputs_to_list m (VDict req)
            = Return (VDict (dict_set "inputs" (VList (in_order order d)) req)))
           /\ (forall k, In k order -> dict_get k d = None ->
               _inputs_to_list m (VDict req)
               = Raise (mk_exn MLRunInvalidArgumentError (listed order))))
        /\ (forall ds, dict_get "inputs" req = Some (VList (map VDict ds)) ->
              ((forall d k, In d ds -> In k order -> dict_get k d <> None) ->
               _inputs_to_list m (VDict req)
               = Return (VDict (dict_set "inputs"
                                  (VList (map (fun d => VList (in_order order d)) ds))
                                  req)))
              /\ (forall d k, In d ds -> In k order -> dict_get k d = None ->
                  _inputs_to_list m (VDict req)
                  = Raise (mk_exn MLRunInvalidArgumentError (listed order))))).
Proof.
  intros listed. split.
  - intros [Hn | (a & Ha & Hi)] request; unfold _inputs_to_list.
    + rewrite Hn. eexists; split; reflexivity.
    + rewrite Ha, Hi. eexists; split; reflexivity.
  - intros a order Ha Hi Hne Hplain.
    assert (Hd : forall d, dict_get "inputs" req = Some (VDict d) ->
              _inputs_to_list m (VDict req)
              = match pick order d with
                | Some row => Return (VDict (dict_set "inputs" (VList row) req))
                | None => Raise (missing_keys_error order)
                end).
    { intros d Hd. unfold _inputs_to_list, dict_get_default.
      rewrite Ha, Hi, Hd. destruct order; [congruence|].
      destruct (pick _ d); reflexivity. }
    assert (Hl : forall ds, dict_get "inputs" req = Some (VList (map VDict ds)) ->
              _inputs_to_list m (VDict req)
              = match pick_all order (map VDict ds) with
                | Some rows => Return (VDict (dict_set "inputs" (VList rows) req))
                | None => Raise (missing_keys_error order)
                end).
    { intros ds Hds. unfold _inputs_to_list, dict_get_default.
      rewrite Ha, Hi, Hds, forallb_is_dict. destruct order; [congruence|].
      destruct (pick_all _ _); reflexivity. }
    assert (Hmsg : missing_keys_error order
                   = mk_exn MLRunInvalidArgumentError (listed order))
      by reflexivity.
    split.
    + intros d Hget. rewrite (Hd d Hget). split.
      * intros Hall. rewrite pick_present by exact Hall. reflexivity.
      * intros k Hk Hn. rewrite (pick_missing order d k Hk Hn), Hmsg.
        reflexivity.
    + intros ds Hget. rewrite (Hl ds Hget). split.
      * intros Hall. rewrite pick_all_present by exact Hall. reflexivity.
      * intros d k Hin Hk Hn. rewrite (pick_all_missing order ds d k Hin Hk Hn).
        rewrite Hmsg. reflexivity.
Qed.

(** C7 on a model that declares [a] and [b]: a dict is put in that order,
    and a list whose dict lacks [b] is refused with the message that lists
    both names. *)
Lemma inputs_to_list_spec_witness :
  _inputs_to_list (Demo.srv_features Demo.quiet_stream)
    (VDict [("inputs", VDict [("b", VInt 2); ("a", VInt 1)])])
  = Return (VDict [("inputs", VList [VInt 1; VInt 2])])
  /\ _inputs_to_list (Demo.srv_features Demo.quiet_stream)
       (VDict [("inputs", VList [VDict [("a", VInt 1)]])])
     = Raise (mk_exn MLRunInvalidArgumentError
                "Input dictionary don't contain all the necessary input keys : ['a', 'b']").
Proof.
  split.
  - destruct (inputs_to_list_spec (Demo.srv_features Demo.quiet_stream)
                [("inputs", VDict [("b", VInt 2); ("a", VInt 1)])]) as [_ H].
    destruct (H Demo.features ["a"; "b"] eq_refl eq_refl ltac:(discriminate)
                eq_refl) as [Hd _].
    destruct (Hd [("b", VInt 2); ("a", VInt 1)] eq_refl) as [Hok _].
    apply Hok. intros k [<- | [<- | []]]; discriminate.
  - destruct (inputs_to_list_spec (Demo.srv_features Demo.quiet_stream)
                [("inputs", VList [VDict [("a", VInt 1)]])]) as [_ H].
    destruct (H Demo.features ["a"; "b"] eq_refl eq_refl ltac:(discriminate)
                eq_refl) as [_ Hl].
    destruct (Hl [[("a", VInt 1)]] eq_refl) as [_ Hbad].
    apply (Hbad [("a", VInt 1)] "b"); [now left | now right; left | reflexivity].
Defined.


(* ================================================================== *)
(** ** A server built around a model object *)

Section ReadyAtConstruction.
Variable format_exc : exn -> string.
Variable ext : External.

Lemma no_load_app t1 t2 : no_load t1 -> no_load t2 -> no_load (t1 ++ t2)%list.
Proof. unfold no_load. rewrite forallb_app. now intros -> ->. Qed.

Lemma get_model_ready m suffix :
  ready (snd (get_model ext m suffix)) = ready m.
Proof.
  unfold get_model. destruct (opt_truthy (model_path m)); [|reflexivity].
  destruct (artifacts_get_model ext _ _) as [[[mf sp] ex]|e]; reflexivity.
Qed.

Ltac split_match :=
  match goal with
  | |- context [match ?x with _ => _ end] => destruct x eqn:?
  end.

Lemma init_endpoint_record_keeps gs m :
  ready (snd (fst (_init_endpoint_record ext gs m))) = ready m
  /\ no_load (snd (_init_endpoint_record ext gs m)).
Proof.
  unfold _init_endpoint_record.
  assert (Hg : ready (snd (ensure_model_spec ext m)) = ready m).
  { unfold ensure_model_spec. destruct (model_spec m); [reflexivity|].
    apply get_model_ready. }
  destruct (ensure_model_spec ext m) as [r0 m0]. cbn [snd] in Hg.
  repeat split_match; cbn; split; solve [reflexivity | exact Hg].
Qed.

Lemma post_init_ready h mode m :
  ready m = true ->
  ready (snd (fst (post_init format_exc ext h mode m))) = true
  /\ no_load (snd (post_init format_exc ext h mode m)).
Proof.
  intros Hr. unfold post_init. rewrite Hr. cbn [negb].
  set (srv := match _server (context m) with
              | Some s => Some s
              | None => server (context m)
              end).
  destruct srv as [gs|]; [|cbn; split; [exact Hr|reflexivity]].
  destruct (negb (is_mock (context m)) || monitoring_mock (context m)).
  - destruct (init_endpoint_record_keeps gs m) as (Hk & Hn).
    destruct (_init_endpoint_record ext gs m) as [[ru m'] t'].
    cbn [fst snd] in Hk, Hn.
    destruct ru; cbn; (split; [congruence | exact Hn]).
  - cbn. split; [exact Hr|reflexivity].
Qed.

(** C10. A server constructed with a (truthy) model object is ready as
    soon as it is constructed.  [post_init], in any mode, then neither calls
    [load()] nor starts a loading thread, and leaves the server ready; and
    a readiness check on it, before or after [post_init], returns at once,
    without a sleep and without an error, whatever the event and its
    trigger. *)
Theorem model_object_makes_ready
  (cls : string) (ctx : Context) (nm mpath : option string) (mdl : value)
  (proto input_path result_path : option string) (shard : option bool)
  (kwargs : list (string * value)) (h : Hooks) (mode : string) :
  truthy mdl = true ->
  let m := init cls ctx nm mpath mdl proto input_path result_path shard kwargs in
  let r := post_init format_exc ext h mode m in
  ready m = true
  /\ ready (snd (fst r)) = true
  /\ no_load (snd r)
  /\ (forall pl event,
        _check_readiness m pl event = (Return tt, [])
        /\ _check_readiness (snd (fst r)) pl event = (Return tt, [])).
Proof.
  intros Ht m r.
  assert (Hm : ready m = true) by exact Ht.
  destruct (post_init_ready h mode m Hm) as (Hr & Hn).
  split; [exact Hm|]. split; [exact Hr|]. split; [exact Hn|].
  intros pl event. unfold _check_readiness. subst r. rewrite Hm, Hr. auto.
Qed.

End ReadyAtConstruction.

Lemma model_object_makes_ready_witness :
  ready (Demo.srv Demo.quiet_stream 1 1) = true
  /\ no_load (snd (post_init Demo.fe Demo.registry base_hooks "async"
                     (init "MyModel" (Demo.ctx Demo.quiet_stream 1 1)
                        (Some "my") None (VStr "clf") None None None None []))).
Proof.
  destruct (model_object_makes_ready Demo.fe Demo.registry "MyModel"
              (Demo.ctx Demo.quiet_stream 1 1) (Some "my") None (VStr "clf")
              None None None None [] base_hooks "async" eq_refl)
    as (H1 & _ & H3 & _).
  split; [exact H1 | exact H3].
Defined.


(* ================================================================== *)
(** ** Endpoint reconciliation *)

(** C8, as stated, fails: reconciliation raises to its caller when the
    function store is unavailable (the same bad-request error that the
    lookup absorbs), and when the endpoint lookup fails with an error that
    is neither not-found nor bad-request. *)
Lemma reconcile_raises_registry_errors :
  fst (fst (_init_endpoint_record
              (Demo.registry_functions_fail
                 (mk_exn MLRunBadRequestError "store unavailable"))
              Demo.gs (Demo.srv Demo.quiet_stream 1 1)))
  = Raise (mk_exn MLRunBadRequestError "store unavailable")
  /\ fst (fst (_init_endpoint_record
                 (Demo.registry_lookup_fails Demo.stream_down)
                 Demo.gs (Demo.srv Demo.quiet_stream 1 1)))
     = Raise Demo.stream_down.
Proof. split; reflexivity. Qed.

Lemma is_not_found_spec (c : exn_class) :
  is_not_found c = true <-> is_a MLRunNotFoundError c.
Proof.
  split.
  - induction c; cbn; try discriminate; intros H.
    + constructor.
    + constructor. auto.
  - induction 1; cbn; auto.
Qed.

Lemma is_bad_request_spec (c : exn_class) :
  is_bad_request c = true <-> is_a MLRunBadRequestError c.
Proof.
  split.
  - induction c; cbn; try discriminate; intros H.
    + constructor.
    + constructor. auto.
  - induction 1; cbn; auto.
Qed.

(** No class is caught by both clauses. *)
Lemma not_found_is_not_bad_request (c : exn_class) :
  is_not_found c = true -> is_bad_request c = false.
Proof. induction c; cbn; try discriminate; auto. Qed.

Section Reconcile.
Variable ext : External.
Variable gs : GraphServer.
Variable m : V2ModelServer.

(** The server once its artifact has been looked up, and the lookup key. *)
Let m' : V2ModelServer := snd (ensure_model_spec ext m).
Let tag : string := or_latest (function_tag gs).
Let lookup : outcome ModelEndpoint :=
  get_model_endpoint ext (project gs) (name m') (function_name gs) tag.
Let lookup_call : db_call :=
  GetModelEndpoint (project gs) (name m') (function_name gs) tag.
Let function_call : db_call :=
  GetFunction (function_name gs) (project gs) tag.

(** C8, amended.  Provided the model artifact lookup does not fail:
    a bad-request error of the endpoint lookup (an error of that class or of
    a class derived from it) is a soft failure, it is logged and the
    reconciliation returns [None] after that one registry call; a not-found
    error (of that class or of a class derived from it) is absence, the
    reconciliation goes on and, with model tracking off, returns [None]
    without creating a record, with model tracking on, builds the record,
    creates it and returns its uid.  Every other error of the endpoint
    lookup, and every error of the function lookup, of the construction of
    the record (a server without a name is refused by the schema before any
    creation call) or of the creation, is raised to the caller. *)
Theorem endpoint_lookup_soft_failure (x : value * value) :
  fst (ensure_model_spec ext m) = Return x ->
  let r := _init_endpoint_record ext gs m in
  (forall err, lookup = Raise err ->
     (is_a MLRunBadRequestError (exn_cls err) ->
      fst (fst r) = Return None
      /\ db_calls (snd r) = [lookup_call]
      /\ In (ELog "info" ("Cannot get the model endpoints store" ++ exn_msg err))
            (snd r))
     /\ (~ is_a MLRunBadRequestError (exn_cls err) ->
         ~ is_a MLRunNotFoundError (exn_cls err) ->
         fst (fst r) = Raise err /\ db_calls (snd r) = [lookup_call])
     /\ (is_a MLRunNotFoundError (exn_cls err) ->
         (forall e, get_function ext (function_name gs) (project gs) tag = Raise e ->
            fst (fst r) = Raise e)
         /\ (forall uid s,
               get_function ext (function_name gs) (project gs) tag = Return uid ->
               server (context m') = Some s ->
               (track_models s = false ->
                fst (fst r) = Return None
                /\ db_calls (snd r) = [lookup_call; function_call])
               /\ (track_models s = true ->
                   (name m' = None ->
                    db_calls (snd r) = [lookup_call; function_call]
                    /\ exists e, fst (fst r) = Raise e
                         /\ exn_cls e = OtherError "ValidationError")
                   /\ (forall e, name m' <> None ->
                         endpoint_schema_error ext (new_endpoint gs m' uid)
                         = Some e ->
                         db_calls (snd r) = [lookup_call; function_call]
                         /\ fst (fst r) = Raise e)
                   /\ (name m' <> None ->
                       endpoint_schema_error ext (new_endpoint gs m' uid) = None ->
                       db_calls (snd r)
                       = [lookup_call; function_call;
                          CreateModelEndpoint (new_endpoint gs m' uid)]
                       /\ fst (fst r)
                          = match create_model_endpoint ext
                                    (new_endpoint gs m' uid) with
                            | Return ep => Return (ep_uid ep)
                            | Raise e => Raise e
                            end)))))
  /\ (forall ep e, lookup = Return ep ->
        get_function ext (function_name gs) (project gs) tag = Raise e ->
        fst (fst r) = Raise e).
Proof.
  intros Hx r. subst r. unfold _init_endpoint_record.
  subst lookup lookup_call function_call tag m'.
  destruct (ensure_model_spec ext m) as [r0 m0]. cbn [fst snd] in *. subst r0.
  split.
  - intros err Hl. rewrite Hl. cbv beta iota zeta. split; [|split].
    + intros Hb. apply is_bad_request_spec in Hb.
      destruct (is_not_found (exn_cls err)) eqn:Hn.
      { apply not_found_is_not_bad_request in Hn. congruence. }
      rewrite Hb. split; [reflexivity|]. split; [reflexivity|].
      cbn [snd app]. right. right. left. reflexivity.
    + intros Hb Hn.
      destruct (is_not_found (exn_cls err)) eqn:En;
        [exfalso; apply Hn, is_not_found_spec, En|].
      destruct (is_bad_request (exn_cls err)) eqn:Eb;
        [exfalso; apply Hb, is_bad_request_spec, Eb|].
      split; reflexivity.
    + intros Hn. apply is_not_found_spec in Hn. rewrite Hn. split.
      * intros e He. rewrite He. reflexivity.
      * intros uid s Hf Hs. rewrite Hf, Hs. split; intros Ht; rewrite Ht.
        -- split; reflexivity.
        -- unfold schema_error. cbn [ep_name new_endpoint]. split; [|split].
           ++ intros Hnone. rewrite Hnone. split; [reflexivity|].
              eexists. split; reflexivity.
           ++ intros e Hsome He. destruct (name m0); [|congruence].
              rewrite He. split; reflexivity.
           ++ intros Hsome He. destruct (name m0); [|congruence].
              rewrite He.
              destruct (create_model_endpoint ext _); cbn; split; reflexivity.
  - intros ep e Hl He. rewrite Hl, He. reflexivity.
Qed.

End Reconcile.

(** C8 on a registry that is unavailable, on one that holds no record yet,
    whether it says so with the not-found class or with a class derived
    from it, and for a server without a name. *)
Lemma endpoint_lookup_soft_failure_witness :
  fst (fst (_init_endpoint_record
              (Demo.registry_lookup_fails
                 (mk_exn MLRunBadRequestError "store unavailable"))
              Demo.gs (Demo.srv Demo.quiet_stream 1 1)))
  = Return None
  /\ fst (fst (_init_endpoint_record Demo.registry Demo.gs
                 (Demo.srv Demo.quiet_stream 1 1)))
     = Return (Some "ep-1")
  /\ fst (fst (_init_endpoint_record
                 (Demo.registry_lookup_fails
                    (mk_exn (Derived MLRunNotFoundError "EndpointNotFound")
                       "no such endpoint"))
                 Demo.gs (Demo.srv Demo.quiet_stream 1 1)))
     = Return (Some "ep-1")
  /\ db_calls (snd (_init_endpoint_record Demo.registry Demo.gs
                      (init "MyModel" (Demo.ctx Demo.quiet_stream 1 1)
                         None None (VStr "clf") None None None None [])))
     = [GetModelEndpoint "proj" None "serve" "latest";
        GetFunction "serve" "proj" "latest"].
Proof.
  split; [|split; [|split]].
  - destruct (endpoint_lookup_soft_failure
                (Demo.registry_lookup_fails
                   (mk_exn MLRunBadRequestError "store unavailable"))
                Demo.gs (Demo.srv Demo.quiet_stream 1 1) (VNone, VNone) eq_refl)
      as [H _].
    destruct (H (mk_exn MLRunBadRequestError "store unavailable") eq_refl)
      as [Hs _].
    apply Hs. constructor.
  - destruct (endpoint_lookup_soft_failure Demo.registry Demo.gs
                (Demo.srv Demo.quiet_stream 1 1) (VNone, VNone) eq_refl)
      as [H _].
    destruct (H (mk_exn MLRunNotFoundError "model endpoint not found") eq_refl)
      as (_ & _ & Hn).
    destruct (Hn ltac:(constructor)) as [_ Hc].
    destruct (Hc (Some "fn-1") Demo.gs eq_refl eq_refl) as [_ Ht].
    destruct (Ht eq_refl) as (_ & _ & Hr).
    destruct Hr as [_ Hr]; [discriminate | reflexivity | exact Hr].
  - destruct (endpoint_lookup_soft_failure
                (Demo.registry_lookup_fails
                   (mk_exn (Derived MLRunNotFoundError "EndpointNotFound")
                      "no such endpoint"))
                Demo.gs (Demo.srv Demo.quiet_stream 1 1) (VNone, VNone) eq_refl)
      as [H _].
    destruct (H (mk_exn (Derived MLRunNotFoundError "EndpointNotFound")
                   "no such endpoint") eq_refl) as (_ & _ & Hn).
    destruct (Hn ltac:(repeat constructor)) as [_ Hc].
    destruct (Hc (Some "fn-1") Demo.gs eq_refl eq_refl) as [_ Ht].
    destruct (Ht eq_refl) as (_ & _ & Hr).
    destruct Hr as [_ Hr]; [discriminate | reflexivity | exact Hr].
  - destruct (endpoint_lookup_soft_failure Demo.registry Demo.gs
                (init "MyModel" (Demo.ctx Demo.quiet_stream 1 1)
                   None None (VStr "clf") None None None None [])
                (VNone, VNone) eq_refl) as [H _].
    destruct (H (mk_exn MLRunNotFoundError "model endpoint not found") eq_refl)
      as (_ & _ & Hn).
    destruct (Hn ltac:(constructor)) as [_ Hc].
    destruct (Hc (Some "fn-1") Demo.gs eq_refl eq_refl) as [_ Ht].
    destruct (Ht eq_refl) as (Hnone & _).
    destruct (Hnone eq_refl) as [Hd _]. exact Hd.
Defined.

(* ================================================================== *)
(** ** The dispatcher: response envelope and telemetry failures *)

Lemma eq_str_true (v : value) (s : string) : eq_str v s = true -> v = VStr s.
Proof.
  destruct v; cbn; try discriminate.
  intros H. apply String.eqb_eq in H. now subst.
Qed.



(** What [settled] keeps of a result: all but the two attributes that the
    loading thread writes; and it changes nothing for a server that is
    ready or an event that is not made to wait. *)
Lemma settled_outcome env m event r :
  fst (fst (settled env m event r)) = fst (fst r).
Proof. destruct r as [[res m'] t]. reflexivity. Qed.

Lemma settled_trace env m event r : snd (settled env m event r) = snd r.
Proof. destruct r as [[res m'] t]. reflexivity. Qed.

Lemma settled_logger env m event r :
  _model_logger (snd (fst (settled env m event r)))
  = _model_logger (snd (fst r)).
Proof.
  destruct r as [[res m'] t]. cbn. unfold after_wait.
  destruct (ready m || interactive event); reflexivity.
Qed.

Lemma settled_ready env m event r : ready m = true -> settled env m event r = r.
Proof.
  intros Hr. destruct r as [[res m'] t]. unfold settled, after_wait.
  rewrite Hr. reflexivity.
Qed.

Lemma settled_interactive env m event r :
  interactive event = true -> settled env m event r = r.
Proof.
  intros Hi. destruct r as [[res m'] t]. unfold settled, after_wait.
  rewrite Hi, orb_true_r. reflexivity.
Qed.


Section Dispatcher.
Variable extract : option string -> value -> value.
Variable update : option string -> value -> value -> value.
Variable format_exc : exn -> string.
Variable py_str : value -> string.

Let dispatch := do_event extract update format_exc py_str.



Lemma dispatch_predict h env m event o event_id :
  operation_of event (extract (_input_path m) (body event)) = (o, event_id) ->
  predict_family o ->
  dispatch h env m event
  = settled env m event
      match _pre_event_processing_actions h env m event
              (extract (_input_path m) (body event)) o with
      | (Raise e, t) => (Raise e, m, t)
      | (Return req, t) =>
          match predict h req with
          | Raise exc => on_inference_error format_exc env m req o event_id exc t
          | Return outputs =>
              finish_event update format_exc h env m event (body event) req o
                event_id
                (VDict (predict_response m event_id outputs (now_start env))) t
          end
      end.
Proof.
  intros Ho Hf. unfold dispatch, do_event. rewrite Ho.
  destruct Hf as [-> | [-> | [-> | ->]]]; reflexivity.
Qed.

Lemma dispatch_explain h env m event event_id :
  operation_of event (extract (_input_path m) (body event))
  = (VStr "explain", event_id) ->
  dispatch h env m event
  = settled env m event
      match _pre_event_processing_actions h env m event
              (extract (_input_path m) (body event)) (VStr "explain") with
      | (Raise e, t) => (Raise e, m, t)
      | (Return req, t) =>
          match explain h req with
          | Raise exc =>
              on_inference_error format_exc env m req (VStr "explain") event_id
                exc t
          | Return outputs =>
              finish_event update format_exc h env m event (body event) req
                (VStr "explain") event_id
                (VDict (explain_response m event_id outputs)) t
          end
      end.
Proof.
  intros Ho. unfold dispatch, do_event. rewrite Ho. reflexivity.
Qed.

Lemma dispatch_inference h env m event o event_id :
  operation_of event (extract (_input_path m) (body event)) = (o, event_id) ->
  inference_op o ->
  dispatch h env m event
  = settled env m event
      match _pre_event_processing_actions h env m event
              (extract (_input_path m) (body event)) o with
      | (Raise e, t) => (Raise e, m, t)
      | (Return req, t) =>
          match served h o req with
          | Raise exc => on_inference_error format_exc env m req o event_id exc t
          | Return outputs =>
              finish_event update format_exc h env m event (body event) req o
                event_id
                (VDict (envelope_of m o event_id outputs (now_start env))) t
          end
      end.
Proof.
  intros Ho [Hf | ->].
  - rewrite (dispatch_predict h env m event o event_id Ho Hf).
    destruct Hf as [-> | [-> | [-> | ->]]]; reflexivity.
  - apply (dispatch_explain h env m event event_id Ho).
Qed.







End Dispatcher.





(* ================================================================== *)
(** * Further properties of the module *)

(** ** Dicts and strings *)

Lemma dict_get_set_same {A : Type} (k : string) (v : A) (d : list (string * A)) :
  dict_get k (dict_set k v d) = Some v.
Proof.
  induction d as [|[k' v'] r IH]; cbn.
  - now rewrite String.eqb_refl.
  - destruct (String.eqb k' k) eqn:E; cbn.
    + now rewrite String.eqb_refl.
    + now rewrite E.
Qed.

Lemma dict_get_set_other {A : Type} (k k' : string) (v : A)
  (d : list (string * A)) :
  k' <> k -> dict_get k' (dict_set k v d) = dict_get k' d.
Proof.
  intros Hne. induction d as [|[k0 v0] r IH]; cbn.
  - destruct (String.eqb_spec k k'); [congruence|reflexivity].
  - destruct (String.eqb_spec k0 k) as [->|Hk]; cbn.
    + destruct (String.eqb_spec k k'); [congruence|].
      destruct (String.eqb_spec k k'); [congruence|reflexivity].
    + destruct (String.eqb k0 k'); [reflexivity|exact IH].
Qed.

Lemma str_length_app (a b : string) :
  String.length (a ++ b) = (String.length a + String.length b)%nat.
Proof. induction a as [|x a IH]; cbn; [reflexivity|]. now rewrite IH. Qed.

(* ================================================================== *)
(** ** The pusher between calls *)

Section PusherState.
Variable format_exc : exn -> string.
Variable m : V2ModelServer.

(** A call changes neither the configuration nor whether a stream is
    attached. *)
Lemma push_keeps c p :
  same_config p (snd (push format_exc m c p))
  /\ (output_stream (snd (push format_exc m c p)) = None
      <-> output_stream p = None).
Proof.
  unfold push. destruct (push_error c) as [err|].
  - unfold pusher_stream_push, stream_push.
    destruct (output_stream p) as [os|] eqn:Ho; cbn.
    + destruct (raises_on os _ _); cbn; split;
        try (repeat split; reflexivity); split; intros; congruence.
    + split; [repeat split; reflexivity|]. rewrite Ho. tauto.
  - destruct (stream_sample p =? 0); [split; [repeat split; reflexivity|tauto]|].
    cbv zeta. set (q := with_sample_iter p _).
    assert (Hq : same_config p q) by (repeat split; reflexivity).
    assert (Hoq : output_stream q = output_stream p) by reflexivity.
    destruct (output_stream q) as [os|] eqn:Ho.
    + destruct (_sample_iter q =? 0).
      * destruct (emit_keeps m c q) as (Hc & _ & Hs). split.
        -- exact (same_config_trans _ _ _ Hq Hc).
        -- rewrite <- Hoq. split; intros H; [|congruence].
           exfalso. apply Hs; [congruence|exact H].
      * cbn [snd]. rewrite Ho, <- Hoq. split; [exact Hq|tauto].
    + cbn [snd]. rewrite Ho, <- Hoq. split; [exact Hq|tauto].
Qed.

Lemma emit_inv c q :
  1 <= stream_sample q -> pusher_inv q -> pusher_inv (snd (emit m c q)).
Proof.
  intros HN (Hs & Hb). unfold pusher_inv.
  destruct (emit_keeps m c q) as ((_&_&_&_&HB&HS&_) & Hsi & _).
  rewrite HB, HS, Hsi. split; [exact Hs|].
  intros H1. destruct (Hb H1) as (Hr & Hl).
  unfold emit. destruct (1 <? stream_batch q) eqn:E; [|apply Z.ltb_ge in E; lia].
  set (i := (_batch_iter q + 1) mod stream_batch q).
  set (b := ((if _batch_iter q =? 0 then [] else _batch q)
             ++ [buffered_row c])%list).
  assert (Hi : 0 <= i < stream_batch q) by (apply Z.mod_pos_bound; lia).
  assert (Hbl : zlen b = _batch_iter q + 1).
  { unfold b, zlen. rewrite length_app. cbn [List.length].
    unfold zlen, cur_batch in Hl. lia. }
  assert (Hres : _batch_iter (snd (if _batch_iter (with_batch q i b) =? 0
                    then pusher_stream_push (with_batch q i b)
                           [batch_data m (with_batch q i b)
                              (map (read_row m) (_batch (with_batch q i b)))]
                           (partition_key c)
                    else (Return tt, with_batch q i b))) = i
                 /\ _batch (snd (if _batch_iter (with_batch q i b) =? 0
                    then pusher_stream_push (with_batch q i b)
                           [batch_data m (with_batch q i b)
                              (map (read_row m) (_batch (with_batch q i b)))]
                           (partition_key c)
                    else (Return tt, with_batch q i b))) = b).
  { destruct (_batch_iter (with_batch q i b) =? 0); [|split; reflexivity].
    unfold pusher_stream_push, stream_push. cbn [output_stream with_batch].
    destruct (output_stream q) as [os|]; [|split; reflexivity].
    destruct (raises_on os _ _); split; reflexivity. }
  destruct Hres as (Hri & Hrb).
  unfold cur_batch. rewrite Hri, Hrb. split; [exact Hi|].
  destruct (i =? 0) eqn:E0.
  - apply Z.eqb_eq in E0. rewrite E0. reflexivity.
  - apply Z.eqb_neq in E0. rewrite Hbl. unfold i in *.
    destruct (Z.eq_dec (_batch_iter q + 1) (stream_batch q)) as [e|ne].
    + rewrite e, Z.mod_same in E0 by lia. congruence.
    + rewrite Z.mod_small by lia. reflexivity.
Qed.

Lemma push_inv c p :
  1 <= stream_sample p -> pusher_inv p ->
  pusher_inv (snd (push format_exc m c p)).
Proof.
  intros HN Hinv. unfold push. destruct (push_error c) as [err|].
  - unfold pusher_stream_push, stream_push.
    destruct (output_stream p) as [os|]; [|exact Hinv].
    destruct (raises_on os _ _); exact Hinv.
  - destruct (stream_sample p =? 0) eqn:E; [apply Z.eqb_eq in E; lia|].
    cbv zeta. set (q := with_sample_iter p _).
    assert (Hq : pusher_inv q).
    { destruct Hinv as (Hs & Hb). split; [|exact Hb].
      unfold q. cbn. apply Z.mod_pos_bound. lia. }
    destruct (output_stream q); [|exact Hq].
    destruct (_sample_iter q =? 0); [|exact Hq].
    apply emit_inv; [exact HN|exact Hq].
Qed.

(** X1. Whatever calls a pusher receives, errors or not, starting from
    the state its constructor gives it: the sampling counter stays within
    [0, N), and with batching on the batch counter stays within [0, B) and
    equals the number of rows waiting in the batch. *)
Theorem pusher_state_invariant (ctx : Context) (cs : list PushCall) :
  1 <= log_stream_sample ctx ->
  pusher_inv (push_all format_exc m cs (new_pusher ctx))
  /\ same_config (new_pusher ctx) (push_all format_exc m cs (new_pusher ctx)).
Proof.
  intros HN.
  assert (H0 : pusher_inv (new_pusher ctx)).
  { split; cbn; [lia|]. intros HB. split; [lia|reflexivity]. }
  assert (Hgen : forall l p, 1 <= stream_sample p -> pusher_inv p ->
            pusher_inv (push_all format_exc m l p)
            /\ same_config p (push_all format_exc m l p)).
  { induction l as [|c r IH]; intros p Hp Hi; cbn [push_all].
    - split; [exact Hi|apply same_config_refl].
    - destruct (push_keeps c p) as (Hc & _).
      assert (Hp' : 1 <= stream_sample (snd (push format_exc m c p))).
      { destruct Hc as (_&_&_&_&_&HS&_). rewrite HS. exact Hp. }
      destruct (IH _ Hp' (push_inv c p Hp Hi)) as (Ha & Hb).
      split; [exact Ha|]. eapply same_config_trans; eauto. }
  apply Hgen; [exact HN|exact H0].
Qed.

Lemma same_progress_refl p : same_progress p p.
Proof. split; [apply same_config_refl|]. split; [reflexivity|tauto]. Qed.

Lemma stream_push_progress q recs pk :
  same_progress q (snd (pusher_stream_push q recs pk)).
Proof.
  unfold pusher_stream_push, stream_push.
  destruct (output_stream q) as [os|] eqn:Ho; [|apply same_progress_refl].
  destruct (raises_on os _ _); cbn;
    (split; [repeat split; reflexivity|]); (split; [reflexivity|]);
    cbn; rewrite Ho; split; intros; congruence.
Qed.

Lemma same_progress_trans p q r :
  same_progress p q -> same_progress q r -> same_progress p r.
Proof.
  intros (Hc & Hn & Ho) (Hc' & Hn' & Ho').
  split; [exact (same_config_trans _ _ _ Hc Hc')|].
  split; [congruence|tauto].
Qed.

Lemma same_progress_sym p q : same_progress p q -> same_progress q p.
Proof.
  intros ((?&?&?&?&?&?&?) & Hn & Ho).
  split; [repeat split; congruence|]. split; [congruence|tauto].
Qed.

(** The emission moves two states that have come equally far equally far. *)
Lemma emit_progress c p q :
  same_progress p q ->
  same_progress (snd (emit m c p)) (snd (emit m c q)).
Proof.
  intros H.
  assert (Hstep : forall x, exists y,
            same_progress y (snd (emit m c x))
            /\ same_config x y /\ (output_stream y = None <-> output_stream x = None)
            /\ counters y
               = (if 1 <? stream_batch x
                  then (_sample_iter x,
                        (_batch_iter x + 1) mod stream_batch x,
                        ((if _batch_iter x =? 0 then [] else _batch x)
                         ++ [buffered_row c])%list)
                  else counters x)).
  { intros x. unfold emit. destruct (1 <? stream_batch x).
    - set (y := with_batch x _ _). exists y.
      split; [|split; [repeat split; reflexivity|split; [reflexivity|reflexivity]]].
      destruct (_batch_iter y =? 0);
        [apply stream_push_progress|apply same_progress_refl].
    - exists x. split; [apply stream_push_progress|].
      split; [apply same_config_refl|]. split; [tauto|reflexivity]. }
  destruct (Hstep p) as (y & Hy & Hcy & Hoy & Hny).
  destruct (Hstep q) as (z & Hz & Hcz & Hoz & Hnz).
  apply same_progress_trans with z; [|exact Hz].
  apply same_progress_trans with y; [apply same_progress_sym; exact Hy|].
  destruct H as (Hc & Hn & Ho).
  split.
  - apply same_config_trans with p.
    + destruct Hcy as (?&?&?&?&?&?&?). repeat split; congruence.
    + exact (same_config_trans _ _ _ Hc Hcz).
  - split; [|tauto].
    rewrite Hnz, Hny. destruct Hc as (_&_&_&_&HB&_&_).
    pose proof Hn as Hn0.
    unfold counters in Hn. inversion Hn as [[H1 H2 H3]].
    rewrite HB, H1, H2, H3, Hn0. reflexivity.
Qed.

Lemma push_progress c p q :
  same_progress p q ->
  same_progress (snd (push format_exc m c p)) (snd (push format_exc m c q)).
Proof.
  intros H. unfold push. destruct (push_error c) as [err|].
  - apply same_progress_trans with q;
      [|apply stream_push_progress].
    apply same_progress_trans with p; [|exact H].
    apply same_progress_sym, stream_push_progress.
  - destruct H as (Hc & Hn & Ho).
    pose proof Hc as (_&_&_&_&_&HS&_).
    unfold counters in Hn. inversion Hn as [[H1 H2 H3]].
    rewrite HS, H1.
    destruct (stream_sample p =? 0); [split; [exact Hc|split; [exact Hn|exact Ho]]|].
    cbv zeta.
    set (i := (_sample_iter p + 1) mod stream_sample p).
    assert (Hpq : same_progress (with_sample_iter p i) (with_sample_iter q i)).
    { split; [exact Hc|]. split; [|exact Ho].
      unfold counters. cbn. congruence. }
    change (output_stream (with_sample_iter q i)) with (output_stream q).
    change (output_stream (with_sample_iter p i)) with (output_stream p).
    change (_sample_iter (with_sample_iter q i)) with i.
    change (_sample_iter (with_sample_iter p i)) with i.
    destruct (output_stream p) as [os|] eqn:Hop,
             (output_stream q) as [os'|] eqn:Hoq.
    + destruct (i =? 0); [apply emit_progress|]; exact Hpq.
    + exfalso. assert (Some os = None) by (apply Ho; reflexivity). congruence.
    + exfalso. assert (Some os' = None) by (apply Ho; reflexivity). congruence.
    + exact Hpq.
Qed.

(** X2. Error records neither take a sampling slot nor enter a batch: a
    run of calls leaves the sampling counter, the batch counter and the
    batch buffer exactly as the same run without its error calls does. *)
Theorem errors_leave_sampling_alone (cs : list PushCall) (p : ModelLogPusher) :
  counters (push_all format_exc m cs p)
  = counters (push_all format_exc m (filter is_non_error cs) p).
Proof.
  assert (Hgen : forall l x y, same_progress x y ->
            same_progress (push_all format_exc m (filter is_non_error l) x)
                          (push_all format_exc m l y)).
  { induction l as [|c r IH]; intros x y H; cbn [filter push_all]; [exact H|].
    unfold is_non_error at 1.
    destruct (push_error c) as [err|] eqn:Ec.
    - apply IH. apply same_progress_trans with y; [exact H|].
      unfold push. rewrite Ec. apply stream_push_progress.
    - cbn [push_all]. apply IH, push_progress, H. }
  destruct (Hgen cs p p (same_progress_refl p)) as (_ & Hn & _).
  exact Hn.
Qed.

End PusherState.

(* ================================================================== *)
(** ** What a telemetry record holds *)

Lemma total_microseconds_sub (a b : datetime) :
  total_microseconds (DateTime.sub a b) = epoch_us a - epoch_us b.
Proof.
  assert (HT : epoch_us a - epoch_us b
               = ((toordinal a - toordinal b) * 86400
                  + (second a + minute a * 60 + hour a * 3600
                     - (second b + minute b * 60 + hour b * 3600))) * 1000000
                 + (microsecond a - microsecond b))
    by (unfold epoch_us; ring).
  rewrite HT. clear HT.
  unfold total_microseconds, DateTime.sub, timedelta_of.
  cbn [days seconds microseconds].
  set (T := ((toordinal a - toordinal b) * 86400 + _) * 1000000 + _).
  rewrite (Z.mul_comm (T / 1000000 / 86400) 86400).
  rewrite <- (Z.div_mod (T / 1000000) 86400) by lia.
  rewrite Z.mul_comm. symmetry. apply Z.div_mod. lia.
Qed.

(** X3. The recorded [microsec] always lies in [0, 1000000); it is the
    time elapsed between [start] and the emission, in microseconds, when
    that time is non-negative and shorter than one second. *)
Theorem microsec_of_short_requests (c : PushCall) :
  0 <= microsec_of c < 1000000
  /\ (0 <= epoch_us (now c) - epoch_us (start c) < 1000000 ->
      microsec_of c = epoch_us (now c) - epoch_us (start c)).
Proof.
  rewrite microsec_of_mod, total_microseconds_sub. split.
  - apply Z.mod_pos_bound. lia.
  - intros H. apply Z.mod_small. exact H.
Qed.

Lemma microsec_of_short_requests_witness :
  microsec_of (mk_call Demo.t0 VNone VNone VNone None None
                 (mk_datetime 2024 1 1 0 0 0 250000 true)) = 250000.
Proof.
  destruct (microsec_of_short_requests
              (mk_call Demo.t0 VNone VNone VNone None None
                 (mk_datetime 2024 1 1 0 0 0 250000 true))) as [_ H].
  rewrite H; [reflexivity|].
  vm_compute. split; [discriminate|reflexivity].
Defined.

Lemma base_data_get_other (m : V2ModelServer) (p : ModelLogPusher) (k : string) :
  k <> "class" -> k <> "worker" -> k <> "model" -> k <> "version" ->
  k <> "host" -> k <> "function_uri" -> k <> "endpoint_id" -> k <> "labels" ->
  dict_get k (base_data m p) = None.
Proof.
  intros H1 H2 H3 H4 H5 H6 H7 H8. unfold base_data.
  assert (Hb : dict_get k
                 [("class", VStr (class_name m)); ("worker", _worker p);
                  ("model", opt_str (name m)); ("version", VStr (version m));
                  ("host", VStr (hostname p));
                  ("function_uri", VStr (function_uri p));
                  ("endpoint_id", opt_str (model_endpoint_uid m))] = None).
  { cbn [dict_get].
    repeat match goal with
           | |- context [String.eqb ?a k] =>
               destruct (String.eqb_spec a k); [congruence|]
           end.
    reflexivity. }
  destruct (truthy (labels_value (labels m))); [|exact Hb].
  rewrite dict_get_set_other by congruence. exact Hb.
Qed.

(** X4. A flat record carries the start time in [when] with six digits of
    fraction; a batch row carries [str(start)] in its fourth column.  The
    two texts are the same except when the start time has no microseconds:
    then the batch row leaves the fraction out. *)
Theorem when_of_batch_row_and_flat_record (m : V2ModelServer)
  (p : ModelLogPusher) (c : PushCall) :
  dict_get "when" (dict_of (flat_data m p c))
  = Some (VStr (isoformat_us (start c)))
  /\ nth 3 (items_of (batch_row m c)) VNone = VStr (to_str (start c))
  /\ (microsecond (start c) <> 0 -> to_str (start c) = isoformat_us (start c))
  /\ (microsecond (start c) = 0 ->
      isoformat_us (start c)
      = date_part (start c) ++ " " ++ time_part (start c) ++ ".000000"
        ++ tz_part (start c)
      /\ to_str (start c)
         = date_part (start c) ++ " " ++ time_part (start c)
           ++ tz_part (start c)
      /\ to_str (start c) <> isoformat_us (start c)).
Proof.
  split; [|split; [reflexivity|split]].
  - unfold flat_data, dict_of.
    destruct (truthy (VDict (metrics m)));
      rewrite ?(dict_get_set_other "metrics" "when") by discriminate;
      rewrite (dict_get_set_other "microsec" "when") by discriminate;
      apply dict_get_set_same.
  - intros H. unfold to_str, isoformat_us.
    destruct (microsecond (start c) =? 0) eqn:E;
      [apply Z.eqb_eq in E; contradiction|reflexivity].
  - intros H. unfold to_str, isoformat_us. rewrite H. cbn [Z.eqb].
    split; [reflexivity|]. split; [reflexivity|].
    intros Heq. apply (f_equal String.length) in Heq.
    rewrite !str_length_app in Heq. cbn in Heq. lia.
Qed.

Lemma when_of_batch_row_and_flat_record_witness :
  to_str Demo.t0 <> isoformat_us Demo.t0
  /\ to_str Demo.t1 = isoformat_us Demo.t1.
Proof.
  destruct (when_of_batch_row_and_flat_record
              (Demo.srv Demo.quiet_stream 1 1) (Demo.pusher Demo.quiet_stream 1 1)
              (Demo.call 1)) as (_ & _ & _ & H0).
  destruct (when_of_batch_row_and_flat_record
              (Demo.srv Demo.quiet_stream 1 1) (Demo.pusher Demo.quiet_stream 1 1)
              (mk_call Demo.t1 VNone VNone VNone None None Demo.t1))
    as (_ & _ & H1 & _).
  split.
  - apply H0. reflexivity.
  - apply H1. discriminate.
Defined.

(** X5. A metric set with [set_metric] is in the [metrics] of the next
    unbatched record, under its name and with its value, beside the metrics
    set before; a server on which no metric was ever set sends unbatched
    records without a [metrics] entry. *)
Theorem metric_reaches_the_record (m : V2ModelServer) (p : ModelLogPusher)
  (c : PushCall) (k : string) (v : value) :
  let m' := set_metric m k v in
  dict_get "metrics" (dict_of (flat_data m' p c)) = Some (VDict (metrics m'))
  /\ dict_get k (metrics m') = Some v
  /\ (forall k', k' <> k -> dict_get k' (metrics m') = dict_get k' (metrics m))
  /\ (metrics m = [] -> dict_get "metrics" (dict_of (flat_data m p c)) = None).
Proof.
  cbv zeta. split; [|split; [|split]].
  - unfold flat_data, dict_of.
    assert (Ht : truthy (VDict (metrics (set_metric m k v))) = true).
    { unfold set_metric. cbn [metrics with_metrics truthy].
      destruct (metrics m) as [|[k0 v0] r]; cbn; [reflexivity|].
      destruct (String.eqb k0 k); reflexivity. }
    rewrite Ht. apply dict_get_set_same.
  - apply dict_get_set_same.
  - intros k' Hk. apply dict_get_set_other. exact Hk.
  - intros Hm. unfold flat_data, dict_of. rewrite Hm. cbn [truthy].
    rewrite !dict_get_set_other by discriminate.
    apply base_data_get_other; discriminate.
Qed.


(* ================================================================== *)
(** ** The dispatcher, operation by operation *)

Lemma operation_of_path (event : Event) (event_body : value) :
  strip "/" (path event) <> "" ->
  fst (operation_of event event_body) = VStr (strip "/" (path event)).
Proof.
  intros Hne. apply string_eqb_false_iff in Hne.
  unfold operation_of, py_or.
  assert (Ht : truthy (VStr (strip "/" (path event))) = true)
    by (cbn [truthy]; rewrite Hne; reflexivity).
  cbn [truthy] in Ht.
  destruct event_body as [| | | | | |[|kv d]|]; cbn [fst truthy];
    rewrite ?Ht; cbn [negb andb fst truthy]; rewrite ?Ht; reflexivity.
Qed.

Section Operations.
Variable extract : option string -> value -> value.
Variable update : option string -> value -> value -> value.
Variable format_exc : exn -> string.
Variable py_str : value -> string.

Let dispatch := do_event extract update format_exc py_str.

(** X6. On a server without an input path (the body is then taken as it
    is, whatever it is), a GET on the path "ready" is answered whatever the
    body, whatever the model class and whether or not the model is loaded:
    it never raises and never waits, answers 200 when the model is ready and
    408 when not, marks the event terminated, and leaves the server, its
    telemetry included, as it was. *)
Theorem health_check_always_answers (h : Hooks) (env : Env)
  (m : V2ModelServer) (event : Event) :
  opt_truthy (_input_path m) = false ->
  strip "/" (path event) = "ready" -> method event = "GET" ->
  exists text,
    dispatch h env m event
    = (Return (with_body event
                 (VResponse (if ready m then 200 else 408) text) true),
       m, [])
    /\ (ready m = false -> text = "model not ready").
Proof.
  intros _ Hp Hm. unfold dispatch, do_event.
  assert (Ho := operation_of_path event (extract (_input_path m) (body event))).
  rewrite Hp in Ho. specialize (Ho ltac:(discriminate)).
  destruct (operation_of event _) as [o eid]. cbn [fst] in Ho. subst o.
  rewrite Hm. cbn [eq_str String.eqb Ascii.eqb Bool.eqb orb andb].
  destruct (ready m); eexists; split; try reflexivity; discriminate.
Qed.

(** X7. A GET with an empty path, and an effective body that is not a
    non-empty dict, is the metadata request: whether or not the model is
    loaded it returns, marks the event terminated, touches neither the
    server nor the telemetry, and writes the name, the version and the
    declared inputs and outputs, which are empty lists as long as no model
    artifact is known. *)
Theorem metadata_request (h : Hooks) (env : Env) (m : V2ModelServer)
  (event : Event) :
  strip "/" (path event) = "" -> method event = "GET" ->
  (forall kv d, extract (_input_path m) (body event) <> VDict (kv :: d)) ->
  exists meta,
    dispatch h env m event
    = (Return (with_body event
                 (update (_result_path m) (body event) (VDict meta)) true),
       m, [])
    /\ dict_get "name" meta = Some (opt_str (name m))
    /\ dict_get "version" meta = Some (VStr (version m))
    /\ (model_spec m = None ->
        dict_get "inputs" meta = Some (VList [])
        /\ dict_get "outputs" meta = Some (VList []))
    /\ (forall a, model_spec m = Some a ->
        dict_get "inputs" meta = Some (art_inputs_dict a)
        /\ dict_get "outputs" meta = Some (art_outputs_dict a)).
Proof.
  intros Hp Hm Hb. unfold dispatch, do_event.
  assert (Ho : operation_of event (extract (_input_path m) (body event))
               = (VStr "", id event)).
  { unfold operation_of. rewrite Hp, Hm.
    destruct (extract (_input_path m) (body event)) as [| | | | | |[|kv d]|] eqn:E;
      try reflexivity.
    exfalso. exact (Hb kv d eq_refl). }
  rewrite Ho, Hm. cbn [eq_str String.eqb Ascii.eqb Bool.eqb orb andb].
  eexists. split; [reflexivity|].
  cbn [dict_get String.eqb Ascii.eqb Bool.eqb].
  split; [reflexivity|]. split; [reflexivity|]. split.
  - intros ->. split; reflexivity.
  - intros a ->. split; reflexivity.
Qed.

(** X8. A GET with an empty path whose effective body is a non-empty dict
    without an [operation] entry is not served as a metadata request: the
    operation is [None], no branch of the dispatcher takes it, and the
    lookup of a custom operation fails with [TypeError]. *)
Theorem get_with_dict_body_is_a_type_error (h : Hooks) (env : Env)
  (m : V2ModelServer) (event : Event) (kv : string * value)
  (d : list (string * value)) :
  strip "/" (path event) = "" -> method event = "GET" ->
  extract (_input_path m) (body event) = VDict (kv :: d) ->
  dict_get "operation" (kv :: d) = None ->
  exists e,
    dispatch h env m event = (Raise e, m, []) /\ exn_cls e = TypeError.
Proof.
  intros Hp Hm Hb Hop. unfold dispatch, do_event.
  assert (Ho : fst (operation_of event (VDict (kv :: d))) = VNone).
  { unfold operation_of, py_or, dict_get_default.
    rewrite Hp, Hm, Hop. reflexivity. }
  rewrite Hb. destruct (operation_of event (VDict (kv :: d))) as [o eid].
  cbn [fst] in Ho. subst o. cbn.
  eexists. split; reflexivity.
Qed.

End Operations.

Lemma health_check_always_answers_witness :
  exists text,
    do_event Demo.extract Demo.update Demo.fe Demo.show Demo.failing_hooks
      Demo.env (Demo.cold Demo.broken_stream)
      (Demo.ev "/ready/" "GET" Demo.inputs_123 (Some (mk_trigger "kafka")))
    = (Return (with_body
                 (Demo.ev "/ready/" "GET" Demo.inputs_123
                    (Some (mk_trigger "kafka")))
                 (VResponse 408 text) true),
       Demo.cold Demo.broken_stream, []).
Proof.
  destruct (health_check_always_answers Demo.extract Demo.update Demo.fe
              Demo.show Demo.failing_hooks Demo.env
              (Demo.cold Demo.broken_stream)
              (Demo.ev "/ready/" "GET" Demo.inputs_123
                 (Some (mk_trigger "kafka"))) eq_refl eq_refl eq_refl)
    as (text & H & _).
  exists text. exact H.
Defined.

Lemma metadata_request_witness :
  exists meta,
    do_event Demo.extract Demo.update Demo.fe Demo.show Demo.hooks Demo.env
      (Demo.cold Demo.quiet_stream) (Demo.ev "/" "GET" VNone None)
    = (Return (with_body (Demo.ev "/" "GET" VNone None) (VDict meta) true),
       Demo.cold Demo.quiet_stream, [])
    /\ dict_get "inputs" meta = Some (VList []).
Proof.
  destruct (metadata_request Demo.extract Demo.update Demo.fe Demo.show
              Demo.hooks Demo.env (Demo.cold Demo.quiet_stream)
              (Demo.ev "/" "GET" VNone None) eq_refl eq_refl)
    as (meta & H & _ & _ & Hn & _).
  - intros kv d. discriminate.
  - exists meta. split; [exact H|]. apply Hn. reflexivity.
Defined.

Lemma get_with_dict_body_is_a_type_error_witness :
  exists e,
    do_event Demo.extract Demo.update Demo.fe Demo.show Demo.hooks Demo.env
      (Demo.srv Demo.quiet_stream 1 1)
      (Demo.ev "" "GET" (VDict [("id", VStr "e-7")]) None)
    = (Raise e, Demo.srv Demo.quiet_stream 1 1, [])
    /\ exn_cls e = TypeError.
Proof.
  exact (get_with_dict_body_is_a_type_error Demo.extract Demo.update Demo.fe
           Demo.show Demo.hooks Demo.env (Demo.srv Demo.quiet_stream 1 1)
           (Demo.ev "" "GET" (VDict [("id", VStr "e-7")]) None)
           ("id", VStr "e-7") [] eq_refl eq_refl eq_refl eq_refl).
Defined.

Section Telemetry.
Variable extract : option string -> value -> value.
Variable update : option string -> value -> value -> value.
Variable format_exc : exn -> string.
Variable py_str : value -> string.

Let dispatch := do_event extract update format_exc py_str.

(** X9. An operation name that is none of the built-in ones goes to the
    [op_<name>] method of the model class when it has one: the method gets
    the raw event, no readiness check is made, nothing is sent to the
    telemetry, the server is untouched and the answer is written through the
    result path; what the method raises is raised.  Without such a method the
    event is refused with [ValueError]. *)
Theorem custom_operation (h : Hooks) (env : Env) (m : V2ModelServer)
  (event : Event) (nm : string) :
  fst (operation_of event (extract (_input_path m) (body event))) = VStr nm ->
  ~ In nm ["predict"; "infer"; "infer_dict"; "predict_dict"; "explain"] ->
  (method event = "GET" -> nm <> "ready" /\ nm <> "") ->
  (forall f, custom_op h nm = Some f ->
     dispatch h env m event
     = (match f event with
        | Return response =>
            Return (with_body event
                      (update (_result_path m) (body event) response)
                      (terminated event))
        | Raise e => Raise e
        end, m, []))
  /\ (custom_op h nm = None ->
      exists e, dispatch h env m event = (Raise e, m, [])
                /\ exn_cls e = ValueError).
Proof.
  intros Ho Hb Hg. unfold dispatch, do_event.
  destruct (operation_of event _) as [o eid]. cbn [fst] in Ho. subst o.
  cbn [eq_str].
  assert (Hne : forall s, In s ["predict"; "infer"; "infer_dict";
                                "predict_dict"; "explain"] ->
                          String.eqb nm s = false).
  { intros s Hs. apply string_eqb_false_iff. intros ->. exact (Hb Hs). }
  rewrite (Hne "predict"), (Hne "infer"), (Hne "infer_dict"),
    (Hne "predict_dict"), (Hne "explain") by (cbn; tauto).
  cbn [orb].
  assert (H1 : String.eqb nm "ready" && String.eqb (method event) "GET" = false).
  { destruct (String.eqb_spec (method event) "GET") as [Hm|Hm];
      [|apply andb_false_r].
    destruct (Hg Hm) as (Hr & _). apply string_eqb_false_iff in Hr.
    rewrite Hr. reflexivity. }
  assert (H2 : String.eqb nm "" && String.eqb (method event) "GET" = false).
  { destruct (String.eqb_spec (method event) "GET") as [Hm|Hm];
      [|apply andb_false_r].
    destruct (Hg Hm) as (_ & Hr). apply string_eqb_false_iff in Hr.
    rewrite Hr. reflexivity. }
  rewrite H1, H2. split.
  - intros f ->. destruct (f event); reflexivity.
  - intros ->. eexists. split; reflexivity.
Qed.

(** X10. While the model is not ready, an inference request that comes
    without a trigger, or over "http", is refused before anything else
    happens: the answer is the same for every model class, so neither its
    hooks nor its [predict] or [explain] have run; nothing is sent to the
    telemetry and there is no wait. *)
Theorem not_ready_inference_is_refused (h : Hooks) (env : Env)
  (m : V2ModelServer) (event : Event) (o event_id : value) :
  operation_of event (extract (_input_path m) (body event)) = (o, event_id) ->
  inference_op o -> ready m = false -> interactive event = true ->
  dispatch h env m event
  = (Raise (mk_exn RuntimeError
              ("model " ++ fmt_opt (name m) ++ " is not ready yet")), m, []).
Proof.
  intros Ho Hop Hr Hi. unfold dispatch.
  rewrite (dispatch_inference extract update format_exc py_str h env m event
             o event_id Ho Hop).
  rewrite (settled_interactive _ _ _ _ Hi).
  unfold _pre_event_processing_actions, _check_readiness.
  rewrite Hr, Hi. reflexivity.
Qed.

Lemma pusher_stream_push_state q os recs pk :
  output_stream q = Some os ->
  sink_calls (snd (pusher_stream_push q recs pk))
  = (received os ++ [(recs, pk)])%list
  /\ counters (snd (pusher_stream_push q recs pk)) = counters q.
Proof.
  intros Ho. unfold pusher_stream_push, stream_push, sink_calls. rewrite Ho.
  destruct (raises_on os _ _); cbn; split; reflexivity.
Qed.

(** X11. An inference failure on a dict request is recorded whatever the
    sample rate, the batch size and the counters: when [predict] or
    [explain] raises on a request that is a dict, the sink receives one error
    record at once, under the server's partition key, with the request (its
    [id] set), the operation and the error message; the counters and the
    batch are left alone; and, the sink having taken the record, the
    dispatcher raises the inference error.  On a request that is not a dict
    (a list that a protocol other than v2 lets through, say) the assignment
    of the [id] raises [TypeError]: nothing is sent to the sink, the pusher
    is left as it was, and the [TypeError] is raised in place of the
    inference error. *)
Theorem inference_failure_is_recorded (h : Hooks) (env : Env)
  (m : V2ModelServer) (event : Event) (o event_id req : value)
  (t : list effect) (exc : exn)
  (p : ModelLogPusher) (os : OutputStream) :
  operation_of event (extract (_input_path m) (body event)) = (o, event_id) ->
  inference_op o ->
  _pre_event_processing_actions h env m event
    (extract (_input_path m) (body event)) o = (Return req, t) ->
  served h o req = Raise exc ->
  _model_logger m = Some p -> output_stream p = Some os ->
  (forall d, req = VDict d ->
     let record :=
       error_data format_exc m p
         (error_call env m (VDict (dict_set "id" event_id d)) o exc) exc in
     raises_on os (received os) ([record], partition_key_of m) = None ->
     exists p',
       fst (fst (dispatch h env m event)) = Raise exc
       /\ _model_logger (snd (fst (dispatch h env m event))) = Some p'
       /\ snd (dispatch h env m event) = t
       /\ sink_calls p' = (received os ++ [([record], partition_key_of m)])%list
       /\ counters p' = counters p
       /\ dict_get "request" (dict_of record)
          = Some (VDict (dict_set "id" event_id d))
       /\ dict_get "op" (dict_of record) = Some o
       /\ (verbose p = false ->
           dict_get "error" (dict_of record) = Some (VStr (exn_msg exc))))
  /\ (is_dict req = false ->
      exists e,
        fst (fst (dispatch h env m event)) = Raise e
        /\ exn_cls e = TypeError
        /\ _model_logger (snd (fst (dispatch h env m event))) = Some p
        /\ snd (dispatch h env m event) = t).
Proof.
  intros Ho Hop Hpre Hs Hl Hos. unfold dispatch.
  rewrite (dispatch_inference extract update format_exc py_str h env m event
             o event_id Ho Hop), Hpre, Hs.
  rewrite settled_outcome, settled_logger, settled_trace.
  unfold on_inference_error. split.
  - intros d -> Hacc. cbn [set_id]. rewrite Hl.
    set (c := error_call env m (VDict (dict_set "id" event_id d)) o exc) in *.
    set (record := error_data format_exc m p c exc) in *.
    assert (Hpush : push format_exc m c p
                    = pusher_stream_push p [record] (partition_key_of m))
      by reflexivity.
    rewrite Hpush.
    destruct (pusher_stream_push_state p os [record] (partition_key_of m) Hos)
      as (Hsink & Hcnt).
    assert (Hout : fst (pusher_stream_push p [record] (partition_key_of m))
                   = Return tt).
    { unfold pusher_stream_push, stream_push. rewrite Hos, Hacc. reflexivity. }
    destruct (pusher_stream_push p [record] (partition_key_of m)) as [r p'].
    cbn [fst snd] in *. subst r.
    exists p'. split; [reflexivity|]. split; [reflexivity|].
    split; [reflexivity|]. split; [exact Hsink|]. split; [exact Hcnt|].
    unfold record, error_data, dict_of. cbn [request op start error_call].
    split; [|split].
    + rewrite !(dict_get_set_other _ "request") by discriminate.
      apply dict_get_set_same.
    + rewrite !(dict_get_set_other _ "op") by discriminate.
      apply dict_get_set_same.
    + intros Hv. rewrite Hv. apply dict_get_set_same.
  - intros Hnd. destruct req; try discriminate; cbn [set_id fst snd];
      (eexists; split; [reflexivity|]; split; [reflexivity|];
       split; [exact Hl | reflexivity]).
Qed.

(** One call of [push] makes at most one call of the stream, under the
    partition key it was given. *)
Lemma push_sink_key m c p os :
  output_stream p = Some os ->
  sink_calls (snd (push format_exc m c p)) = received os
  \/ exists recs,
       sink_calls (snd (push format_exc m c p))
       = (received os ++ [(recs, partition_key c)])%list.
Proof.
  intros Ho. unfold push.
  destruct (push_error c) as [err|].
  - right. eexists. apply pusher_stream_push_state, Ho.
  - destruct (stream_sample p =? 0);
      [left; unfold sink_calls; cbn [snd]; rewrite Ho; reflexivity|].
    cbv zeta. set (q := with_sample_iter p _).
    assert (Hoq : output_stream q = Some os) by exact Ho.
    rewrite Hoq.
    destruct (_sample_iter q =? 0);
      [|left; unfold sink_calls; cbn [snd]; rewrite Hoq; reflexivity].
    unfold emit. destruct (1 <? stream_batch q).
    + set (q1 := with_batch q _ _).
      assert (Ho1 : output_stream q1 = Some os) by exact Ho.
      destruct (_batch_iter q1 =? 0).
      * right. eexists. apply pusher_stream_push_state, Ho1.
      * left. unfold sink_calls. cbn [snd]. rewrite Ho1. reflexivity.
    + right. eexists. apply pusher_stream_push_state, Hoq.
Qed.

Lemma tracked_call_key h env m req response o event_id :
  partition_key (tracked_call h env m req response o event_id)
  = partition_key_of m.
Proof.
  unfold tracked_call.
  destruct (logged_results h req response o) as [i u].
  destruct i, u; reflexivity.
Qed.

(** The pusher after an event: as before, or advanced by one call of
    [push] under the server's partition key. *)
Lemma dispatch_logger h env m event :
  _model_logger (snd (fst (dispatch h env m event))) = _model_logger m
  \/ exists c p,
       _model_logger m = Some p
       /\ partition_key c = partition_key_of m
       /\ _model_logger (snd (fst (dispatch h env m event)))
          = Some (snd (push format_exc m c p)).
Proof.
  assert (Hfin : forall original_body req o eid response t,
            _model_logger
              (snd (fst (finish_event update format_exc h env m event
                           original_body req o eid response t)))
            = _model_logger m
            \/ exists c p,
                 _model_logger m = Some p
                 /\ partition_key c = partition_key_of m
                 /\ _model_logger
                      (snd (fst (finish_event update format_exc h env m event
                                   original_body req o eid response t)))
                    = Some (snd (push format_exc m c p))).
  { intros. unfold finish_event.
    destruct (postprocess h response) as [r|e]; [|left; reflexivity].
    destruct (_model_logger m) as [p|] eqn:Hl; [|left; cbn; exact Hl].
    right. exists (tracked_call h env m req r o eid), p.
    split; [reflexivity|]. split; [apply tracked_call_key|].
    destruct (push format_exc m _ p) as [[u|e] p']; reflexivity. }
  assert (Herr : forall req o eid exc t,
            _model_logger
              (snd (fst (on_inference_error format_exc env m req o eid exc t)))
            = _model_logger m
            \/ exists c p,
                 _model_logger m = Some p
                 /\ partition_key c = partition_key_of m
                 /\ _model_logger
                      (snd (fst (on_inference_error format_exc env m req o eid
                                   exc t)))
                    = Some (snd (push format_exc m c p))).
  { intros. unfold on_inference_error.
    destruct (set_id req eid) as [req'|e]; [|left; reflexivity].
    destruct (_model_logger m) as [p|] eqn:Hl; [|left; cbn; exact Hl].
    right. exists (error_call env m req' o exc), p.
    split; [reflexivity|]. split; [reflexivity|].
    destruct (push format_exc m _ p) as [[u|e] p']; reflexivity. }
  unfold dispatch, do_event.
  destruct (operation_of event _) as [o eid].
  destruct (eq_str o "predict" || eq_str o "infer" || eq_str o "infer_dict"
            || eq_str o "predict_dict").
  { rewrite settled_logger.
    destruct (_pre_event_processing_actions h env m event _ o) as [[req|e] t];
      [|left; reflexivity].
    destruct (predict h req); [apply Hfin|apply Herr]. }
  destruct (eq_str o "ready" && String.eqb (method event) "GET").
  { destruct (ready m); left; reflexivity. }
  destruct (eq_str o "" && String.eqb (method event) "GET");
    [left; reflexivity|].
  destruct (eq_str o "explain").
  { rewrite settled_logger.
    destruct (_pre_event_processing_actions h env m event _ o) as [[req|e] t];
      [|left; reflexivity].
    destruct (explain h req); [apply Hfin|apply Herr]. }
  destruct o; try (left; reflexivity).
  destruct (custom_op h s) as [f|]; [|left; reflexivity].
  destruct (f event); left; reflexivity.
Qed.

(** X13. Handling an event makes at most one call of the output stream,
    and makes it under the endpoint uid as partition key, or under no key
    when [shard_by_endpoint] is False. *)
Theorem one_sink_call_per_event (h : Hooks) (env : Env) (m : V2ModelServer)
  (event : Event) (p : ModelLogPusher) (os : OutputStream) :
  _model_logger m = Some p -> output_stream p = Some os ->
  exists p',
    _model_logger (snd (fst (dispatch h env m event))) = Some p'
    /\ (sink_calls p' = received os
        \/ exists recs,
             sink_calls p'
             = (received os
                ++ [(recs, match shard_by_endpoint m with
                           | Some false => None
                           | _ => model_endpoint_uid m
                           end)])%list).
Proof.
  intros Hl Ho.
  destruct (dispatch_logger h env m event) as [H | (c & p0 & Hl0 & Hk & H)];
    rewrite H.
  - exists p. split; [exact Hl|]. left. unfold sink_calls. rewrite Ho. reflexivity.
  - assert (p0 = p) by congruence. subst p0.
    exists (snd (push format_exc m c p)). split; [reflexivity|].
    destruct (push_sink_key m c p os Ho) as [Hs | (recs & Hs)];
      [left; exact Hs|].
    right. exists recs. rewrite Hs, Hk. reflexivity.
Qed.

End Telemetry.

(* ================================================================== *)
(** ** Loading and [post_init] *)

Section Lifecycle.
Variable format_exc : exn -> string.
Variable ext : External.

Lemma with_model_spec_id m : with_model_spec m (model_spec m) (_params m) = m.
Proof. destruct m; reflexivity. Qed.

(** [get_model] and the reconciliation change nothing of the server but
    the artifact and the parameters read from it. *)
Lemma get_model_frame m suffix :
  exists s ps, snd (get_model ext m suffix) = with_model_spec m s ps.
Proof.
  unfold get_model.
  destruct (opt_truthy (model_path m));
    [|exists (model_spec m), (_params m); symmetry; apply with_model_spec_id].
  destruct (artifacts_get_model ext _ _) as [[[mf sp] ex]|e].
  - eexists _, _. reflexivity.
  - exists (model_spec m), (_params m). symmetry. apply with_model_spec_id.
Qed.

Lemma init_endpoint_record_frame gs m :
  exists s ps,
    snd (fst (_init_endpoint_record ext gs m)) = with_model_spec m s ps.
Proof.
  unfold _init_endpoint_record.
  assert (Hg : exists s ps, snd (ensure_model_spec ext m) = with_model_spec m s ps).
  { unfold ensure_model_spec. destruct (model_spec m) eqn:E.
    - exists (model_spec m), (_params m). symmetry. apply with_model_spec_id.
    - apply get_model_frame. }
  destruct Hg as (s & ps & Hg).
  destruct (ensure_model_spec ext m) as [r0 m0]. cbn [snd] in Hg.
  exists s, ps. rewrite <- Hg.
  repeat match goal with
         | |- context [match ?x with _ => _ end] => destruct x eqn:?
         end; reflexivity.
Qed.

(** X14. Synchronous loading.  On a server that is not ready, [post_init]
    in any mode but "async" runs [load()] on the spot.  If [load()] raises,
    [post_init] raises [RuntimeError] naming the model, the exception is
    kept in [error], and neither a registry call nor the telemetry set-up
    takes place; if [load()] returns, the server is ready from then on,
    however the rest of [post_init] ends. *)
Theorem sync_load_outcome (h : Hooks) (mode : string) (m : V2ModelServer) :
  mode <> "async" -> ready m = false ->
  (forall exc m1, load h m = (Raise exc, m1) ->
     post_init format_exc ext h mode m
     = (Raise (mk_exn RuntimeError
                 ("failed to load model " ++ fmt_opt (name m1))),
        with_error m1 (Some exc),
        [ELoad; ELog "error" (format_exc exc)]))
  /\ (forall u m1, load h m = (Return u, m1) ->
      ready (snd (fst (post_init format_exc ext h mode m))) = true).
Proof.
  intros Hmode Hr. apply string_eqb_false_iff in Hmode.
  unfold post_init, _load_and_update_state. rewrite Hr, Hmode. cbn [negb].
  split.
  - intros exc m1 ->. reflexivity.
  - intros u m1 ->.
    set (m2 := with_ready m1 true).
    destruct (match _server (context m2) with
              | Some s => Some s
              | None => server (context m2)
              end) as [gs|]; [|reflexivity].
    destruct (negb (is_mock (context m2)) || monitoring_mock (context m2));
      [|reflexivity].
    destruct (init_endpoint_record_frame gs m2) as (s & ps & Hf).
    destruct (_init_endpoint_record ext gs m2) as [[ru m'] t'].
    cbn [fst snd] in Hf. subst m'.
    destruct ru; reflexivity.
Qed.

(** X16. A server constructed without a model object, of a class that
    does not override [load()], cannot be initialised synchronously:
    [post_init] raises [RuntimeError], and the recorded error is the
    [ValueError] of the base [load()] that asks for a load method or a model
    object. *)
Theorem base_class_needs_a_model
  (cls : string) (ctx : Context) (nm mpath : option string) (mdl : value)
  (proto input_path result_path : option string) (shard : option bool)
  (kwargs : list (string * value)) (mode : string) :
  truthy mdl = false -> mode <> "async" ->
  let m := init cls ctx nm mpath mdl proto input_path result_path shard kwargs in
  exists e,
    fst (fst (post_init format_exc ext base_hooks mode m)) = Raise e
    /\ exn_cls e = RuntimeError
    /\ error (snd (fst (post_init format_exc ext base_hooks mode m)))
       = Some (mk_exn ValueError
                 "please specify a load method or a model object")
    /\ ready (snd (fst (post_init format_exc ext base_hooks mode m))) = false
    /\ db_calls (snd (post_init format_exc ext base_hooks mode m)) = [].
Proof.
  intros Ht Hmode m. apply string_eqb_false_iff in Hmode.
  unfold post_init, _load_and_update_state.
  assert (Hr : ready m = false) by exact Ht.
  rewrite Hr, Hmode. cbn [negb load base_hooks].
  unfold base_load. rewrite Hr.
  assert (Hm : truthy (model m) = false) by (unfold m; cbn; rewrite Ht; reflexivity).
  rewrite Hm. cbn. eexists. repeat split; auto.
Qed.

(** X17. Outside mock mode, [post_init] on a ready server reconciles the
    endpoint first.  If the reconciliation raises, [post_init] raises the
    same error and leaves the server without endpoint uid and without a
    telemetry pusher.  If it returns, its answer becomes the endpoint uid,
    and the pusher is created in its initial state exactly when streaming is
    on. *)
Theorem post_init_registers_then_streams (h : Hooks) (mode : string)
  (m : V2ModelServer) (gs : GraphServer) :
  ready m = true -> graph_server_of (context m) = Some gs ->
  negb (is_mock (context m)) || monitoring_mock (context m) = true ->
  let rec := _init_endpoint_record ext gs m in
  let r := post_init format_exc ext h mode m in
  snd r = snd rec
  /\ (forall e, fst (fst rec) = Raise e ->
        fst (fst r) = Raise e
        /\ _model_logger (snd (fst r)) = _model_logger m
        /\ model_endpoint_uid (snd (fst r)) = model_endpoint_uid m)
  /\ (forall uid, fst (fst rec) = Return uid ->
        fst (fst r) = Return tt
        /\ model_endpoint_uid (snd (fst r)) = uid
        /\ _model_logger (snd (fst r))
           = (if enabled (stream (context m))
              then Some (new_pusher (context m)) else None)).
Proof.
  intros Hr Hg Hmock rec r. subst rec r.
  unfold post_init. rewrite Hr. cbn [negb].
  unfold graph_server_of in Hg. rewrite Hg, Hmock.
  destruct (init_endpoint_record_frame gs m) as (s & ps & Hf).
  destruct (_init_endpoint_record ext gs m) as [[ru m'] t'].
  cbn [fst snd] in *. subst m'.
  destruct ru as [uid|e]; cbn [fst snd app]; (split; [reflexivity|]); split.
  - intros e He. discriminate.
  - intros uid' He. inversion He; subst. repeat split; reflexivity.
  - intros e' He. inversion He; subst. repeat split; reflexivity.
  - intros uid He. discriminate.
Qed.

End Lifecycle.

(* ================================================================== *)
(** ** Reconciling an endpoint that exists *)

Section ReconcileExisting.
Variable ext : External.
Variable gs : GraphServer.
Variable m : V2ModelServer.

Let m' : V2ModelServer := snd (ensure_model_spec ext m).
Let tag : string := or_latest (function_tag gs).
Let lookup_call : db_call :=
  GetModelEndpoint (project gs) (name m') (function_name gs) tag.
Let function_call : db_call :=
  GetFunction (function_name gs) (project gs) tag.

(** With a record in the registry, the reconciliation patches what [drift]
    lists, and nothing when it lists nothing. *)
Lemma reconcile_existing (x : value * value) (ep : ModelEndpoint)
  (uid : option string) (s : GraphServer) :
  fst (ensure_model_spec ext m) = Return x ->
  get_model_endpoint ext (project gs) (name m') (function_name gs) tag
  = Return ep ->
  get_function ext (function_name gs) (project gs) tag = Return uid ->
  server (context m') = Some s ->
  let r := _init_endpoint_record ext gs m in
  let attrs := drift m' uid (track_models s) ep in
  (attrs = [] ->
   fst (fst r) = Return (ep_uid ep)
   /\ db_calls (snd r) = [lookup_call; function_call])
  /\ (attrs <> [] ->
      fst (fst r)
      = match patch_model_endpoint ext (ep_project ep) (ep_name ep)
                (ep_uid ep) attrs with
        | Return ep' => Return (ep_uid ep')
        | Raise e => Raise e
        end
      /\ db_calls (snd r)
         = [lookup_call; function_call;
            PatchModelEndpoint (ep_project ep) (ep_name ep) (ep_uid ep) attrs]).
Proof.
  intros Hx Hl Hf Hs r attrs. subst r attrs.
  unfold _init_endpoint_record.
  subst lookup_call function_call tag m'.
  destruct (ensure_model_spec ext m) as [r0 m0]. cbn [fst snd] in *. subst r0.
  rewrite Hl. cbv beta iota zeta. rewrite Hf, Hs.
  unfold drift, schema_fields, drifted, local_value, spec_of, set_if.
  cbn [filter map].
  destruct (negb (opt_eqb uid (ep_function_uid ep)));
  destruct (negb (opt_eqb _ (ep_model_name ep)));
  destruct (negb (opt_eqb _ (ep_model_uid ep)));
  destruct (negb (opt_eqb _ (ep_model_tag ep)));
  destruct (negb (opt_eqb _ (ep_model_db_key ep)));
  destruct (negb (labels_eqb _ (ep_labels ep)));
  destruct (negb (String.eqb (class_name m0) (ep_model_class ep)));
  destruct (negb (Bool.eqb _ (track_models s)));
  cbn [app map];
  (split; [intros H; try discriminate; split; reflexivity
          |intros H; try congruence;
           destruct (patch_model_endpoint ext _ _ _ _); split; reflexivity]).
Qed.

(** X18. Steady state.  When the record the registry holds agrees with
    the server on the function uid, the model name, uid, tag and db key, the
    labels, the model class and the monitoring mode, the reconciliation
    returns the uid of that record after the two lookups: it creates
    nothing and patches nothing. *)
Theorem reconcile_steady_state (x : value * value) (ep : ModelEndpoint)
  (uid : option string) (s : GraphServer) :
  fst (ensure_model_spec ext m) = Return x ->
  get_model_endpoint ext (project gs) (name m') (function_name gs) tag
  = Return ep ->
  get_function ext (function_name gs) (project gs) tag = Return uid ->
  server (context m') = Some s ->
  (forall k, In k schema_fields -> drifted m' uid (track_models s) ep k = false) ->
  fst (fst (_init_endpoint_record ext gs m)) = Return (ep_uid ep)
  /\ db_calls (snd (_init_endpoint_record ext gs m))
     = [lookup_call; function_call].
Proof.
  intros Hx Hl Hf Hs Hd.
  destruct (reconcile_existing x ep uid s Hx Hl Hf Hs) as [H _].
  apply H. unfold drift.
  assert (E : filter (drifted m' uid (track_models s) ep) schema_fields = []).
  { induction schema_fields as [|k r IH]; [reflexivity|].
    cbn [filter]. rewrite (Hd k) by now left.
    apply IH. intros k' Hk'. apply Hd. now right. }
  rewrite E. reflexivity.
Qed.

(** X19. Drift.  When the record the registry holds differs from the
    server in some of the compared fields, the reconciliation makes exactly
    one patch call after the two lookups: it names the record by its
    project, name and uid, and carries the fields that differ, each with the
    server's value, and no other field; the answer is the uid of the patched
    record, and an error of the patch is raised. *)
Theorem reconcile_patches_the_drift (x : value * value) (ep : ModelEndpoint)
  (uid : option string) (s : GraphServer) (k0 : ModelEndpointSchema) :
  fst (ensure_model_spec ext m) = Return x ->
  get_model_endpoint ext (project gs) (name m') (function_name gs) tag
  = Return ep ->
  get_function ext (function_name gs) (project gs) tag = Return uid ->
  server (context m') = Some s ->
  drifted m' uid (track_models s) ep k0 = true ->
  exists attrs,
    db_calls (snd (_init_endpoint_record ext gs m))
    = [lookup_call; function_call;
       PatchModelEndpoint (ep_project ep) (ep_name ep) (ep_uid ep) attrs]
    /\ fst (fst (_init_endpoint_record ext gs m))
       = match patch_model_endpoint ext (ep_project ep) (ep_name ep)
                 (ep_uid ep) attrs with
         | Return ep' => Return (ep_uid ep')
         | Raise e => Raise e
         end
    /\ (forall k v, In (k, v) attrs <->
          drifted m' uid (track_models s) ep k = true
          /\ v = local_value m' uid (track_models s) k)
    /\ NoDup (map fst attrs).
Proof.
  intros Hx Hl Hf Hs Hd.
  assert (Hall : forall k, In k schema_fields) by (intros []; cbn; tauto).
  assert (Hnd : NoDup schema_fields)
    by (unfold schema_fields; repeat constructor; cbn; intuition discriminate).
  destruct (reconcile_existing x ep uid s Hx Hl Hf Hs) as [_ H].
  set (attrs := drift m' uid (track_models s) ep) in *.
  assert (Hin : forall k v, In (k, v) attrs <->
            drifted m' uid (track_models s) ep k = true
            /\ v = local_value m' uid (track_models s) k).
  { intros k v. unfold attrs, drift. rewrite in_map_iff. split.
    - intros (k' & Hk & Hf'). inversion Hk; subst.
      apply filter_In in Hf'. tauto.
    - intros (Hk & ->). exists k. split; [reflexivity|].
      apply filter_In. split; [apply Hall|exact Hk]. }
  assert (Hne : attrs <> []).
  { intros E.
    assert (Hk0 : In (k0, local_value m' uid (track_models s) k0) attrs)
      by (apply Hin; split; [exact Hd|reflexivity]).
    rewrite E in Hk0. exact Hk0. }
  destruct (H Hne) as (Hr & Hc).
  exists attrs. split; [exact Hc|]. split; [exact Hr|]. split; [exact Hin|].
  unfold attrs, drift. rewrite map_map. cbn [fst]. rewrite map_id.
  apply NoDup_filter, Hnd.
Qed.

Lemma opt_eqb_refl (a : option string) : opt_eqb a a = true.
Proof. destruct a; cbn; [apply String.eqb_refl|reflexivity]. Qed.

Lemma dict_get_in_nodup {A : Type} (l : list (string * A)) (k : string) (v : A) :
  NoDup (map fst l) -> In (k, v) l -> dict_get k l = Some v.
Proof.
  induction l as [|[k' v'] r IH]; intros Hnd Hin; [contradiction|].
  cbn in Hnd. inversion Hnd as [|? ? Hk Hr]; subst. cbn.
  destruct Hin as [Heq | Hin].
  - inversion Heq; subst. now rewrite String.eqb_refl.
  - destruct (String.eqb_spec k' k) as [->|Hne].
    + exfalso. apply Hk. apply (in_map fst) in Hin. exact Hin.
    + apply IH; assumption.
Qed.

Lemma labels_eqb_refl (l : list (string * string)) :
  NoDup (map fst l) -> labels_eqb l l = true.
Proof.
  intros Hnd. unfold labels_eqb. rewrite Nat.eqb_refl. cbn [andb].
  apply forallb_forall. intros [k v] Hin. cbn [fst snd].
  rewrite (dict_get_in_nodup l k v Hnd Hin). cbn. apply String.eqb_refl.
Qed.

(** X20. The reconciliation is idempotent after a creation: against the
    record it would itself create, as the registry returns it with a uid,
    and with model tracking still on, it finds no drift and returns that
    uid without creating or patching anything. *)
Theorem reconcile_after_create_is_steady (x : value * value)
  (uid u : option string) (s : GraphServer) :
  fst (ensure_model_spec ext m) = Return x ->
  get_model_endpoint ext (project gs) (name m') (function_name gs) tag
  = Return (with_ep_uid (new_endpoint gs m' uid) u) ->
  get_function ext (function_name gs) (project gs) tag = Return uid ->
  server (context m') = Some s -> track_models s = true ->
  NoDup (map fst (spec_of m' art_labels [])) ->
  fst (fst (_init_endpoint_record ext gs m)) = Return u
  /\ db_calls (snd (_init_endpoint_record ext gs m))
     = [lookup_call; function_call].
Proof.
  intros Hx Hl Hf Hs Ht Hnd.
  destruct (reconcile_existing x _ uid s Hx Hl Hf Hs) as [H _].
  apply H. unfold drift, schema_fields, drifted, spec_of in *.
  cbn [filter with_ep_uid new_endpoint ep_function_uid ep_model_name
       ep_model_uid ep_model_tag ep_model_db_key ep_labels ep_model_class
       ep_monitoring_mode mode_of].
  rewrite Ht, !opt_eqb_refl, String.eqb_refl, (labels_eqb_refl _ Hnd).
  reflexivity.
Qed.

End ReconcileExisting.

(* ================================================================== *)
(** ** Parameters and the versioned name *)

Lemma fold_set_other (l : list (string * value)) :
  forall (d : list (string * value)) (k : string),
    ~ In k (map fst l) ->
    dict_get k (fold_left (fun acc kv => dict_set (fst kv) (snd kv) acc) l d)
    = dict_get k d.
Proof.
  induction l as [|[k' v'] r IH]; intros d k Hn; cbn; [reflexivity|].
  rewrite IH by (intros H; apply Hn; now right).
  apply dict_get_set_other. intros ->. apply Hn. now left.
Qed.

Lemma fold_set_in (l : list (string * value)) :
  forall (d : list (string * value)) (k : string) (v : value),
    NoDup (map fst l) -> In (k, v) l ->
    dict_get k (fold_left (fun acc kv => dict_set (fst kv) (snd kv) acc) l d)
    = Some v.
Proof.
  induction l as [|[k' v'] r IH]; intros d k v Hnd Hin; [contradiction|].
  cbn in Hnd. inversion Hnd as [|? ? Hk Hr]; subst. cbn.
  destruct Hin as [Heq | Hin].
  - inversion Heq; subst. rewrite fold_set_other by exact Hk.
    apply dict_get_set_same.
  - apply IH; assumption.
Qed.

Lemma split_once_join (s : string) :
  contains ":" s = true ->
  fst (split_once ":" s) ++ ":" ++ snd (split_once ":" s) = s.
Proof.
  induction s as [|a r IH]; intros H; [discriminate|].
  cbn [split_once]. destruct (Ascii.eqb_spec a ":") as [->|Hne].
  - reflexivity.
  - cbn [contains String.prefix] in H.
    destruct (ascii_dec ":" a) as [e|_]; [congruence|].
    cbn [orb] in H. specialize (IH H).
    destruct (split_once ":" r) as [x y]. cbn [fst snd] in *.
    change (String a x ++ ":" ++ y) with (String a (x ++ ":" ++ y)).
    now rewrite IH.
Qed.

Lemma joined_name_not_empty (a v : string) :
  String.eqb (a ++ ":" ++ v) "" = false.
Proof. destruct a; reflexivity. Qed.

Section ParameterFacts.
Variable ext : External.
Variable context_get_param : string -> value -> value.

(** X21. [get_model] without a model path returns [(None, None)] and
    leaves the server alone, and an error of the model store is raised with
    the server unchanged.  With a path, the artifact it gets becomes the
    model spec and its parameters are merged into the server's: afterwards
    [get_param] answers the artifact's value for each of them, before any
    constructor argument or context parameter of the same name, and
    answers as before for every other key. *)
Theorem artifact_parameters_take_precedence (m : V2ModelServer)
  (suffix : string) :
  (opt_truthy (model_path m) = false ->
   get_model ext m suffix = (Return (VNone, VNone), m))
  /\ (forall pth, model_path m = Some pth -> pth <> "" ->
      (forall e, artifacts_get_model ext pth suffix = Raise e ->
         get_model ext m suffix = (Raise e, m))
      /\ (forall mf a extra,
            artifacts_get_model ext pth suffix = Return (mf, Some a, extra) ->
            NoDup (map fst (art_parameters a)) ->
            let m1 := snd (get_model ext m suffix) in
            fst (get_model ext m suffix) = Return (mf, extra)
            /\ model_spec m1 = Some a
            /\ (forall k v default, In (k, v) (art_parameters a) ->
                  get_param context_get_param m1 k default = v)
            /\ (forall k default, ~ In k (map fst (art_parameters a)) ->
                  get_param context_get_param m1 k default
                  = get_param context_get_param m k default))).
Proof.
  split.
  - intros H. unfold get_model. rewrite H. reflexivity.
  - intros pth Hp Hne.
    assert (Ht : opt_truthy (model_path m) = true).
    { rewrite Hp. cbn. apply string_eqb_false_iff in Hne. now rewrite Hne. }
    split.
    + intros e He. unfold get_model. rewrite Ht, Hp. cbn [fmt_opt].
      rewrite He. reflexivity.
    + intros mf a extra Ha Hnd. cbv zeta.
      unfold get_model. rewrite Ht, Hp. cbn [fmt_opt]. rewrite Ha.
      cbn [fst snd model_spec with_model_spec].
      split; [reflexivity|]. split; [reflexivity|]. split.
      * intros k v default Hin. unfold get_param. cbn [_params with_model_spec].
        rewrite (fold_set_in _ _ k v Hnd Hin). reflexivity.
      * intros k default Hn. unfold get_param. cbn [_params with_model_spec].
        rewrite (fold_set_other _ _ k Hn). reflexivity.
Qed.

(** X22. The name a server is constructed with comes back from
    [versioned_model_name]: given as "name:version" with a version, it is
    returned unchanged; given without a colon, it is returned with ":latest"
    appended.  (For a model path outside the model store.) *)
Theorem versioned_name_round_trip
  (cls : string) (ctx : Context) (s : string) (mpath : option string)
  (mdl : value) (proto input_path result_path : option string)
  (shard : option bool) (kwargs : list (string * value)) :
  opt_truthy mpath && String.prefix "store://" (fmt_opt mpath) = false ->
  let m := init cls ctx (Some s) mpath mdl proto input_path result_path
             shard kwargs in
  (contains ":" s = true -> snd (split_once ":" s) <> "" ->
   fst (versioned_model_name ext m) = Return s)
  /\ (contains ":" s = false ->
      fst (versioned_model_name ext m) = Return (s ++ ":latest")).
Proof.
  intros Hp m. unfold versioned_model_name.
  change (_versioned_model_name m) with (@None string).
  change (model_path m) with mpath.
  cbn [opt_truthy]. rewrite Hp. cbn [fst snd].
  split.
  - intros Hc Hv.
    assert (Hs : String.eqb s "" = false) by (destruct s; [discriminate|reflexivity]).
    assert (Hn : name m = Some (fst (split_once ":" s))
                 /\ version m = snd (split_once ":" s)).
    { unfold m, init. cbn [name version]. rewrite Hs, Hc. cbn [negb andb].
      destruct (split_once ":" s); split; reflexivity. }
    destruct Hn as (Hn1 & Hn2). rewrite Hn1, Hn2.
    apply string_eqb_false_iff in Hv. rewrite Hv. cbn [fst fmt_opt].
    f_equal. apply split_once_join, Hc.
  - intros Hc.
    assert (Hn : name m = Some s /\ version m = "").
    { unfold m, init. cbn [name version]. rewrite Hc, andb_false_r.
      split; reflexivity. }
    destruct Hn as (Hn1 & Hn2). rewrite Hn1, Hn2. reflexivity.
Qed.

(** X23. The versioned name is computed once: after a call that returned
    it, a second call returns the same text, changes nothing, and does not
    go to the model store again (it answers the same with any store). *)
Theorem versioned_name_is_cached (m m1 : V2ModelServer) (full : string)
  (ext' : External) :
  versioned_model_name ext m = (Return full, m1) ->
  versioned_model_name ext' m1 = (Return full, m1).
Proof.
  unfold versioned_model_name at 1.
  destruct (opt_truthy (_versioned_model_name m)) eqn:Hc.
  - intros H. inversion H; subst. unfold versioned_model_name. rewrite Hc.
    reflexivity.
  - match goal with
    | |- (match ?E with _ => _ end) = _ -> _ => destruct E as [[u|e] m2]
    end; [|discriminate].
    intros H. injection H as H1 H2.
    assert (Hf : String.eqb full "" = false)
      by (rewrite <- H1; apply joined_name_not_empty).
    subst m1. unfold versioned_model_name.
    cbn [_versioned_model_name with_version opt_truthy fmt_opt].
    rewrite H1, Hf. reflexivity.
Qed.

End ParameterFacts.


(* ================================================================== *)
(** ** Validation and dict-keyed requests on the way to the model *)

Lemma type_error_cases (m : V2ModelServer) (a : ModelArtifact)
  (req : list (string * value)) :
  model_spec m = Some a -> art_inputs a <> [] ->
  forall new_inputs,
    match dict_get_default "inputs" VNone req with
    | VList items =>
        if forallb is_dict items then
          match pick_all (art_inputs a) items with
          | Some rows => Return (VList rows)
          | None => Raise (missing_keys_error (art_inputs a))
          end
        else
          Raise (mk_exn MLRunInvalidArgumentError
            ("When using predict_dict or infer_dict operation the inputs must be "
             ++ "of type `list[dict]` or `dict`"))
    | VDict d =>
        match pick (art_inputs a) d with
        | Some row => Return (VList row)
        | None => Raise (missing_keys_error (art_inputs a))
        end
    | _ =>
        Raise (mk_exn MLRunInvalidArgumentError
          ("When using predict_dict or infer_dict operation the inputs must be "
           ++ "of type `list[dict]` or `dict`"))
    end = new_inputs ->
    _inputs_to_list m (VDict req)
    = match new_inputs with
      | Raise e => Raise e
      | Return v => Return (VDict (dict_set "inputs" v req))
      end.
Proof.
  intros Ha Hne new_inputs <-. unfold _inputs_to_list. rewrite Ha.
  destruct (art_inputs a); [congruence|reflexivity].
Qed.

(** X24. Edge cases of the dict-to-list conversion, for a model with
    declared input features: an empty list of inputs stays an empty list;
    a request without [inputs], or whose inputs are neither a dict nor a
    list, or are a list with an item that is not a dict, fails with
    [MLRunInvalidArgumentError]; a request that is not a dict fails with
    [AttributeError]; and a conversion that succeeds changes no entry of the
    request but [inputs]. *)
Theorem inputs_to_list_edge_cases (m : V2ModelServer) (a : ModelArtifact)
  (req : list (string * value)) :
  model_spec m = Some a -> art_inputs a <> [] ->
  (dict_get "inputs" req = Some (VList []) ->
   _inputs_to_list m (VDict req)
   = Return (VDict (dict_set "inputs" (VList []) req)))
  /\ (dict_get "inputs" req = None ->
      exists e, _inputs_to_list m (VDict req) = Raise e
                /\ exn_cls e = MLRunInvalidArgumentError)
  /\ (forall items v,
        dict_get "inputs" req = Some (VList items) -> In v items ->
        is_dict v = false ->
        exists e, _inputs_to_list m (VDict req) = Raise e
                  /\ exn_cls e = MLRunInvalidArgumentError)
  /\ (forall l, exists e,
        _inputs_to_list m (VList l) = Raise e /\ exn_cls e = AttributeError)
  /\ (forall r k, _inputs_to_list m (VDict req) = Return (VDict r) ->
        k <> "inputs" -> dict_get k r = dict_get k req).
Proof.
  intros Ha Hne.
  split; [|split; [|split; [|split]]].
  - intros H. erewrite type_error_cases; eauto.
    unfold dict_get_default. rewrite H. reflexivity.
  - intros H. erewrite type_error_cases; eauto.
    unfold dict_get_default. rewrite H. eexists; split; reflexivity.
  - intros items v H Hin Hd. erewrite type_error_cases; eauto.
    unfold dict_get_default. rewrite H.
    assert (Hf : forallb is_dict items = false).
    { destruct (forallb is_dict items) eqn:E; [|reflexivity].
      rewrite forallb_forall in E. rewrite (E v Hin) in Hd. discriminate. }
    rewrite Hf. eexists; split; reflexivity.
  - intros l. unfold _inputs_to_list. rewrite Ha.
    destruct (art_inputs a); [congruence|]. eexists; split; reflexivity.
  - intros r k H Hk.
    rewrite (type_error_cases m a req Ha Hne _ eq_refl) in H.
    match type of H with
    | match ?X with _ => _ end = _ => destruct X as [v|e]; [|discriminate]
    end.
    inversion H; subst. apply dict_get_set_other. exact Hk.
Qed.

Section OnTheWay.
Variable extract : option string -> value -> value.
Variable update : option string -> value -> value -> value.
Variable format_exc : exn -> string.
Variable py_str : value -> string.

Let dispatch := do_event extract update format_exc py_str.

(** X25. With the validation of the base class under protocol "v2", a
    predict, infer or explain request on a ready server, whose body is a dict
    without a list under [inputs], is refused with a plain [Exception] before
    the model is asked: the answer does not depend on [predict] or
    [explain], the server is untouched and nothing goes to the telemetry.
    With a list under [inputs] the body is what the model receives. *)
Theorem invalid_request_is_rejected (h : Hooks) (env : Env)
  (m : V2ModelServer) (event : Event) (o event_id : value)
  (d : list (string * value)) :
  operation_of event (extract (_input_path m) (body event)) = (o, event_id) ->
  o = VStr "predict" \/ o = VStr "infer" \/ o = VStr "explain" ->
  ready m = true -> protocol m = "v2" ->
  (forall b o', preprocess h b o' = Return b) ->
  validate h = base_validate ->
  extract (_input_path m) (body event) = VDict d ->
  ((forall l, dict_get "inputs" d <> Some (VList l)) ->
   exists e,
     dispatch h env m event = (Raise e, m, [])
     /\ exn_cls e = PlainException
     /\ (dict_get "inputs" d = None -> exn_msg e = missing_inputs_msg)
     /\ (dict_get "inputs" d <> None -> exn_msg e = inputs_not_list_msg))
  /\ (forall l, dict_get "inputs" d = Some (VList l) ->
      _pre_event_processing_actions h env m event
        (extract (_input_path m) (body event)) o
      = (Return (VDict d), [])).
Proof.
  intros Ho Hop Hr Hp Hpre Hval Hb.
  assert (Hinf : inference_op o).
  { destruct Hop as [-> | [-> | ->]]; [left; left|left; right; left|right];
      reflexivity. }
  assert (Hnd : contains "_dict" (op_str o) = false)
    by (destruct Hop as [-> | [-> | ->]]; reflexivity).
  assert (Hstep : _pre_event_processing_actions h env m event
                    (extract (_input_path m) (body event)) o
                  = (base_validate m (VDict d) o, [])).
  { unfold _pre_event_processing_actions, _check_readiness.
    rewrite Hr, Hnd, Hb, Hpre, Hval. reflexivity. }
  split.
  - intros Hno. unfold dispatch.
    rewrite (dispatch_inference extract update format_exc py_str h env m event
               o event_id Ho Hinf), Hstep.
    rewrite (settled_ready _ _ _ _ Hr).
    unfold base_validate. rewrite Hp. cbn [String.eqb Ascii.eqb Bool.eqb].
    destruct (dict_get "inputs" d) as [v|] eqn:E.
    + destruct v; try (exfalso; exact (Hno _ eq_refl));
        eexists; (split; [reflexivity|]); (split; [reflexivity|]);
        (split; [discriminate|reflexivity]).
    + eexists. split; [reflexivity|]. split; [reflexivity|].
      split; [reflexivity|congruence].
  - intros l Hl. rewrite Hstep. unfold base_validate. rewrite Hp, Hl.
    reflexivity.
Qed.


End OnTheWay.

(* ================================================================== *)
(** ** The further properties at concrete servers *)

Lemma pusher_state_invariant_witness :
  pusher_inv (push_all Demo.fe (Demo.srv Demo.quiet_stream 2 3)
                [Demo.call 1; Demo.call 2; Demo.call 3; Demo.call 4]
                (new_pusher (Demo.ctx Demo.quiet_stream 2 3))).
Proof.
  apply (pusher_state_invariant Demo.fe (Demo.srv Demo.quiet_stream 2 3)
           (Demo.ctx Demo.quiet_stream 2 3)
           [Demo.call 1; Demo.call 2; Demo.call 3; Demo.call 4]).
  cbn. lia.
Defined.

Lemma metric_reaches_the_record_witness :
  dict_get "latency" (metrics (set_metric (Demo.srv Demo.quiet_stream 1 1)
                                 "hits" (VInt 1)))
  = dict_get "latency" (metrics (Demo.srv Demo.quiet_stream 1 1))
  /\ dict_get "metrics"
       (dict_of (flat_data (Demo.srv Demo.quiet_stream 1 1)
                   (Demo.pusher Demo.quiet_stream 1 1) (Demo.call 1)))
     = None.
Proof.
  destruct (metric_reaches_the_record (Demo.srv Demo.quiet_stream 1 1)
              (Demo.pusher Demo.quiet_stream 1 1) (Demo.call 1) "hits" (VInt 1))
    as (_ & _ & Hother & Hnone).
  split.
  - apply Hother. discriminate.
  - apply Hnone. reflexivity.
Defined.

Lemma custom_operation_witness :
  do_event Demo.extract Demo.update Demo.fe Demo.show Cases.hooks_custom
    Demo.env (Demo.cold Demo.quiet_stream) (Demo.ev "/stats" "GET" VNone None)
  = (Return (with_body (Demo.ev "/stats" "GET" VNone None)
               (VDict [("count", VInt 3)]) false),
     Demo.cold Demo.quiet_stream, [])
  /\ exists e,
       do_event Demo.extract Demo.update Demo.fe Demo.show Demo.hooks
         Demo.env (Demo.cold Demo.quiet_stream)
         (Demo.ev "/stats" "GET" VNone None)
       = (Raise e, Demo.cold Demo.quiet_stream, [])
       /\ exn_cls e = ValueError.
Proof.
  split.
  - destruct (custom_operation Demo.extract Demo.update Demo.fe Demo.show
                Cases.hooks_custom Demo.env (Demo.cold Demo.quiet_stream)
                (Demo.ev "/stats" "GET" VNone None) "stats" eq_refl)
      as [H _].
    + cbn. intuition discriminate.
    + intros _. split; discriminate.
    + exact (H _ eq_refl).
  - destruct (custom_operation Demo.extract Demo.update Demo.fe Demo.show
                Demo.hooks Demo.env (Demo.cold Demo.quiet_stream)
                (Demo.ev "/stats" "GET" VNone None) "stats" eq_refl)
      as [_ H].
    + cbn. intuition discriminate.
    + intros _. split; discriminate.
    + exact (H eq_refl).
Defined.

Lemma not_ready_inference_is_refused_witness :
  do_event Demo.extract Demo.update Demo.fe Demo.show Demo.hooks Demo.env
    (Demo.cold Demo.quiet_stream) (Demo.ev "/infer" "POST" Demo.inputs_123 None)
  = (Raise (mk_exn RuntimeError "model my is not ready yet"),
     Demo.cold Demo.quiet_stream, []).
Proof.
  exact (not_ready_inference_is_refused Demo.extract Demo.update Demo.fe
           Demo.show Demo.hooks Demo.env (Demo.cold Demo.quiet_stream)
           (Demo.ev "/infer" "POST" Demo.inputs_123 None)
           (VStr "infer") (VStr "e-1") eq_refl
           (or_introl (or_intror (or_introl eq_refl))) eq_refl eq_refl).
Defined.

Lemma inference_failure_is_recorded_witness :
  exists p',
    fst (fst (do_event Demo.extract Demo.update Demo.fe Demo.show
                Demo.failing_hooks Demo.env (Demo.srv Demo.quiet_stream 4 7)
                (Demo.ev "/infer" "POST" Demo.inputs_123 None)))
    = Raise Demo.bad_input
    /\ _model_logger
         (snd (fst (do_event Demo.extract Demo.update Demo.fe Demo.show
                      Demo.failing_hooks Demo.env
                      (Demo.srv Demo.quiet_stream 4 7)
                      (Demo.ev "/infer" "POST" Demo.inputs_123 None))))
       = Some p'
    /\ List.length (sink_calls p') = 1%nat
    /\ counters p' = (0, 0, []).
Proof.
  destruct (inference_failure_is_recorded Demo.extract Demo.update Demo.fe
              Demo.show Demo.failing_hooks Demo.env
              (Demo.srv Demo.quiet_stream 4 7)
              (Demo.ev "/infer" "POST" Demo.inputs_123 None)
              (VStr "infer") (VStr "e-1") Demo.inputs_123 [] Demo.bad_input
              (Demo.pusher Demo.quiet_stream 4 7) Demo.quiet_stream
              eq_refl (or_introl (or_intror (or_introl eq_refl)))
              eq_refl eq_refl eq_refl eq_refl) as [H _].
  destruct (H [("inputs", VList [VList [VInt 1; VInt 2; VInt 3]])]
              eq_refl eq_refl) as (p' & H1 & H2 & _ & Hs & Hc & _).
  exists p'. split; [exact H1|]. split; [exact H2|].
  split; [rewrite Hs; reflexivity|exact Hc].
Defined.

Lemma one_sink_call_per_event_witness :
  exists p',
    _model_logger
      (snd (fst (do_event Demo.extract Demo.update Demo.fe Demo.show Demo.hooks
                   Demo.env (Demo.srv Demo.quiet_stream 1 1)
                   (Demo.ev "/infer" "POST" Demo.inputs_123 None))))
    = Some p'
    /\ (List.length (sink_calls p') <= 1)%nat.
Proof.
  destruct (one_sink_call_per_event Demo.extract Demo.update Demo.fe Demo.show
              Demo.hooks Demo.env (Demo.srv Demo.quiet_stream 1 1)
              (Demo.ev "/infer" "POST" Demo.inputs_123 None)
              (Demo.pusher Demo.quiet_stream 1 1) Demo.quiet_stream
              eq_refl eq_refl) as (p' & Hl & [Hs | (recs & Hs)]).
  - exists p'. split; [exact Hl|]. rewrite Hs. cbn. lia.
  - exists p'. split; [exact Hl|]. rewrite Hs. cbn. lia.
Defined.

Lemma sync_load_outcome_witness :
  post_init Demo.fe Demo.registry Cases.hooks_load_fails "sync"
    (Demo.cold Demo.quiet_stream)
  = (Raise (mk_exn RuntimeError "failed to load model my"),
     with_error (Demo.cold Demo.quiet_stream) (Some Cases.no_file),
     [ELoad; ELog "error" (Demo.fe Cases.no_file)])
  /\ ready (snd (fst (post_init Demo.fe Demo.registry
                        {| load := fun m => (Return tt, m);
                           preprocess := preprocess base_hooks;
                           validate := base_validate;
                           predict := predict Demo.hooks;
                           explain := explain Demo.hooks;
                           postprocess := postprocess base_hooks;
                           logged_results := logged_results base_hooks;
                           custom_op := custom_op base_hooks |}
                        "sync" (Demo.cold Demo.quiet_stream)))) = true.
Proof.
  split.
  - destruct (sync_load_outcome Demo.fe Demo.registry Cases.hooks_load_fails
                "sync" (Demo.cold Demo.quiet_stream)
                ltac:(discriminate) eq_refl) as [H _].
    exact (H Cases.no_file (Demo.cold Demo.quiet_stream) eq_refl).
  - destruct (sync_load_outcome Demo.fe Demo.registry
                {| load := fun m => (Return tt, m);
                   preprocess := preprocess base_hooks;
                   validate := base_validate;
                   predict := predict Demo.hooks;
                   explain := explain Demo.hooks;
                   postprocess := postprocess base_hooks;
                   logged_results := logged_results base_hooks;
                   custom_op := custom_op base_hooks |}
                "sync" (Demo.cold Demo.quiet_stream)
                ltac:(discriminate) eq_refl) as [_ H].
    exact (H tt (Demo.cold Demo.quiet_stream) eq_refl).
Defined.

Lemma base_class_needs_a_model_witness :
  exists e,
    fst (fst (post_init Demo.fe Demo.registry base_hooks "sync"
                (Demo.cold Demo.quiet_stream))) = Raise e
    /\ exn_cls e = RuntimeError.
Proof.
  destruct (base_class_needs_a_model Demo.fe Demo.registry "MyModel"
              (Demo.ctx Demo.quiet_stream 1 1) (Some "my") None VNone
              None None None None [] "sync" eq_refl ltac:(discriminate))
    as (e & H1 & H2 & _).
  exists e. split; [exact H1|exact H2].
Defined.

Lemma post_init_registers_then_streams_witness :
  model_endpoint_uid
    (snd (fst (post_init Demo.fe Demo.registry Demo.hooks "sync"
                 (Cases.srv_in (Demo.ctx Demo.quiet_stream 1 1)))))
  = Some "ep-1"
  /\ _model_logger
       (snd (fst (post_init Demo.fe
                    (Demo.registry_functions_fail Demo.stream_down)
                    Demo.hooks "sync"
                    (Cases.srv_in (Demo.ctx Demo.quiet_stream 1 1)))))
     = None.
Proof.
  split.
  - destruct (post_init_registers_then_streams Demo.fe Demo.registry Demo.hooks
                "sync" (Cases.srv_in (Demo.ctx Demo.quiet_stream 1 1)) Demo.gs
                eq_refl eq_refl eq_refl) as (_ & _ & H).
    destruct (H (Some "ep-1") eq_refl) as (_ & Hu & _). exact Hu.
  - destruct (post_init_registers_then_streams Demo.fe
                (Demo.registry_functions_fail Demo.stream_down) Demo.hooks
                "sync" (Cases.srv_in (Demo.ctx Demo.quiet_stream 1 1)) Demo.gs
                eq_refl eq_refl eq_refl) as (_ & H & _).
    destruct (H Demo.stream_down eq_refl) as (_ & Hl & _). exact Hl.
Defined.

Lemma reconcile_steady_state_witness :
  db_calls (snd (_init_endpoint_record (Cases.registry_holding Demo.endpoint)
                   Demo.gs (Demo.srv Demo.quiet_stream 1 1)))
  = [GetModelEndpoint "proj" (Some "my") "serve" "latest";
     GetFunction "serve" "proj" "latest"].
Proof.
  destruct (reconcile_steady_state (Cases.registry_holding Demo.endpoint)
              Demo.gs (Demo.srv Demo.quiet_stream 1 1) (VNone, VNone)
              Demo.endpoint (Some "fn-1") Demo.gs
              eq_refl eq_refl eq_refl eq_refl) as [_ H].
  - intros k _. destruct k; reflexivity.
  - exact H.
Defined.

Lemma reconcile_patches_the_drift_witness :
  exists attrs,
    db_calls (snd (_init_endpoint_record
                     (Cases.registry_holding Cases.stale_endpoint)
                     Demo.gs (Demo.srv Demo.quiet_stream 1 1)))
    = [GetModelEndpoint "proj" (Some "my") "serve" "latest";
       GetFunction "serve" "proj" "latest";
       PatchModelEndpoint "proj" (Some "my") (Some "ep-1") attrs]
    /\ In (MODEL_CLASS, VStr "MyModel") attrs.
Proof.
  destruct (reconcile_patches_the_drift
              (Cases.registry_holding Cases.stale_endpoint)
              Demo.gs (Demo.srv Demo.quiet_stream 1 1) (VNone, VNone)
              Cases.stale_endpoint (Some "fn-1") Demo.gs MODEL_CLASS
              eq_refl eq_refl eq_refl eq_refl eq_refl)
    as (attrs & Hc & _ & Hin & _).
  exists attrs. split; [exact Hc|].
  apply Hin. split; reflexivity.
Defined.

Lemma reconcile_after_create_is_steady_witness :
  fst (fst (_init_endpoint_record
              (Cases.registry_holding
                 (with_ep_uid (new_endpoint Demo.gs
                                 (Demo.srv Demo.quiet_stream 1 1) (Some "fn-1"))
                    (Some "ep-9")))
              Demo.gs (Demo.srv Demo.quiet_stream 1 1)))
  = Return (Some "ep-9").
Proof.
  destruct (reconcile_after_create_is_steady
              (Cases.registry_holding
                 (with_ep_uid (new_endpoint Demo.gs
                                 (Demo.srv Demo.quiet_stream 1 1) (Some "fn-1"))
                    (Some "ep-9")))
              Demo.gs (Demo.srv Demo.quiet_stream 1 1) (VNone, VNone)
              (Some "fn-1") (Some "ep-9") Demo.gs
              eq_refl eq_refl eq_refl eq_refl eq_refl) as [H _].
  - constructor.
  - exact H.
Defined.

Lemma artifact_parameters_take_precedence_witness :
  get_param Cases.no_context_param
    (snd (get_model Cases.store Cases.srv_with_path ".pkl"))
    "threshold" VNone
  = VInt 5
  /\ get_param Cases.no_context_param
       (snd (get_model Cases.store Cases.srv_with_path ".pkl")) "k" VNone
     = VInt 2
  /\ get_model Cases.store (Demo.srv Demo.quiet_stream 1 1) ".pkl"
     = (Return (VNone, VNone), Demo.srv Demo.quiet_stream 1 1).
Proof.
  destruct (artifact_parameters_take_precedence Cases.store
              Cases.no_context_param Cases.srv_with_path ".pkl") as [_ H].
  destruct (H "/models/clf" eq_refl ltac:(discriminate)) as [_ H1].
  destruct (H1 (VStr "/tmp/model.pkl") Cases.artifact (VDict []) eq_refl)
    as (_ & _ & Hin & Hout).
  { repeat constructor. cbn. tauto. }
  split; [|split].
  - apply Hin. now left.
  - rewrite Hout; [reflexivity|]. cbn. intuition discriminate.
  - destruct (artifact_parameters_take_precedence Cases.store
                Cases.no_context_param (Demo.srv Demo.quiet_stream 1 1) ".pkl")
      as [H0 _].
    apply H0. reflexivity.
Defined.

Lemma versioned_name_round_trip_witness :
  fst (versioned_model_name Demo.registry
         (init "MyModel" (Demo.ctx Demo.quiet_stream 1 1) (Some "my:v2")
            (Some "/models/clf") VNone None None None None []))
  = Return "my:v2"
  /\ fst (versioned_model_name Demo.registry
            (init "MyModel" (Demo.ctx Demo.quiet_stream 1 1) (Some "my")
               None VNone None None None None []))
     = Return "my:latest".
Proof.
  split.
  - destruct (versioned_name_round_trip Demo.registry "MyModel"
                (Demo.ctx Demo.quiet_stream 1 1) "my:v2" (Some "/models/clf")
                VNone None None None None [] eq_refl) as [H _].
    apply H; [reflexivity|discriminate].
  - destruct (versioned_name_round_trip Demo.registry "MyModel"
                (Demo.ctx Demo.quiet_stream 1 1) "my" None
                VNone None None None None [] eq_refl) as [_ H].
    apply H. reflexivity.
Defined.

Lemma versioned_name_is_cached_witness :
  versioned_model_name Demo.registry
    (snd (versioned_model_name Cases.store
            (init "MyModel" (Demo.ctx Demo.quiet_stream 1 1) (Some "my")
               (Some "store://models/proj/clf") VNone None None None None [])))
  = (Return "my:v1",
     snd (versioned_model_name Cases.store
            (init "MyModel" (Demo.ctx Demo.quiet_stream 1 1) (Some "my")
               (Some "store://models/proj/clf") VNone None None None None []))).
Proof.
  apply (versioned_name_is_cached Cases.store
           (init "MyModel" (Demo.ctx Demo.quiet_stream 1 1) (Some "my")
              (Some "store://models/proj/clf") VNone None None None None [])
           _ "my:v1" Demo.registry).
  reflexivity.
Defined.

Lemma inputs_to_list_edge_cases_witness :
  _inputs_to_list (Demo.srv_features Demo.quiet_stream)
    (VDict [("id", VStr "r-1"); ("inputs", VList [])])
  = Return (VDict [("id", VStr "r-1"); ("inputs", VList [])])
  /\ exists e,
       _inputs_to_list (Demo.srv_features Demo.quiet_stream)
         (VDict [("inputs", VList [VDict [("a", VInt 1); ("b", VInt 2)];
                                   VInt 3])])
       = Raise e
       /\ exn_cls e = MLRunInvalidArgumentError.
Proof.
  split.
  - destruct (inputs_to_list_edge_cases (Demo.srv_features Demo.quiet_stream)
                Demo.features [("id", VStr "r-1"); ("inputs", VList [])]
                eq_refl ltac:(discriminate)) as (H & _).
    exact (H eq_refl).
  - destruct (inputs_to_list_edge_cases (Demo.srv_features Demo.quiet_stream)
                Demo.features
                [("inputs", VList [VDict [("a", VInt 1); ("b", VInt 2)]; VInt 3])]
                eq_refl ltac:(discriminate)) as (_ & _ & H & _).
    apply (H _ (VInt 3) eq_refl); [right; now left|reflexivity].
Defined.

Lemma invalid_request_is_rejected_witness :
  exists e,
    do_event Demo.extract Demo.update Demo.fe Demo.show Demo.hooks Demo.env
      (Demo.srv Demo.quiet_stream 1 1)
      (Demo.ev "/infer" "POST" (VDict [("inputs", VInt 3)]) None)
    = (Raise e, Demo.srv Demo.quiet_stream 1 1, [])
    /\ exn_msg e = inputs_not_list_msg.
Proof.
  destruct (invalid_request_is_rejected Demo.extract Demo.update Demo.fe
              Demo.show Demo.hooks Demo.env (Demo.srv Demo.quiet_stream 1 1)
              (Demo.ev "/infer" "POST" (VDict [("inputs", VInt 3)]) None)
              (VStr "infer") (VStr "e-1") [("inputs", VInt 3)]
              eq_refl (or_intror (or_introl eq_refl)) eq_refl eq_refl
              (fun _ _ => eq_refl) eq_refl eq_refl) as [H _].
  destruct H as (e & He & _ & _ & Hm).
  - intros l. discriminate.
  - exists e. split; [exact He|]. apply Hm. discriminate.
Defined.


